(** * Token visibility: range, line-of-sight area and constrained footprints

    A shallow embedding of [scripts/module.js] (the visibility wrappers
    [elevatePoints], [_testRangeDetectionMode], [_testLOSDetectionMode],
    [testLOSPoint], [testLOSArea], [areaTest], [shadowPolygonForElevation],
    [sourceIntersectsBounds], [sourceIntersectsPolygonBounds] and
    [constrainedTokenShape]) together with the constants of [const.js] and
    the setting keys of [settings.js] they read.

    JavaScript numbers are IEEE 754 binary64 values and are modelled by the
    primitive floats of the kernel, so every comparison below is the one
    the interpreter performs (NaN compares false, [+0 === -0]).  Calls into
    the host (Foundry, PIXI, the clipping and shadow classes) are fields of
    the [Host] interface and are taken to be deterministic.  The costly ones
    (quadtree queries, sweeps, clipping, shadow construction, the light
    radius, 3D collision tests), the log lines and the debug drawings are
    recorded in an event trace, in the order the code performs them.

    The settings code of [scripts/settings.js] (registration, the handlers
    that show and hide settings, the temporary changes of the settings
    sheet), the patch groups of [patching.js], the cover tables, module
    flags and cover handler of [const.js] and the combat turn hook are
    scripts on an explicit state, which return or throw. *)

From Stdlib Require Import Floats List Bool String ZArith Lia.
Import ListNotations.

Set Warnings "-inexact-float".

(* ------------------------------------------------------------------ *)
(** ** JavaScript numbers *)

Module JS.

(** [!x] for a number [x]: zero of either sign and NaN are falsy. *)
Definition falsy (x : float) : bool := (x =? 0)%float || is_nan x.

(** [a > b] *)
Definition gt (a b : float) : bool := (b <? a)%float.

(** [a !== b] on numbers. *)
Definition strict_ne (a b : float) : bool := negb (a =? b)%float.

(** The global [isFinite]. *)
Definition isFinite (x : float) : bool := is_finite x.

(** Reading a number out of a slot that may hold [undefined]:
    [undefined - y] is NaN. *)
Definition to_number (x : option float) : float :=
  match x with Some v => v | None => nan end.

(** [x ??= d] *)
Definition nullish_assign {A} (x : option A) (d : A) : option A :=
  match x with Some v => Some v | None => Some d end.

End JS.

(** const.js *)
Definition EPSILON : float := 1e-08%float.

(** Modelled from the spec: [Number.prototype.almostEqual], registered by
    the geometry library and absent from the sources; "almost-equal" is
    equality up to the tolerance epsilon (1e-8). *)
Definition almostEqual (a b : float) : bool := (abs (a - b) <? EPSILON)%float.

(* ------------------------------------------------------------------ *)
(** ** Geometry values handed over by the host *)

Record Point := mkPoint { x : float; y : float }.

(** [Point3d]; a test point coming from the host may have no [z] yet. *)
Record Point3d := mkPoint3d { x3 : float; y3 : float; z3 : option float }.

(** [PIXI.Rectangle] with its getters. *)
Record Rectangle := mkRect { rx : float; ry : float; width : float; height : float }.

Definition left (r : Rectangle) : float := rx r.
Definition right (r : Rectangle) : float := (rx r + width r)%float.
Definition top (r : Rectangle) : float := ry r.
Definition bottom (r : Rectangle) : float := (ry r + height r)%float.

(** [PIXI.Rectangle.prototype.pad] *)
Definition pad (r : Rectangle) (paddingX paddingY : float) : Rectangle :=
  mkRect (rx r - paddingX) (ry r - paddingY)
         (width r + paddingX * 2) (height r + paddingY * 2).

(** [PIXI.Polygon]: the flat coordinate array [points]. *)
Record Polygon := mkPolygon { points : list float; isHole : bool }.

(** [ClipperPaths]: a region of several contours. *)
Record ClipperPaths := mkPaths { paths : list Polygon }.

(** What a line-of-sight region can be at run time. *)
Inductive Shape :=
| SPolygon (p : Polygon)
| SRectangle (r : Rectangle)
| SClipperPaths (c : ClipperPaths).

Definition isClipperPaths (s : Shape) : bool :=
  match s with SClipperPaths _ => true | _ => false end.

(** What [constrainedTokenShape] returns: the bounds or the sweep polygon. *)
Inductive Footprint :=
| FRectangle (r : Rectangle)
| FPolygon (p : Polygon).

Definition shapeOf (f : Footprint) : Shape :=
  match f with FRectangle r => SRectangle r | FPolygon p => SPolygon p end.

Record Edge := mkEdge { A : Point; B : Point }.

Record Wall := mkWall {
  wallA : Point;
  wallB : Point;
  wallTopZ : float;
  wallBottomZ : float
}.

(** An entry of the wall quadtree: [o.r] is its rectangle, [o.t] the wall. *)
Record QuadtreeObject := mkQObj { qr : Rectangle; qt : Wall }.

Record Shadow := mkShadow { shadowPoints : list float }.

Record VisionSource := mkVision {
  vx : float;
  vy : float;
  elevationZ : float;
  los : Polygon
}.

Record Token := mkToken {
  bounds : Rectangle;
  center : Point;
  topZ : float;
  bottomZ : float;
  (** [token._constrainedTokenShape]; [None] is [undefined]. *)
  _constrainedTokenShape : option Footprint
}.

(** [target instanceof Token] *)
Inductive Placeable :=
| IsToken (t : Token)
| NotToken.

(* ------------------------------------------------------------------ *)
(** ** settings.js *)

Module SETTINGS.
Inductive RANGE_TYPES := CENTER | FOUNDRY | FOUNDRY_3D.
Inductive LOS_TYPES := POINTS | AREA | LOS_UNKNOWN.

Definition range_eqb (a b : RANGE_TYPES) : bool :=
  match a, b with
  | CENTER, CENTER | FOUNDRY, FOUNDRY | FOUNDRY_3D, FOUNDRY_3D => true
  | _, _ => false
  end.
End SETTINGS.

Record Settings := mkSettings {
  RANGE_ALGORITHM : SETTINGS.RANGE_TYPES;
  LOS_ALGORITHM : SETTINGS.LOS_TYPES;
  PERCENT_AREA : float
}.

(* ------------------------------------------------------------------ *)
(** ** Effects: the trace of host calls, log lines and drawings *)

Inductive Color := blue | green | red.

Definition okColor (b : bool) : Color := if b then green else red.

Inductive IntersectFn := foundry_lineSegmentIntersects.

Inductive Event :=
| Log (msg : string)
| Warn (msg : string)
| ClearDrawings
| DrawPoint (p : Point3d) (alpha radius : option float) (c : Color)
| DrawShape (s : Shape) (c : Color) (w : option float)
| QuadtreeGetObjects (rect : Rectangle)
| ClockwiseSweep (origin : Point) (boundary : Rectangle)
| IntersectPolygon (region : Shape) (clip : Polygon)
| ShadowConstruct (w : Wall) (elevation : float)
| CombinePolygonWithShadows (n : nat)
| GetLightRadius
| TestCollision3d (a b : Point3d).

Definition isDrawing (e : Event) : bool :=
  match e with
  | ClearDrawings | DrawPoint _ _ _ _ | DrawShape _ _ _ => true
  | _ => false
  end.

Definition isClipping (e : Event) : bool :=
  match e with IntersectPolygon _ _ => true | _ => false end.

(** A computation returns its value and the events it caused, in order. *)
Definition Run (T : Type) : Type := (T * list Event)%type.

Definition ret {T} (v : T) : Run T := (v, []).

Definition bind {T U} (m : Run T) (k : T -> Run U) : Run U :=
  let '(v, t1) := m in
  let '(u, t2) := k v in
  (u, t1 ++ t2).

Definition emit (e : Event) : Run unit := (tt, [e]).

(** [debug && f(...)] *)
Definition when (b : bool) (m : Run unit) : Run unit := if b then m else ret tt.

Definition value {T} (m : Run T) : T := fst m.
Definition trace {T} (m : Run T) : list Event := snd m.

Declare Scope run_scope.
Delimit Scope run_scope with run.
Notation "x <- m ;; k" := (bind m (fun x => k))
  (at level 61, m at next level, right associativity) : run_scope.
Notation "m ;;; k" := (bind m (fun _ => k))
  (at level 61, right associativity) : run_scope.
Local Open Scope run_scope.

Fixpoint forEach {T} (l : list T) (body : T -> Run unit) : Run unit :=
  match l with
  | [] => ret tt
  | a :: l' => body a ;;; forEach l' body
  end.

(* ------------------------------------------------------------------ *)
(** ** The host interface *)

Class Host := {
  (** [canvas.walls.quadtree]: the entries whose rectangle overlaps [rect]. *)
  quadtree_overlapping : Rectangle -> list QuadtreeObject;
  (** [rect.lineSegmentIntersects(a, b, { inside, intersectFn })]; an option
      left out of the call is [None]. *)
  lineSegmentIntersects :
    Rectangle -> Point -> Point -> option bool -> option IntersectFn -> bool;
  (** [shape.iterateEdges()] *)
  iterateEdges : Shape -> list Edge;
  (** [polygon.getBounds()] *)
  getBounds : Polygon -> Rectangle;
  (** [polygon.linesCross(edges)] *)
  linesCross : Polygon -> list Edge -> bool;
  (** [polygon.iteratePoints({ close })] *)
  iteratePoints : Polygon -> bool -> list Point;
  (** [ClockwiseSweepPolygon]: [initialize(origin, { boundaryShapes: [bbox] })]
      followed by [compute()]. *)
  clockwiseSweep : Point -> Rectangle -> Polygon;
  (** [los.bounds] *)
  polygonBounds : Polygon -> Rectangle;
  (** [Shadow.construct(wall, source, elevation)]; [None] when there is none. *)
  Shadow_construct : Wall -> VisionSource -> float -> option Shadow;
  (** [Shadow.combinePolygonWithShadows(los, shadows)] *)
  Shadow_combinePolygonWithShadows : Polygon -> list Shadow -> Shape;
  (** [region.intersectPolygon(polygon)] *)
  intersectPolygon : Shape -> Polygon -> Shape;
  (** [rectangle.toPolygon()] *)
  toPolygon : Rectangle -> Polygon;
  (** [shape.area()] *)
  area : Shape -> float;
  (** [clipperPaths.simplify()] and [clipperPaths.toPolygons()] *)
  simplify : ClipperPaths -> Shape;
  toPolygons : ClipperPaths -> list Polygon;
  (** [visionSource.object.getLightRadius(mode.range)] *)
  getLightRadius : VisionSource -> float -> float;
  (** [ClockwiseSweepPolygon.testCollision3d(origin, point, ...)] *)
  testCollision3d : Point3d -> Point3d -> bool;
  (** [game.modules.get("wall-height")?.active], as a boolean *)
  wallHeightActive : bool;
  (** [Math.ceil] *)
  Math_ceil : float -> float
}.

(** The module's global state read by the tests:
    [game.modules.get(MODULE_ID).api.debug] and the registered settings. *)
Record Game := mkGame {
  debug : bool;
  settings : Settings
}.

Definition getSetting_PERCENT_AREA (g : Game) : float := PERCENT_AREA (settings g).

(** The [los] map of a test object: maps are shared by reference. *)
Inductive LosMap :=
| MapRef (id : nat)
| NewMap.

(** A test object of [CanvasVisibility.prototype.testVisibility], with the
    two fields this module adds: [centerPoint] is a reference to another
    element of the tests array (its index), [hasLOSArea] the cached answer. *)
Record Test := mkTest {
  point : Point3d;
  losMap : LosMap;
  centerPoint : option nat;
  hasLOSArea : option bool
}.

(** [mode.range] *)
Record Mode := mkMode { range : float }.

(** An array slot: [None] is [undefined]. *)
Definition Slot := option Test.

(* ------------------------------------------------------------------ *)
(** ** scripts/module.js *)

Section Module_js.

Context {H : Host}.

(** [canvas.walls.quadtree.getObjects(rect, { collisionTest })]: the host
    keeps the overlapping entries that pass [collisionTest] and returns
    their walls. *)
Definition quadtree_getObjects (rect : Rectangle)
    (collisionTest : option (QuadtreeObject -> Rectangle -> bool)) : Run (list Wall) :=
  emit (QuadtreeGetObjects rect) ;;;
  ret (map qt (filter (fun o => match collisionTest with
                                | Some f => f o rect
                                | None => true
                                end)
                      (quadtree_overlapping rect))).

(** Modelled from the spec: [Point3d.prototype.almostEqual] of Point3d.js,
    absent from the sources; equality of points uses the tolerance epsilon
    on every coordinate. *)
Definition Point3d_almostEqual (p q : Point3d) : bool :=
  almostEqual (x3 p) (x3 q) && almostEqual (y3 p) (y3 q)
  && almostEqual (JS.to_number (z3 p)) (JS.to_number (z3 q)).

Definition setZ (p : Point3d) (z : option float) : Point3d :=
  mkPoint3d (x3 p) (y3 p) z.

Definition setPoint (t : Test) (p : Point3d) : Test :=
  mkTest p (losMap t) (centerPoint t) (hasLOSArea t).

Definition setCenterPoint (t : Test) (c : option nat) : Test :=
  mkTest (point t) (losMap t) c (hasLOSArea t).

Definition setHasLOSArea (t : Test) (b : option bool) : Test :=
  mkTest (point t) (losMap t) (centerPoint t) b.

(** [test.los.size] given the sizes of the maps in the store. *)
Definition losSize (sizes : nat -> nat) (m : LosMap) : nat :=
  match m with MapRef id => sizes id | NewMap => 0 end.

(** [buildTestObject(x, y, z = 0, los = new Map())] *)
Definition buildTestObject (x y : float) (z : option float) (los : option LosMap) : Test :=
  mkTest (mkPoint3d x y (Some (match z with Some v => v | None => 0%float end)))
         (match los with Some m => m | None => NewMap end)
         None None.

(** The loop of [elevatePoints] over [tests[1]], [tests[2]], ...: two new
    test objects per test, at the top and at the bottom of the token, sharing
    the [los] map of the test they come from. *)
Fixpoint elevatePoints_push (sizes : nat -> nat) (object : Token) (rest : list Test)
  : Run (list Slot) :=
  match rest with
  | [] => ret []
  | test :: rest' =>
    let x := x3 (point test) in
    let y := y3 (point test) in
    when (0 <? losSize sizes (losMap test))%nat
         (emit (Warn "Test point has los mapping already.")) ;;;
    more <- elevatePoints_push sizes object rest' ;;
    ret (Some (buildTestObject x y (Some (topZ object)) (Some (losMap test)))
         :: Some (buildTestObject x y (Some (bottomZ object)) (Some (losMap test)))
         :: more)
  end.

(** [test.point.z ??= avgElevation] *)
Definition defaultElevation (avgElevation : float) (test : Test) : Test :=
  setPoint test (setZ (point test) (JS.nullish_assign (z3 (point test)) avgElevation)).

(** [elevatePoints(tests, visionSource, object)].  The loop over [tests]
    writes into the test objects the caller holds, so the result has two
    parts: the caller's array as the call leaves it, and the array that is
    returned (the same array, or the new [tests3d]). *)
Definition elevatePoints (g : Game) (sizes : nat -> nat)
    (tests : list Test) (visionSource : VisionSource) (object : Placeable)
  : Run (list Test * list Slot) :=
  match object with
  | NotToken => ret (tests, map Some tests)
  | IsToken object =>
    let objectHeight := (topZ object - bottomZ object)%float in
    let avgElevation := (bottomZ object + (objectHeight * 0.5))%float in
    let tests := map (defaultElevation avgElevation) tests in
    if JS.falsy objectHeight
       || negb (SETTINGS.range_eqb (RANGE_ALGORITHM (settings g)) SETTINGS.FOUNDRY_3D)
    then ret (tests, map Some tests)
    else
      let tests3d := [nth_error tests 0] in
      pushed <- elevatePoints_push sizes object (tl tests) ;;
      ret (tests, tests3d ++ pushed)
  end.

(** The linking loop of [testVisibilityDetectionMode]:
    [tests[i].centerPoint = tests[0]] for [i >= 1]. *)
Definition linkCenter (tests : list Slot) : list Slot :=
  match tests with
  | [] => []
  | first :: rest =>
    first :: map (fun s => match s with
                           | Some t => Some (setCenterPoint t (Some 0%nat))
                           | None => None
                           end) rest
  end.

(** [testVisibilityDetectionMode(wrapped, visionSource, mode, { object, tests })] *)
Definition testVisibilityDetectionMode
    (wrapped : VisionSource -> Mode -> Placeable -> list Slot -> bool)
    (g : Game) (sizes : nat -> nat)
    (visionSource : VisionSource) (mode : Mode) (object : Placeable) (tests : list Test)
  : Run bool :=
  when (debug g) (emit ClearDrawings) ;;;
  elevated <- elevatePoints g sizes tests visionSource object ;;
  let tests := snd elevated in
  let tests :=
    match LOS_ALGORITHM (settings g) with
    | SETTINGS.AREA => linkCenter tests
    | _ => tests
    end in
  ret (wrapped visionSource mode object tests).

(** [_testRangeDetectionMode(wrapper, visionSource, mode, target, test)] *)
Definition _testRangeDetectionMode
    (wrapper : VisionSource -> Mode -> Placeable -> Test -> bool)
    (g : Game) (visionSource : VisionSource) (mode : Mode)
    (target : Placeable) (test : Test) : Run bool :=
  let inRange := wrapper visionSource mode target test in
  if (match target with IsToken _ => false | NotToken => true end) || negb inRange
  then
    when (debug g) (emit (DrawPoint (point test) None None (okColor inRange))) ;;;
    ret inRange
  else
    emit GetLightRadius ;;;
    let radius := getLightRadius visionSource (range mode) in
    let dx := (x3 (point test) - vx visionSource)%float in
    let dy := (y3 (point test) - vy visionSource)%float in
    let dz := (JS.to_number (z3 (point test)) - elevationZ visionSource)%float in
    let inRange3d := (((dx * dx) + (dy * dy) + (dz * dz)) <=? (radius * radius))%float in
    when (debug g)
         (emit (DrawPoint (point test) (Some 1%float) (Some 3%float) (okColor inRange3d))) ;;;
    ret inRange3d.

(** [intersectConstrainedShapeWithLOS(constrained, los)] *)
Definition intersectConstrainedShapeWithLOS (constrained : Footprint) (los : Shape)
  : Run Shape :=
  let constrained :=
    match constrained with
    | FRectangle r => toPolygon r
    | FPolygon p => p
    end in
  emit (IntersectPolygon los constrained) ;;;
  ret (intersectPolygon los constrained).

(** [sourceIntersectsBounds(source, bbox)] *)
Definition sourceIntersectsBounds (source : Shape) (bbox : Rectangle) : bool :=
  existsb (fun si => lineSegmentIntersects bbox (A si) (B si)
                       None (Some foundry_lineSegmentIntersects))
          (iterateEdges source).

(** [sourceIntersectsPolygonBounds(source, bounds)] *)
Definition sourceIntersectsPolygonBounds (source : Shape) (bounds : Footprint) : bool :=
  match bounds with
  | FRectangle r => sourceIntersectsBounds source r
  | FPolygon bounds =>
    let bbox := getBounds bounds in
    let edges :=
      filter (fun e => lineSegmentIntersects bbox (A e) (B e) (Some true) None)
             (iterateEdges source) in
    linesCross bounds edges
  end.

(** [areaTest(los, constrainedTokenShape)] *)
Definition areaTest (g : Game) (los : Shape) (constrainedTokenShape : Footprint)
  : Run bool :=
  let percentArea := getSetting_PERCENT_AREA g in
  let los :=
    if (percentArea =? 0)%float
    then match los with SClipperPaths c => simplify c | _ => los end
    else los in
  if (percentArea =? 0)%float && negb (isClipperPaths los)
  then
    let hasLOS := sourceIntersectsPolygonBounds los constrainedTokenShape in
    when (debug g) (emit (DrawShape los blue None)) ;;;
    when (debug g) (emit (DrawShape (shapeOf constrainedTokenShape) (okColor hasLOS) None)) ;;;
    ret hasLOS
  else
    visibleTokenShape <- intersectConstrainedShapeWithLOS constrainedTokenShape los ;;
    let seenArea := area visibleTokenShape in
    if JS.falsy seenArea || almostEqual seenArea 0 then ret false
    else
      let tokenArea := area (shapeOf constrainedTokenShape) in
      if JS.falsy tokenArea || almostEqual tokenArea 0 then ret false
      else
        let percentSeen := (seenArea / tokenArea)%float in
        let hasLOS := JS.gt percentSeen percentArea || almostEqual percentSeen percentArea in
        when (debug g)
          (let los := match los with SClipperPaths c => simplify c | _ => los end in
           let visibleTokenShape :=
             match visibleTokenShape with
             | SClipperPaths c => simplify c
             | _ => visibleTokenShape
             end in
           match los with
           | SClipperPaths c =>
             forEach (toPolygons c)
               (fun poly => emit (DrawShape (SPolygon poly) blue
                                   (Some (if isHole poly then 1 else 2)%float)))
           | _ => emit (DrawShape los blue (Some 2%float))
           end ;;;
           match visibleTokenShape with
           | SClipperPaths c =>
             forEach (toPolygons c)
               (fun poly => emit (DrawShape (SPolygon poly) (okColor hasLOS) None))
           | _ => emit (DrawShape visibleTokenShape (okColor hasLOS) None)
           end) ;;;
        ret hasLOS.

(** [shadowPolygonForElevation(visionSource, targetElevation)] *)
Definition shadowPolygonForElevation (visionSource : VisionSource) (targetElevation : float)
  : Run Shape :=
  emit (Log "Building shadows.") ;;;
  let los := los visionSource in
  let bounds := polygonBounds los in
  let collisionTest := fun (o : QuadtreeObject) (rect : Rectangle) =>
    JS.isFinite (wallTopZ (qt o)) || JS.isFinite (wallBottomZ (qt o)) in
  walls <- quadtree_getObjects bounds (Some collisionTest) ;;
  if (List.length walls =? 0)%nat
  then
    emit (Log "No limited walls; no shadows.") ;;;
    ret (SPolygon los)
  else
    forEach walls (fun wall => emit (ShadowConstruct wall targetElevation)) ;;;
    let shadows :=
      flat_map (fun wall =>
                  match Shadow_construct wall visionSource targetElevation with
                  | Some shadow => [shadow]
                  | None => []
                  end) walls in
    emit (CombinePolygonWithShadows (List.length shadows)) ;;;
    ret (Shadow_combinePolygonWithShadows los shadows).

(** The first wall filter of [constrainedTokenShape]. *)
Definition wallIntersectsBounds (bbox : Rectangle) (w : Wall) : bool :=
  lineSegmentIntersects bbox (wallA w) (wallB w)
    (Some true) (Some foundry_lineSegmentIntersects).

(** The second wall filter: [false] for a wall in line with a boundary edge. *)
Definition wallNotInLine (bbox : Rectangle) (w : Wall) : bool :=
  if (x (wallA w) =? x (wallB w))%float
     && ((x (wallA w) =? left bbox)%float || (x (wallA w) =? right bbox)%float)
  then false
  else if (y (wallA w) =? y (wallB w))%float
          && ((y (wallA w) =? top bbox)%float || (y (wallA w) =? bottom bbox)%float)
  then false
  else true.

(** The body of the loop over [constrained.iteratePoints({ close: false })]:
    [true] when neither [return constrained] is taken for [pt]. *)
Definition pointKeepsBounds (bbox : Rectangle) (pt : Point) : bool :=
  (almostEqual (x pt) (left bbox) || almostEqual (x pt) (right bbox))
  && (almostEqual (x pt) (top bbox) || almostEqual (y pt) (bottom bbox)).

(** [constrainedTokenShape(token, { boundsScale } = {})] *)
Definition constrainedTokenShape (token : Token) (boundsScale : option float)
  : Run Footprint :=
  let boundsScale := match boundsScale with Some s => s | None => 1%float end in
  let bbox := bounds token in
  let bbox :=
    if JS.strict_ne boundsScale 1
    then
      let scalar := (boundsScale - 1)%float in
      pad bbox (Math_ceil (width bbox * scalar)) (Math_ceil (height bbox * scalar))
    else bbox in
  walls <- quadtree_getObjects bbox None ;;
  if (List.length walls =? 0)%nat then ret (FRectangle bbox)
  else
    let walls := filter (wallIntersectsBounds bbox) walls in
    let walls := filter (wallNotInLine bbox) walls in
    if (List.length walls =? 0)%nat then ret (FRectangle bbox)
    else
      emit (ClockwiseSweep (center token) bbox) ;;;
      let constrained := clockwiseSweep (center token) bbox in
      if negb (List.length (points constrained) =? 10)%nat then ret (FPolygon constrained)
      else if forallb (pointKeepsBounds bbox) (iteratePoints constrained false)
      then ret (FRectangle bbox)
      else ret (FPolygon constrained).

Definition setConstrainedTokenShape (t : Token) (c : option Footprint) : Token :=
  mkToken (bounds t) (center t) (topZ t) (bottomZ t) c.

(** [testLOSPoint(visionSource, target, test, hasLOS)] *)
Definition testLOSPoint (visionSource : VisionSource) (target : Token) (test : Test)
    (hasLOS : bool) : Run bool :=
  if negb hasLOS then ret false
  else if negb wallHeightActive then ret true
  else
    let origin := mkPoint3d (vx visionSource) (vy visionSource)
                            (Some (elevationZ visionSource)) in
    emit (TestCollision3d origin (point test)) ;;;
    ret (negb (testCollision3d origin (point test))).

(** [testLOSArea(visionSource, target, hasLOS)]; the token is returned with
    its [_constrainedTokenShape] as the call leaves it. *)
Definition testLOSArea (g : Game) (visionSource : VisionSource) (target : Token)
    (hasLOS : bool) : Run (bool * Token) :=
  let percentArea := getSetting_PERCENT_AREA g in
  let boundsScale := 1%float in
  if hasLOS && (percentArea <? 0.50)%float then ret (true, target)
  else if negb hasLOS && (0.50 <=? percentArea)%float then ret (false, target)
  else
    constrained <-
      match _constrainedTokenShape target with
      | Some c => ret c
      | None => constrainedTokenShape target (Some boundsScale)
      end ;;
    let target := setConstrainedTokenShape target (Some constrained) in
    let inBetween :=
      (elevationZ visionSource <? topZ target)%float
      && JS.gt (elevationZ visionSource) (bottomZ target) in
    shadowLOSBottom <-
      (if inBetween || (elevationZ visionSource <? bottomZ target)%float
       then s <- shadowPolygonForElevation visionSource (bottomZ target) ;; ret (Some s)
       else ret None) ;;
    shadowLOSTop <-
      (if inBetween || JS.gt (elevationZ visionSource) (topZ target)
       then s <- shadowPolygonForElevation visionSource (topZ target) ;; ret (Some s)
       else ret None) ;;
    match shadowLOSTop, shadowLOSBottom with
    | Some shadowLOSTop, Some shadowLOSBottom =>
      seen <- areaTest g shadowLOSTop constrained ;;
      if seen then ret (true, target)
      else
        seen <- areaTest g shadowLOSBottom constrained ;;
        ret (seen, target)
    | _, _ =>
      let shadowed :=
        match shadowLOSTop with
        | Some s => s
        | None => match shadowLOSBottom with
                  | Some s => s
                  | None => SPolygon (los visionSource)
                  end
        end in
      seen <- areaTest g shadowed constrained ;;
      ret (seen, target)
    end.

(** What a wrapper can hand back to the host. *)
Inductive JSResult :=
| RBool (b : bool)
| RUndefined
| RTypeError.

(** [test.centerPoint.hasLOSArea], read in the tests array [tests]. *)
Definition centerPoint_hasLOSArea (tests : list Slot) (test : Test) : JSResult :=
  match centerPoint test with
  | None => RTypeError
  | Some i =>
    match nth_error tests i with
    | Some (Some c) =>
      match hasLOSArea c with Some b => RBool b | None => RUndefined end
    | _ => RTypeError
    end
  end.

(** [_testLOSDetectionMode(wrapped, visionSource, mode, target, test)];
    [tests] is the array the test object belongs to, and the test object
    and the target are returned as the call leaves them. *)
Definition _testLOSDetectionMode
    (wrapped : VisionSource -> Mode -> Placeable -> Test -> bool)
    (g : Game) (tests : list Slot)
    (visionSource : VisionSource) (mode : Mode) (target : Placeable) (test : Test)
  : Run (JSResult * Test * Placeable) :=
  match target with
  | NotToken => ret (RBool (wrapped visionSource mode target test), test, target)
  | IsToken token =>
    match LOS_ALGORITHM (settings g) with
    | SETTINGS.POINTS =>
      let hasLOS := wrapped visionSource mode target test in
      hasLOS <- testLOSPoint visionSource token test hasLOS ;;
      when (debug g)
           (emit (DrawPoint (point test) (Some 0.2%float) (Some 7%float) (okColor hasLOS))) ;;;
      ret (RBool hasLOS, test, target)
    | SETTINGS.AREA =>
      let avgElevation := (bottomZ token + ((topZ token - bottomZ token) * 0.5))%float in
      let center := mkPoint3d (x (center token)) (y (center token)) (Some avgElevation) in
      if negb (Point3d_almostEqual (point test) center)
      then ret (centerPoint_hasLOSArea tests test, test, target)
      else
        let hasLOS := wrapped visionSource mode target test in
        r <- testLOSArea g visionSource token hasLOS ;;
        let hasLOS := fst r in
        ret (RBool hasLOS, setHasLOSArea test (Some hasLOS), IsToken (snd r))
    | SETTINGS.LOS_UNKNOWN => ret (RUndefined, test, target)
    end
  end.

End Module_js.

(* ------------------------------------------------------------------ *)
(** ** A small concrete host, used to run the functions on examples *)

Module Scene.

Local Open Scope float_scope.

(** The vertices behind a flat coordinate array. *)
Fixpoint pairUp (l : list float) : list Point :=
  match l with
  | a :: b :: l' => mkPoint a b :: pairUp l'
  | _ => []
  end.

(** [iteratePoints({ close })] on a closed polygon: without [close] the
    repeated first vertex at the end is left out. *)
Definition vertices (p : Polygon) (close : bool) : list Point :=
  let pts := pairUp (points p) in
  if close then pts else removelast pts.

Fixpoint edgesFrom (first : Point) (l : list Point) : list Edge :=
  match l with
  | [] => []
  | p :: rest =>
    match rest with
    | [] => [mkEdge p first]
    | q :: _ => mkEdge p q :: edgesFrom first rest
    end
  end.

Definition polygonEdges (p : Polygon) : list Edge :=
  match pairUp (points p) with
  | [] => []
  | first :: _ as pts => edgesFrom first pts
  end.

Definition rectanglePolygon (r : Rectangle) : Polygon :=
  mkPolygon [left r; top r; right r; top r; right r; bottom r; left r; bottom r] false.

(** The shoelace formula. *)
Definition polygonArea (p : Polygon) : float :=
  abs (fold_right (fun e acc => (x (A e) * y (B e) - x (B e) * y (A e)) + acc)
                  0 (polygonEdges p)) / 2.

Definition shapeArea (s : Shape) : float :=
  match s with
  | SPolygon p => polygonArea p
  | SRectangle r => width r * height r
  | SClipperPaths c => fold_right (fun p acc => polygonArea p + acc) 0 (paths c)
  end.

Definition shapeEdges (s : Shape) : list Edge :=
  match s with
  | SPolygon p => polygonEdges p
  | SRectangle r => polygonEdges (rectanglePolygon r)
  | SClipperPaths c => flat_map polygonEdges (paths c)
  end.

(** The bounding box of the vertices of a polygon. *)
Definition boundsOf (p : Polygon) : Rectangle :=
  match pairUp (points p) with
  | [] => mkRect 0 0 0 0
  | first :: rest =>
    let lo := fun a b => if b <? a then b else a in
    let hi := fun a b => if a <? b then b else a in
    let minX := fold_left (fun m pt => lo m (x pt)) rest (x first) in
    let minY := fold_left (fun m pt => lo m (y pt)) rest (y first) in
    let maxX := fold_left (fun m pt => hi m (x pt)) rest (x first) in
    let maxY := fold_left (fun m pt => hi m (y pt)) rest (y first) in
    mkRect minX minY (maxX - minX) (maxY - minY)
  end.

(** A scene is described by the walls of the quadtree, the polygon the
    sweep produces, the visible part a clip produces and the region left by
    a set of shadows.  Every wall is in reach of every query and every
    segment is taken to meet every rectangle; no scene scales the bounds, so
    [Math.ceil] is never asked for a number that is not whole. *)
Definition host (walls : list Wall) (sweep : Polygon)
    (clip : Shape -> Polygon -> Shape)
    (shadowed : Polygon -> list Shadow -> Shape) : Host :=
  {| quadtree_overlapping := fun rect => map (mkQObj rect) walls;
     lineSegmentIntersects := fun _ _ _ _ _ => true;
     iterateEdges := shapeEdges;
     getBounds := boundsOf;
     linesCross := fun _ edges => negb (List.length edges =? 0)%nat;
     iteratePoints := vertices;
     clockwiseSweep := fun _ _ => sweep;
     polygonBounds := boundsOf;
     Shadow_construct := fun _ _ elevation => Some (mkShadow [elevation]);
     Shadow_combinePolygonWithShadows := shadowed;
     intersectPolygon := clip;
     toPolygon := rectanglePolygon;
     area := shapeArea;
     simplify := fun c =>
       match paths c with
       | [] => SPolygon (mkPolygon [] false)
       | [p] => SPolygon p
       | _ => SClipperPaths c
       end;
     toPolygons := paths;
     getLightRadius := fun _ r => r;
     testCollision3d := fun _ _ => false;
     wallHeightActive := false;
     Math_ceil := fun v => v |}.

(** A token of 10 by 10 units standing at the origin, 10 units tall. *)
Definition token : Token :=
  mkToken (mkRect 0 0 10 10) (mkPoint 5 5) 10 0 None.

Definition strip (w : float) : Polygon :=
  mkPolygon [0; 0; w; 0; w; 10; 0; 10] false.

(** An observer whose line-of-sight polygon covers the token. *)
Definition observer (elevation : float) : VisionSource :=
  mkVision (-20) 5 elevation (mkPolygon [-30; -30; 30; -30; 30; 30; -30; 30] false).

Definition game (dbg : bool) (percentArea : float) : Game :=
  mkGame dbg (mkSettings SETTINGS.FOUNDRY SETTINGS.AREA percentArea).

(** Half of the token is seen. *)
Definition halfSeen : Host :=
  host [] (strip 10) (fun _ _ => SPolygon (strip 5)) (fun los _ => SPolygon los).

(** A wall of finite height between observer and token: at the top of the
    token (elevation 10) six tenths remain visible, at the bottom two. *)
Definition lowWall : Wall := mkWall (mkPoint (-5) (-20)) (mkPoint (-5) 20) 8 2.

Definition topAndBottom : Host :=
  host [lowWall] (strip 10)
       (fun region _ => region)
       (fun los shadows =>
          match shadows with
          | [s] => if existsb (fun z => z =? 10) (shadowPoints s)
                   then SPolygon (strip 6) else SPolygon (strip 2)
          | _ => SPolygon los
          end).

(** A full-height wall through the token; the sweep returns the outline of
    the bounds with one more vertex in the middle of the top edge. *)
Definition crossingWall : Wall :=
  mkWall (mkPoint 5 (-5)) (mkPoint 5 15) infinity neg_infinity.

Definition outlineWithMidpoint : Polygon :=
  mkPolygon [0; 0; 5; 0; 10; 0; 10; 10; 0; 10; 0; 0] false.

Definition extraVertex : Host :=
  host [crossingWall] outlineWithMidpoint (fun r _ => r) (fun los _ => SPolygon los).

(** A wall lying on the left edge of the bounds. *)
Definition edgeWall : Wall :=
  mkWall (mkPoint 0 (-5)) (mkPoint 0 15) infinity neg_infinity.

Definition wallOnEdge : Host :=
  host [edgeWall] (strip 10) (fun r _ => r) (fun los _ => SPolygon los).

End Scene.

(** A vertex lies on the edges of a rectangle: on the line of a vertical
    edge within its extent, or on the line of a horizontal edge within its
    extent. *)
Definition onRectangleEdges (bbox : Rectangle) (pt : Point) : bool :=
  ((almostEqual (x pt) (left bbox) || almostEqual (x pt) (right bbox))
   && (top bbox <=? y pt)%float && (y pt <=? bottom bbox)%float)
  || ((almostEqual (y pt) (top bbox) || almostEqual (y pt) (bottom bbox))
      && (left bbox <=? x pt)%float && (x pt <=? right bbox)%float).

(* ------------------------------------------------------------------ *)
(** ** Vocabulary of the statements *)

Section Vocabulary.

Context {H : Host}.

(** The polygon handed to the clipper for a footprint. *)
Definition footprintPolygon (fp : Footprint) : Polygon :=
  match fp with
  | FRectangle r => toPolygon r
  | FPolygon p => p
  end.

(** Area of the part of the footprint inside the region [los]. *)
Definition seenArea (los : Shape) (fp : Footprint) : float :=
  area (intersectPolygon los (footprintPolygon fp)).

(** Area of the footprint. *)
Definition tokenArea (fp : Footprint) : float := area (shapeOf fp).

(** The bounding box [constrainedTokenShape] works with: the bounds of the
    token, padded when the scale is not 1. *)
Definition scaledBounds (token : Token) (boundsScale : option float) : Rectangle :=
  let boundsScale := match boundsScale with Some s => s | None => 1%float end in
  let bbox := bounds token in
  if JS.strict_ne boundsScale 1
  then
    let scalar := (boundsScale - 1)%float in
    pad bbox (Math_ceil (width bbox * scalar)) (Math_ceil (height bbox * scalar))
  else bbox.

(** The walls [constrainedTokenShape] keeps for a bounding box. *)
Definition qualifyingWalls (bbox : Rectangle) : list Wall :=
  filter (wallNotInLine bbox)
         (filter (wallIntersectsBounds bbox) (map qt (quadtree_overlapping bbox))).

(** The walls that cast a shadow of their own: one height bound is finite. *)
Definition limitedWalls (bounds : Rectangle) : list Wall :=
  map qt (filter (fun o => JS.isFinite (wallTopZ (qt o)) || JS.isFinite (wallBottomZ (qt o)))
                 (quadtree_overlapping bounds)).

(** The footprint [testLOSArea] works with, the cached one or a new one,
    and what computing it costs. *)
Definition footprintOf (target : Token) : Run Footprint :=
  match _constrainedTokenShape target with
  | Some c => ret c
  | None => constrainedTokenShape target (Some 1%float)
  end.

(** The region of a line-of-sight shape once [areaTest] has simplified it
    for a required fraction of zero. *)
Definition simplified (los : Shape) : Shape :=
  match los with SClipperPaths c => simplify c | _ => los end.

End Vocabulary.

(** The trace without the drawings of the debug mode. *)
Definition undrawn (t : list Event) : list Event :=
  filter (fun e => negb (isDrawing e)) t.

(** Two runs with the same result that differ at most in what they draw. *)
Definition sameButDrawings {T} (m1 m2 : Run T) : Prop :=
  value m1 = value m2 /\ undrawn (trace m1) = undrawn (trace m2).

(** The same settings with the debug flag set to [b]. *)
Definition withDebug (b : bool) (g : Game) : Game := mkGame b (settings g).

(** [!a || a.almostEqual(0)]: the area counts as zero. *)
Definition zeroArea (a : float) : bool := JS.falsy a || almostEqual a 0.

(** [ratio > p || ratio.almostEqual(p)] *)
Definition meetsFraction (ratio p : float) : bool :=
  JS.gt ratio p || almostEqual ratio p.

(** The two early exits of [testLOSArea]. *)
Definition cheapAccept (hasLOS : bool) (p : float) : bool :=
  hasLOS && (p <? 0.50)%float.

Definition cheapReject (hasLOS : bool) (p : float) : bool :=
  negb hasLOS && (0.50 <=? p)%float.

(* ------------------------------------------------------------------ *)
(** ** More of scripts/module.js *)

(** [tokenUpdateVisionSource(wrapped, { defer=false, deleted=false }={})];
    [this] is the token, returned as the call leaves it. *)
Definition tokenUpdateVisionSource {R : Type} (wrapped : bool -> bool -> R)
    (this : Token) (defer deleted : option bool) : R * Token :=
  let defer := match defer with Some b => b | None => false end in
  let deleted := match deleted with Some b => b | None => false end in
  let this := setConstrainedTokenShape this None in
  (wrapped defer deleted, this).

Section MoreVocabulary.

Context {H : Host}.

(** What [testLOSArea] does once the footprint [constrained] is at hand. *)
Definition testLOSArea_tail (g : Game) (visionSource : VisionSource) (target : Token)
    (constrained : Footprint) : Run (bool * Token) :=
  let target := setConstrainedTokenShape target (Some constrained) in
  let inBetween :=
    (elevationZ visionSource <? topZ target)%float
    && JS.gt (elevationZ visionSource) (bottomZ target) in
  shadowLOSBottom <-
    (if inBetween || (elevationZ visionSource <? bottomZ target)%float
     then s <- shadowPolygonForElevation visionSource (bottomZ target) ;; ret (Some s)
     else ret None) ;;
  shadowLOSTop <-
    (if inBetween || JS.gt (elevationZ visionSource) (topZ target)
     then s <- shadowPolygonForElevation visionSource (topZ target) ;; ret (Some s)
     else ret None) ;;
  match shadowLOSTop, shadowLOSBottom with
  | Some shadowLOSTop, Some shadowLOSBottom =>
    seen <- areaTest g shadowLOSTop constrained ;;
    if seen then ret (true, target)
    else
      seen <- areaTest g shadowLOSBottom constrained ;;
      ret (seen, target)
  | _, _ =>
    let shadowed :=
      match shadowLOSTop with
      | Some s => s
      | None => match shadowLOSBottom with
                | Some s => s
                | None => SPolygon (los visionSource)
                end
      end in
    seen <- areaTest g shadowed constrained ;;
    ret (seen, target)
  end.

(** The regions [testLOSArea] hands to the area test, in the order of the
    tests: the shadowed region at the top plane and the one at the bottom
    plane, where the observer looks at that plane, else the line-of-sight
    polygon as it is. *)
Definition regionsTested (visionSource : VisionSource) (target : Token) : list Shape :=
  let inBetween :=
    (elevationZ visionSource <? topZ target)%float
    && JS.gt (elevationZ visionSource) (bottomZ target) in
  let lookingUp := inBetween || (elevationZ visionSource <? bottomZ target)%float in
  let lookingDown := inBetween || JS.gt (elevationZ visionSource) (topZ target) in
  match lookingDown, lookingUp with
  | true, true => [value (shadowPolygonForElevation visionSource (topZ target));
                   value (shadowPolygonForElevation visionSource (bottomZ target))]
  | true, false => [value (shadowPolygonForElevation visionSource (topZ target))]
  | false, true => [value (shadowPolygonForElevation visionSource (bottomZ target))]
  | false, false => [SPolygon (los visionSource)]
  end.

(** The verdict of the area test over these regions: one of them passes. *)
Definition areaVerdict (g : Game) (visionSource : VisionSource) (target : Token) : bool :=
  existsb (fun region => value (areaTest g region (value (footprintOf target))))
          (regionsTested visionSource target).

(** The shadows [shadowPolygonForElevation] hands to the combination. *)
Definition shadowsOf (visionSource : VisionSource) (targetElevation : float)
    (walls : list Wall) : list Shadow :=
  flat_map (fun wall =>
              match Shadow_construct wall visionSource targetElevation with
              | Some shadow => [shadow]
              | None => []
              end) walls.

End MoreVocabulary.

(* ------------------------------------------------------------------ *)
(** ** The strict crossing test *)

(** Modelled from the spec: the crossing test behind [polygon.linesCross]
    and behind [rect.lineSegmentIntersects] as the boundary test calls it.
    Both methods are registered by files of the repository that are not
    among the sources.  The spec asks for a strict crossing: overlapping
    colinear edges do not count, and an endpoint of an edge that merely
    touches the other edge does not count.  So two segments cross when the
    endpoints of each lie strictly on the two sides of the other. *)
Definition orient2d (a b c : Point) : float :=
  ((y a - y c) * (x b - x c) - (x a - x c) * (y b - y c))%float.

Definition strictlyCrossPoints (a b c d : Point) : bool :=
  (orient2d a b c * orient2d a b d <? 0)%float
  && (orient2d c d a * orient2d c d b <? 0)%float.

Definition strictlyCross (e f : Edge) : bool :=
  strictlyCrossPoints (A e) (B e) (A f) (B f).


(** The four edges of a rectangle. *)
Definition rectangleEdges (r : Rectangle) : list Edge :=
  [mkEdge (mkPoint (left r) (top r)) (mkPoint (right r) (top r));
   mkEdge (mkPoint (right r) (top r)) (mkPoint (right r) (bottom r));
   mkEdge (mkPoint (right r) (bottom r)) (mkPoint (left r) (bottom r));
   mkEdge (mkPoint (left r) (bottom r)) (mkPoint (left r) (top r))].

Section Crossing.

Context {H : Host}.





End Crossing.

(** A host with plane geometry, for scenes without walls: edges and bounds as
    in [Scene], the crossing tests as above, and a test that counts touching
    where the code asks for none in particular. *)
Module Plane.

Local Open Scope float_scope.

Definition contains (r : Rectangle) (p : Point) : bool :=
  (left r <=? x p) && (x p <=? right r) && (top r <=? y p) && (y p <=? bottom r).

(** Segments that meet, endpoints included; segments on one line never do. *)
Definition segmentsMeet (e f : Edge) : bool :=
  let xa := orient2d (A e) (B e) (A f) in
  let xb := orient2d (A e) (B e) (B f) in
  if (xa =? 0) && (xb =? 0) then false
  else (xa * xb <=? 0)
       && (orient2d (A f) (B f) (A e) * orient2d (A f) (B f) (B e) <=? 0).

Definition host (clip : Shape -> Polygon -> Shape) : Host :=
  {| quadtree_overlapping := fun _ => [];
     lineSegmentIntersects := fun bbox a b inside intersectFn =>
       match intersectFn with
       | Some foundry_lineSegmentIntersects =>
         existsb (strictlyCross (mkEdge a b)) (rectangleEdges bbox)
       | None =>
         match inside with
         | Some true => contains bbox a || contains bbox b
         | _ => false
         end
         || existsb (segmentsMeet (mkEdge a b)) (rectangleEdges bbox)
       end;
     iterateEdges := Scene.shapeEdges;
     getBounds := Scene.boundsOf;
     linesCross := fun bounds edges =>
       existsb (fun e => existsb (strictlyCross e) (Scene.polygonEdges bounds)) edges;
     iteratePoints := Scene.vertices;
     clockwiseSweep := fun _ bbox => Scene.rectanglePolygon bbox;
     polygonBounds := Scene.boundsOf;
     Shadow_construct := fun _ _ _ => None;
     Shadow_combinePolygonWithShadows := fun los _ => SPolygon los;
     intersectPolygon := clip;
     toPolygon := Scene.rectanglePolygon;
     area := Scene.shapeArea;
     simplify := fun c =>
       match paths c with
       | [] => SPolygon (mkPolygon [] false)
       | [p] => SPolygon p
       | _ => SClipperPaths c
       end;
     toPolygons := paths;
     getLightRadius := fun _ r => r;
     testCollision3d := fun _ _ => false;
     wallHeightActive := false;
     Math_ceil := fun v => v |}.


(** A region that holds the footprint leaves all of it. *)
Definition inside : Host := host (fun _ footprint => SPolygon footprint).


End Plane.

(** The test point is the center of the token at mid-height, as
    [_testLOSDetectionMode] builds it. *)
Definition atCenter (token : Token) (test : Test) : bool :=
  Point3d_almostEqual (point test)
    (mkPoint3d (x (center token)) (y (center token))
               (Some (bottomZ token + ((topZ token - bottomZ token) * 0.5))%float)).

(** The two test objects [elevatePoints] adds for a test. *)
Definition topAndBottomOf (object : Token) (test : Test) : list Slot :=
  [Some (buildTestObject (x3 (point test)) (y3 (point test))
                         (Some (topZ object)) (Some (losMap test)));
   Some (buildTestObject (x3 (point test)) (y3 (point test))
                         (Some (bottomZ object)) (Some (losMap test)))].

Definition isSweep (e : Event) : bool :=
  match e with ClockwiseSweep _ _ => true | _ => false end.

Definition isQuery (e : Event) : bool :=
  match e with QuadtreeGetObjects _ => true | _ => false end.

Definition isCombination (e : Event) : bool :=
  match e with CombinePolygonWithShadows _ => true | _ => false end.

(** The polygon operations of the clipping library: an intersection with
    the footprint or a combination of a polygon with shadows. *)
Definition isPolygonOperation (e : Event) : bool := isClipping e || isCombination e.

(** How many events of a kind a trace holds. *)
Definition count (kind : Event -> bool) (t : list Event) : nat :=
  List.length (filter kind t).

(* ------------------------------------------------------------------ *)
(** ** Values, objects and scripts outside the visibility tests *)

(** A JavaScript value, as far as settings and flags hold them. *)
Inductive JSValue :=
| VUndefined
| VBoolean (b : bool)
| VNumber (n : float)
| VString (s : string).

(** [if ( v )] *)
Definition truthy (v : JSValue) : bool :=
  match v with
  | VUndefined => false
  | VBoolean b => b
  | VNumber n => negb (JS.falsy n)
  | VString s => negb (String.eqb s "")
  end.

(** [v === s] for a string [s]. *)
Definition is_string (v : JSValue) (s : string) : bool :=
  match v with VString t => String.eqb t s | _ => false end.

(** Objects and Maps with string keys, in insertion order. *)
Module Obj.

Fixpoint get {V} (key : string) (o : list (string * V)) : option V :=
  match o with
  | [] => None
  | (k, v) :: o' => if String.eqb k key then Some v else get key o'
  end.

(** [o[key] = v], [map.set(key, v)]: an existing key keeps its place. *)
Fixpoint set {V} (key : string) (v : V) (o : list (string * V)) : list (string * V) :=
  match o with
  | [] => [(key, v)]
  | (k, w) :: o' => if String.eqb k key then (k, v) :: o' else (k, w) :: set key v o'
  end.

Definition keys {V} (o : list (string * V)) : list string := map fst o.

Definition has {V} (key : string) (o : list (string * V)) : bool :=
  match get key o with Some _ => true | None => false end.

(** No string occurs twice. *)
Fixpoint distinct (l : list string) : bool :=
  match l with
  | [] => true
  | a :: l' => negb (existsb (String.eqb a) l') && distinct l'
  end.

End Obj.

(** A script runs on a state and returns or throws; the state is kept as
    the throw leaves it. *)
Inductive Outcome (A : Type) :=
| Returned (a : A)
| TypeError.

Arguments Returned {A} a.
Arguments TypeError {A}.

Definition Script (S A : Type) : Type := S -> Outcome A * S.

Definition sret {S A} (a : A) : Script S A := fun s => (Returned a, s).

Definition sbind {S A B} (m : Script S A) (k : A -> Script S B) : Script S B :=
  fun s =>
    match m s with
    | (Returned a, s') => k a s'
    | (TypeError, s') => (TypeError, s')
    end.

Definition throw {S A} : Script S A := fun s => (TypeError, s).

Definition gets {S A} (f : S -> A) : Script S A := fun s => (Returned (f s), s).

Definition modify {S} (f : S -> S) : Script S unit := fun s => (Returned tt, f s).

Declare Scope script_scope.
Delimit Scope script_scope with script.
Notation "x <- m ;; k" := (sbind m (fun x => k))
  (at level 61, m at next level, right associativity) : script_scope.
Notation "m ;;; k" := (sbind m (fun _ => k))
  (at level 61, right associativity) : script_scope.

(* ------------------------------------------------------------------ *)
(** ** scripts/settings.js *)

Module SettingsJs.

Local Open Scope string_scope.
Local Open Scope script_scope.

(** const.js *)
Definition MODULE_ID : string := "tokenvisibility".

(** The [SETTINGS] object. *)
Definition USE_MODULE : string := "use-module".

Module RANGE.
Definition ALGORITHM : string := "range-algorithm".
Module TYPES.
Definition CENTER : string := "range-center".
Definition FOUNDRY : string := "range-foundry".
Definition FOUNDRY_3D : string := "range-foundry-3d".
End TYPES.
End RANGE.

Module LOS.
Definition ALGORITHM : string := "los-algorithm".
Module TYPES.
Definition POINTS : string := "los-points".
Definition AREA : string := "los-area".
End TYPES.
Definition PERCENT_AREA : string := "los-percent-area".
End LOS.

Module COVER.
Definition ALGORITHM : string := "cover-algorithm".
Module TYPES.
Definition CENTER_CORNER : string := "cover-center-to-corners".
Definition CORNER_CORNER : string := "cover-corner-to-corners".
Definition CENTER_CENTER : string := "cover-center-to-center".
Definition AREA : string := "cover-area".
Definition CENTER_CUBE : string := "cover-center-to-cube".
Definition CUBE_CUBE : string := "cover-cube-to-cube".
Definition AREA_3D : string := "cover-area-3d".
End TYPES.
Module NAMES.
Definition LOW : string := "cover-name-low".
Definition MEDIUM : string := "cover-name-medium".
Definition HIGH : string := "cover-name-high".
End NAMES.
Module EFFECTS.
Definition LOW : string := "cover-effect-low".
Definition MEDIUM : string := "cover-effect-medium".
Definition HIGH : string := "cover-effect-high".
End EFFECTS.
Definition TRIGGER_CENTER : string := "cover-trigger-center".
Module TRIGGER_CORNERS.
Definition LOW : string := "cover-trigger-corner-low".
Definition MEDIUM : string := "cover-trigger-corner-medium".
Definition HIGH : string := "cover-trigger-corner-high".
End TRIGGER_CORNERS.
Module TRIGGER_AREA.
Definition LOW : string := "cover-trigger-area-low".
Definition MEDIUM : string := "cover-trigger-area-medium".
Definition HIGH : string := "cover-trigger-area-high".
End TRIGGER_AREA.
End COVER.

(** [type: String], [type: Number] *)
Inductive SettingType := TString | TNumber.

(** [range: { max, min, step }] *)
Record NumberRange := mkRange { range_max : float; range_min : float; range_step : float }.

(** The [config] field of a registered setting: a boolean, or a callback
    that reads the settings when it is called. *)
Inductive Config :=
| ConfigValue (b : bool)
| ConfigCallback (f : (string -> JSValue) -> bool).

(** The two handlers given as [onChange]. *)
Inductive OnChange := UpdateLosSetting | UpdateCoverSetting.

(** The data object handed to [game.settings.register]. *)
Record SettingData := mkSettingData {
  data_name : string;
  data_hint : string;
  data_scope : string;
  data_config : Config;
  data_type : SettingType;
  data_choices : option (list (string * string));
  data_default : JSValue;
  data_range : option NumberRange;
  data_onChange : option OnChange
}.

Definition set_config (d : SettingData) (c : Config) : SettingData :=
  mkSettingData (data_name d) (data_hint d) (data_scope d) c (data_type d)
                (data_choices d) (data_default d) (data_range d) (data_onChange d).

(** What the settings code does to the interface. *)
Inductive UIEvent :=
| ConsoleLog (msg : string)
| Notify (msg : string)
| SheetRender
| SettingsSet (key : string) (value : JSValue).

(** The [game] and [ui] globals as this file uses them: the system id, the
    translations, the Map [game.settings.settings] of registered settings
    (keyed by ["<module>.<setting>"]), the value [game.settings.get] gives
    for each setting of this module, and the calls made so far. *)
Record GameState := mkGameState {
  system_id : string;
  localize : string -> string;
  registry : list (string * SettingData);
  values : string -> JSValue;
  calls : list UIEvent
}.

Definition did (e : UIEvent) : Script GameState unit :=
  modify (fun g => mkGameState (system_id g) (localize g) (registry g) (values g)
                               (calls g ++ [e])%list).

(** [log] of util.js *)
Definition log (msg : string) : Script GameState unit := did (ConsoleLog msg).

(** [getSetting(settingName)] *)
Definition getSetting (settingName : string) : Script GameState JSValue :=
  gets (fun g => values g settingName).

(** [setSetting(settingName, value)]: once the promise is settled the
    setting reads as [value].  The value of the promise is not used. *)
Definition setSetting (settingName : string) (value : JSValue) : Script GameState unit :=
  did (SettingsSet settingName value) ;;;
  modify (fun g => mkGameState (system_id g) (localize g) (registry g)
                     (fun k => if String.eqb k settingName then value else values g k)
                     (calls g)).

(** [game.settings.register(MODULE_ID, key, data)] *)
Definition register (key : string) (data : SettingData) : Script GameState unit :=
  modify (fun g => mkGameState (system_id g) (localize g)
                     (Obj.set (MODULE_ID ++ "." ++ key) data (registry g))
                     (values g) (calls g)).

(** [setSettingVisibility(settingName, visible = true)]: writing [config]
    on a setting that is not registered throws. *)
Definition setSettingVisibility (settingName : string) (visible : option bool)
  : Script GameState unit :=
  let visible := match visible with Some b => b | None => true end in
  log ("Setting " ++ settingName ++ " to " ++ (if visible then "visible" else "not visible")) ;;;
  entry <- gets (fun g => Obj.get (MODULE_ID ++ "." ++ settingName) (registry g)) ;;
  match entry with
  | None => throw
  | Some data =>
    modify (fun g => mkGameState (system_id g) (localize g)
                       (Obj.set (MODULE_ID ++ "." ++ settingName)
                                (set_config data (ConfigValue visible)) (registry g))
                       (values g) (calls g)) ;;;
    did SheetRender
  end.

(** [updateLosSetting(value)] *)
Definition updateLosSetting (value : string) : Script GameState unit :=
  log ("Changing to " ++ value) ;;;
  did (Notify ("Changing to " ++ value)) ;;;
  let visible := String.eqb value LOS.TYPES.AREA in
  setSettingVisibility LOS.PERCENT_AREA (Some visible).

(** [updateCoverSetting(value)] *)
Definition updateCoverSetting (value : string) : Script GameState unit :=
  log ("Changing to " ++ value) ;;;
  did (Notify ("Changing to " ++ value)) ;;;
  let area_visible :=
    String.eqb value COVER.TYPES.AREA || String.eqb value COVER.TYPES.AREA_3D in
  let center_visible := String.eqb value COVER.TYPES.CENTER_CENTER in
  let corners_visible := negb (area_visible || center_visible) in
  setSettingVisibility COVER.TRIGGER_CORNERS.LOW (Some corners_visible) ;;;
  setSettingVisibility COVER.TRIGGER_CORNERS.MEDIUM (Some corners_visible) ;;;
  setSettingVisibility COVER.TRIGGER_CORNERS.HIGH (Some corners_visible) ;;;
  setSettingVisibility COVER.TRIGGER_AREA.LOW (Some area_visible) ;;;
  setSettingVisibility COVER.TRIGGER_AREA.MEDIUM (Some area_visible) ;;;
  setSettingVisibility COVER.TRIGGER_AREA.HIGH (Some area_visible) ;;;
  setSettingVisibility COVER.TRIGGER_CENTER (Some center_visible).

(** The handler behind an [onChange] field. *)
Definition onChange (h : OnChange) : string -> Script GameState unit :=
  match h with
  | UpdateLosSetting => updateLosSetting
  | UpdateCoverSetting => updateCoverSetting
  end.

Record CoverNames := mkCoverNames { low : string; medium : string; high : string }.

(** [getCoverNames()] *)
Definition getCoverNames (g : GameState) : CoverNames :=
  if String.eqb (system_id g) "dnd5e" then mkCoverNames "half" "three-quarters" "total"
  else if String.eqb (system_id g) "pf2e" then mkCoverNames "Lesser" "Standard" "Greater"
  else mkCoverNames "low" "medium" "high".

(** The [name], [hint] and choice labels are translations. *)
Definition nameOf (g : GameState) (key : string) : string :=
  localize g (MODULE_ID ++ ".settings." ++ key ++ ".Name").

Definition hintOf (g : GameState) (key : string) : string :=
  localize g (MODULE_ID ++ ".settings." ++ key ++ ".Hint").

Definition choice (g : GameState) (key : string) : string * string :=
  (key, localize g (MODULE_ID ++ ".settings." ++ key)).

(** The [config] callbacks of the trigger settings. *)
Definition config_center (get : string -> JSValue) : bool :=
  is_string (get COVER.ALGORITHM) COVER.TYPES.CENTER_CENTER.

Definition config_corners (get : string -> JSValue) : bool :=
  negb (is_string (get COVER.ALGORITHM) COVER.TYPES.AREA)
  && negb (is_string (get COVER.ALGORITHM) COVER.TYPES.AREA_3D)
  && negb (is_string (get COVER.ALGORITHM) COVER.TYPES.CENTER_CENTER).

Definition config_area (get : string -> JSValue) : bool :=
  is_string (get COVER.ALGORITHM) COVER.TYPES.AREA
  || is_string (get COVER.ALGORITHM) COVER.TYPES.AREA_3D.

Definition config_percent_area (get : string -> JSValue) : bool :=
  is_string (get LOS.ALGORITHM) LOS.TYPES.AREA.

(** The settings [registerSettings] registers, in order. *)
Definition registrations (g : GameState) : list (string * SettingData) :=
  let coverNames := getCoverNames g in
  let setting key config type choices default range onChange :=
    (key, mkSettingData (nameOf g key) (hintOf g key) "world" config type choices
                        default range onChange) in
  [ setting RANGE.ALGORITHM (ConfigValue true) TString
      (Some [choice g RANGE.TYPES.CENTER; choice g RANGE.TYPES.FOUNDRY;
             choice g RANGE.TYPES.FOUNDRY_3D])
      (VString RANGE.TYPES.FOUNDRY) None None;
    setting LOS.ALGORITHM (ConfigValue true) TString
      (Some [choice g LOS.TYPES.POINTS; choice g LOS.TYPES.AREA])
      (VString LOS.TYPES.POINTS) None (Some UpdateLosSetting);
    setting LOS.PERCENT_AREA (ConfigCallback config_percent_area) TNumber None
      (VNumber 0) (Some (mkRange 1 0 0.1)) None;
    setting COVER.ALGORITHM (ConfigValue true) TString
      (Some [choice g COVER.TYPES.CENTER_CENTER; choice g COVER.TYPES.CENTER_CORNER;
             choice g COVER.TYPES.CORNER_CORNER; choice g COVER.TYPES.AREA;
             choice g COVER.TYPES.CENTER_CUBE; choice g COVER.TYPES.CUBE_CUBE;
             choice g COVER.TYPES.AREA_3D])
      (VString COVER.TYPES.CENTER_CORNER) None (Some UpdateCoverSetting);
    setting COVER.TRIGGER_CENTER (ConfigCallback config_center) TString
      (Some [("low", low coverNames); ("medium", medium coverNames);
             ("high", high coverNames)])
      (VString (medium coverNames)) None None;
    setting COVER.TRIGGER_CORNERS.LOW (ConfigCallback config_corners) TNumber None
      (VNumber 1) (Some (mkRange 99 1 1)) None;
    setting COVER.TRIGGER_CORNERS.MEDIUM (ConfigCallback config_corners) TNumber None
      (VNumber 3) (Some (mkRange 99 1 1)) None;
    setting COVER.TRIGGER_CORNERS.HIGH (ConfigCallback config_corners) TNumber None
      (VNumber 99) (Some (mkRange 99 1 1)) None;
    setting COVER.TRIGGER_AREA.LOW (ConfigCallback config_area) TNumber None
      (VNumber 0.5) (Some (mkRange 1 0.1 0.1)) None;
    setting COVER.TRIGGER_AREA.MEDIUM (ConfigCallback config_area) TNumber None
      (VNumber 0.75) (Some (mkRange 1 0.1 0.1)) None;
    setting COVER.TRIGGER_AREA.HIGH (ConfigCallback config_area) TNumber None
      (VNumber 1) (Some (mkRange 1 0.1 0.1)) None;
    setting COVER.NAMES.LOW (ConfigValue true) TString None
      (VString (low coverNames)) None None;
    setting COVER.NAMES.MEDIUM (ConfigValue true) TString None
      (VString (medium coverNames)) None None;
    setting COVER.NAMES.HIGH (ConfigValue true) TString None
      (VString (high coverNames)) None None;
    setting COVER.EFFECTS.LOW (ConfigValue true) TString None (VString "") None None;
    setting COVER.EFFECTS.MEDIUM (ConfigValue true) TString None (VString "") None None;
    setting COVER.EFFECTS.HIGH (ConfigValue true) TString None (VString "") None None ].

Fixpoint registerAll (l : list (string * SettingData)) : Script GameState unit :=
  match l with
  | [] => sret tt
  | (key, data) :: l' => register key data ;;; registerAll l'
  end.

(** [registerSettings()] *)
Definition registerSettings : Script GameState unit :=
  log "Registering token visibility settings." ;;;
  l <- gets registrations ;;
  registerAll l ;;;
  log "Done registering settings.".

(** The module variables [ORIGINAL_LOS_ALGORITHM] and
    [ORIGINAL_COVER_ALGORITHM]; nothing outside settings.js reaches them. *)
Record Originals := mkOriginals {
  ORIGINAL_LOS_ALGORITHM : JSValue;
  ORIGINAL_COVER_ALGORITHM : JSValue
}.

Definition Session : Type := (GameState * Originals)%type.

(** A script that only has the globals at hand. *)
Definition inGame {A} (m : Script GameState A) : Script Session A :=
  fun s => let '(o, g) := m (fst s) in (o, (g, snd s)).

Definition setOriginalLos (v : JSValue) : Script Session unit :=
  modify (fun s => (fst s, mkOriginals v (ORIGINAL_COVER_ALGORITHM (snd s)))).

Definition setOriginalCover (v : JSValue) : Script Session unit :=
  modify (fun s => (fst s, mkOriginals (ORIGINAL_LOS_ALGORITHM (snd s)) v)).

(** [tempUpdateLosSetting(event)]; [value] is [event.currentTarget.value]. *)
Definition tempUpdateLosSetting (value : string) : Script Session unit :=
  current <- inGame (getSetting LOS.ALGORITHM) ;;
  setOriginalLos current ;;;
  inGame (setSetting LOS.ALGORITHM (VString value)).

(** [tempUpdateCoverSetting(event)] *)
Definition tempUpdateCoverSetting (value : string) : Script Session unit :=
  current <- inGame (getSetting COVER.ALGORITHM) ;;
  setOriginalCover current ;;;
  inGame (setSetting COVER.ALGORITHM (VString value)).

(** [closeSettingsConfig(wrapper, options = {})]; [wrapper] is the wrapped
    method applied to [options]. *)
Definition closeSettingsConfig {Out} (wrapper : Script GameState Out) : Script Session Out :=
  out <- inGame wrapper ;;
  los <- gets (fun s => ORIGINAL_LOS_ALGORITHM (snd s)) ;;
  (if truthy los
   then inGame (setSetting LOS.ALGORITHM los) ;;; setOriginalLos VUndefined
   else sret tt) ;;;
  cover <- gets (fun s => ORIGINAL_COVER_ALGORITHM (snd s)) ;;
  (if truthy cover
   then inGame (setSetting COVER.ALGORITHM cover) ;;; setOriginalCover VUndefined
   else sret tt) ;;;
  sret out.

(** [_onSubmitSettingsConfig(wrapper, options = {})] *)
Definition _onSubmitSettingsConfig {Out} (wrapper : Script GameState Out)
  : Script Session Out :=
  los <- gets (fun s => ORIGINAL_LOS_ALGORITHM (snd s)) ;;
  (if truthy los then setOriginalLos VUndefined else sret tt) ;;;
  cover <- gets (fun s => ORIGINAL_COVER_ALGORITHM (snd s)) ;;
  (if truthy cover then setOriginalCover VUndefined else sret tt) ;;;
  inGame wrapper.

(** [_onChangeInput(wrapper, event)] *)
Definition _onChangeInput {Out} (wrapper : Script GameState Out) : Script GameState Out :=
  log "_onChangeInput!" ;;;
  did (Notify "_onChangeInput settingsConfig") ;;;
  wrapper.

(** [setSettingVisibility] on each setting of a list, in order. *)
Fixpoint setVisibilities (l : list (string * bool)) : Script GameState unit :=
  match l with
  | [] => sret tt
  | (settingName, visible) :: l' =>
    setSettingVisibility settingName (Some visible) ;;; setVisibilities l'
  end.

(** The log line of [setSettingVisibility]. *)
Definition visibilityLog (settingName : string) (visible : bool) : UIEvent :=
  ConsoleLog ("Setting " ++ settingName ++ " to "
              ++ (if visible then "visible" else "not visible")).

(** The keys of the [SETTINGS] object. *)
Definition settingKeys : list string :=
  [ USE_MODULE; RANGE.ALGORITHM; LOS.ALGORITHM; LOS.PERCENT_AREA; COVER.ALGORITHM;
    COVER.NAMES.LOW; COVER.NAMES.MEDIUM; COVER.NAMES.HIGH;
    COVER.EFFECTS.LOW; COVER.EFFECTS.MEDIUM; COVER.EFFECTS.HIGH;
    COVER.TRIGGER_CENTER;
    COVER.TRIGGER_CORNERS.LOW; COVER.TRIGGER_CORNERS.MEDIUM; COVER.TRIGGER_CORNERS.HIGH;
    COVER.TRIGGER_AREA.LOW; COVER.TRIGGER_AREA.MEDIUM; COVER.TRIGGER_AREA.HIGH ].

(** The settings shown and hidden by the cover algorithm. *)
Definition cornerTriggers : list string :=
  [COVER.TRIGGER_CORNERS.LOW; COVER.TRIGGER_CORNERS.MEDIUM; COVER.TRIGGER_CORNERS.HIGH].

Definition areaTriggers : list string :=
  [COVER.TRIGGER_AREA.LOW; COVER.TRIGGER_AREA.MEDIUM; COVER.TRIGGER_AREA.HIGH].

(** The [config] field of a registered setting of this module. *)
Definition configOf (g : GameState) (settingName : string) : option Config :=
  option_map data_config (Obj.get (MODULE_ID ++ "." ++ settingName) (registry g)).

(** The settings as they read once the algorithm settings are changed. *)
Definition reading (g : GameState) (key value : string) : string -> JSValue :=
  fun k => if String.eqb k key then VString value else values g k.

(** What a [config] field says when the settings read as [get]. *)
Definition shown (c : Config) (get : string -> JSValue) : bool :=
  match c with ConfigValue b => b | ConfigCallback f => f get end.

(** The state a script leaves, and what it returns. *)
Definition after {S A} (m : Script S A) (s : S) : S := snd (m s).
Definition outcome {S A} (m : Script S A) (s : S) : Outcome A := fst (m s).

(** A number lies in a range. *)
Definition inRange (v : JSValue) (r : NumberRange) : bool :=
  match v with
  | VNumber n => (range_min r <=? n)%float && (n <=? range_max r)%float
  | _ => false
  end.

(** A string is one of the keys of a choices object. *)
Definition isChoice (v : JSValue) (choices : list (string * string)) : bool :=
  match v with VString s => Obj.has s choices | _ => false end.

End SettingsJs.

(* ------------------------------------------------------------------ *)
(** ** const.js *)

Module ConstJs.

Local Open Scope string_scope.
Local Open Scope script_scope.

Definition MODULE_ID : string := "tokenvisibility".

Module COVER.

(** [COVER.TYPES], by name and as the object. *)
Module TYPE.
Definition NONE : Z := 0.
Definition LOW : Z := 1.
Definition MEDIUM : Z := 2.
Definition HIGH : Z := 3.
Definition TOTAL : Z := 4.
End TYPE.

Definition TYPES : list (string * Z) :=
  [("NONE", TYPE.NONE); ("LOW", TYPE.LOW); ("MEDIUM", TYPE.MEDIUM); ("HIGH", TYPE.HIGH);
   ("TOTAL", TYPE.TOTAL)].

(** [COVER.SFRPG] *)
Definition SFRPG : list (Z * string) :=
  [(1%Z, "Partial Cover"); (2%Z, "Cover"); (3%Z, "Improved Cover"); (4%Z, "Total Cover")].

(** [Set.prototype.union]: the elements of the first set, then the new
    ones of the second. *)
Definition union (a b : list string) : list string :=
  (a ++ filter (fun s => negb (existsb (String.eqb s) a)) b)%list.

Definition dfreds : string := "dfreds-convenient-effects".

(** [COVER.IDS] *)
Definition IDS_module : list string :=
  [MODULE_ID ++ ".cover.LOW"; MODULE_ID ++ ".cover.MEDIUM"; MODULE_ID ++ ".cover.HIGH"].

Definition IDS_dfreds : list string :=
  ["Convenient Effect: Cover (Half)";
   "Convenient Effect: Cover (Three-Quarters)";
   "Convenient Effect: Cover (Total)"].

Definition IDS_ALL : list string := union IDS_module IDS_dfreds.

Definition IDS : list (string * list string) :=
  [(MODULE_ID, IDS_module); (dfreds, IDS_dfreds); ("ALL", IDS_ALL)].

(** [COVER.DFRED_NAMES] *)
Definition DFRED_NAMES : list (string * string) :=
  [("LOW", "Cover (Half)"); ("MEDIUM", "Cover (Three-Quarters)"); ("HIGH", "Cover (Total)")].

(** [COVER.CATEGORIES] *)
Definition CATEGORIES : list (string * list (string * string)) :=
  [("LOW", [(dfreds, "Convenient Effect: Cover (Half)");
            (MODULE_ID, MODULE_ID ++ ".cover.LOW")]);
   ("MEDIUM", [(dfreds, "Convenient Effect: Cover (Three-Quarters)");
               (MODULE_ID, MODULE_ID ++ ".cover.MEDIUM")]);
   ("HIGH", [(dfreds, "Convenient Effect: Cover (Total)");
             (MODULE_ID, MODULE_ID ++ ".cover.HIGH")])].

(** [COVER.TYPES_FOR_ID] *)
Definition TYPES_FOR_ID : list (string * list (string * Z)) :=
  [(MODULE_ID,
    [(MODULE_ID ++ ".cover.LOW", TYPE.LOW);
     (MODULE_ID ++ ".cover.MEDIUM", TYPE.MEDIUM);
     (MODULE_ID ++ ".cover.HIGH", TYPE.HIGH);
     (MODULE_ID ++ ".cover.low", TYPE.LOW);
     (MODULE_ID ++ ".cover.medium", TYPE.MEDIUM);
     (MODULE_ID ++ ".cover.high", TYPE.HIGH)]);
   (dfreds,
    [("Convenient Effect: Cover (Half)", TYPE.LOW);
     ("Convenient Effect: Cover (Three-Quarters)", TYPE.MEDIUM);
     ("Convenient Effect: Cover (Total)", TYPE.HIGH)])].

(** [Math.min(...l)] and [Math.max(...l)]; [None] is the infinity an
    empty list gives. *)
Definition Math_min (l : list Z) : option Z :=
  match l with [] => None | v :: l' => Some (fold_left Z.min l' v) end.

Definition Math_max (l : list Z) : option Z :=
  match l with [] => None | v :: l' => Some (fold_left Z.max l' v) end.

(** [COVER.MIN], [COVER.MAX] *)
Definition MIN : option Z := Math_min (map snd TYPES).
Definition MAX : option Z := Math_max (map snd TYPES).

(** [COVER.TYPES_FOR_ID[module][id]] *)
Definition typeForId (module id : string) : option Z :=
  match Obj.get module TYPES_FOR_ID with
  | Some table => Obj.get id table
  | None => None
  end.

(** [COVER.CATEGORIES[category][module]] *)
Definition idFor (category module : string) : option string :=
  match Obj.get category CATEGORIES with
  | Some ids => Obj.get module ids
  | None => None
  end.

End COVER.

(** [MODULES_ACTIVE], as the file declares it. *)
Definition MODULES_ACTIVE : list (string * JSValue) :=
  [("WALL_HEIGHT", VBoolean false); ("PERFECT_VISION", VBoolean false);
   ("LEVELS", VBoolean false); ("DFREDS_CE", VBoolean false);
   ("SIMBULS_CC", VBoolean false); ("MIDI_QOL", VBoolean false);
   ("EV", VBoolean false)].

(** [game.modules.get(id)?.active]; [modules id] is [None] for a module
    that is not installed. *)
Definition active (modules : string -> option bool) (id : string) : JSValue :=
  match modules id with Some b => VBoolean b | None => VUndefined end.

(** The [init] hook of const.js *)
Definition init (modules : string -> option bool) (MODULES_ACTIVE : list (string * JSValue))
  : list (string * JSValue) :=
  let MODULES_ACTIVE := Obj.set "WALL_HEIGHT" (active modules "wall-height") MODULES_ACTIVE in
  let MODULES_ACTIVE := Obj.set "PERFECT_VISION" (active modules "perfect-vision") MODULES_ACTIVE in
  let MODULES_ACTIVE := Obj.set "LEVELS" (active modules "levels") MODULES_ACTIVE in
  let MODULES_ACTIVE := Obj.set "DFREDS_CE" (active modules COVER.dfreds) MODULES_ACTIVE in
  let MODULES_ACTIVE :=
    Obj.set "SIMBULS_CC" (active modules "simbuls-cover-calculator") MODULES_ACTIVE in
  let MODULES_ACTIVE := Obj.set "MIDI_QOL" (active modules "midi-qol") MODULES_ACTIVE in
  Obj.set "ELEVATED_VISION" (active modules "elevatedvision") MODULES_ACTIVE.

(** A property read: a missing key reads as [undefined]. *)
Definition read (o : list (string * JSValue)) (key : string) : JSValue :=
  match Obj.get key o with Some v => v | None => VUndefined end.

(** A class, by its chain of [extends] clauses: [IgnoresCover] itself, a
    class that extends another, or a class with no parent. *)
Inductive JSClass :=
| IgnoresCover
| Extends (name : string) (parent : JSClass)
| Plain (name : string).




(** A token as the cover code sees it: [_ignoresCoverType] holds the
    cached handler object of the token, if any. *)
Record CoverToken := mkCoverToken {
  token_id : string;
  targeted : list nat;
  _ignoresCoverType : option JSClass
}.



End ConstJs.

(* ------------------------------------------------------------------ *)
(** ** patching.js *)

Module PatchingJs.

Local Open Scope string_scope.

(** [initializePatching()]: the groups handed to [PATCHER.registerGroup],
    in order. *)
Definition initializePatching (MODULES_ACTIVE : list (string * JSValue)) (system_id : string)
  : list string :=
  (["BASIC"]
   ++ ["ConstrainedTokenBorder"]
   ++ (if truthy (ConstJs.read MODULES_ACTIVE "LEVELS") then ["LEVELS"] else ["NO_LEVELS"])
   ++ (if String.eqb system_id "dnd5e"
       then if truthy (ConstJs.read MODULES_ACTIVE "MIDI_QOL")
            then ["DND5E_NO_MIDI"] else ["DND5E_MIDI"]
       else [])
   ++ (if String.eqb system_id "sfrpg" then ["sfrpg"] else []))%list.

End PatchingJs.

(* ------------------------------------------------------------------ *)
(** ** The combat turn hook *)

Module CombatJs.

Import ConstJs.

(** The calls into [CoverCalculator]. *)
Inductive CoverCall :=
| DisableAllCover (tokenId : string)
| SetTargetCoverEffect (viewer target : CoverToken).

(** How a run of the hook ends: it returns, or the promise is rejected with
    a ReferenceError; either way after the calls listed. *)
Inductive Completion :=
| Completed (calls : list CoverCall)
| ReferenceError (calls : list CoverCall).

(** [playerOwners.some(owner => token.targeted.has(owner))] *)
Definition targetedByOwner (playerOwners : list nat) (token : CoverToken) : bool :=
  existsb (fun owner => existsb (Nat.eqb owner) (targeted token)) playerOwners.

(** The first loop of [combatTurn]: the targeted tokens collected and the
    calls made, after the tokens [tokens]; [None] when the loop throws.
    [CoverCalculator] is a free identifier of the file, neither imported nor
    declared there: it is looked up in the global scope when the call is
    reached, and [bound] says whether the global scope has it. *)
Fixpoint collect (bound : bool) (playerOwners : list nat) (tokens : list CoverToken)
    (userTargetedTokens : list CoverToken) (done : list CoverCall)
  : list CoverToken * list CoverCall * bool :=
  match tokens with
  | [] => (userTargetedTokens, done, true)
  | token :: rest =>
    let userTargetedTokens :=
      if targetedByOwner playerOwners token
      then userTargetedTokens ++ [token] else userTargetedTokens in
    if bound
    then collect bound playerOwners rest userTargetedTokens
                 (done ++ [DisableAllCover (token_id token)])
    else (userTargetedTokens, done, false)
  end.

(** [combatTurn(combat, updateData, updateOptions)]: [playerOwners] is
    [combat.combatant.players], [combatToken] is
    [combat.combatant.token.object] and [tokens] is
    [canvas.tokens.placeables]. *)
Definition combatTurn (bound : bool) (playerOwners : list nat) (combatToken : CoverToken)
    (tokens : list CoverToken) : Completion :=
  let '(userTargetedTokens, done, finished) := collect bound playerOwners tokens [] [] in
  if negb finished then ReferenceError done
  else
    match userTargetedTokens with
    | [] => Completed done
    | _ :: _ =>
      if bound
      then Completed
             (done ++ map (fun target => SetTargetCoverEffect combatToken target)
                          userTargetedTokens)
      else ReferenceError done
    end.

(** The calls of a run, however it ends. *)
Definition callsOf (c : Completion) : list CoverCall :=
  match c with Completed calls | ReferenceError calls => calls end.

End CombatJs.

(* ------------------------------------------------------------------ *)
(** ** Facts on computations *)

Lemma value_ret {T} (v : T) : value (ret v) = v.
Proof. reflexivity. Qed.

Lemma trace_ret {T} (v : T) : trace (ret v) = [].
Proof. reflexivity. Qed.

Lemma value_bind {T U} (m : Run T) (k : T -> Run U) :
  value (bind m k) = value (k (value m)).
Proof. destruct m as [v t]; simpl. destruct (k v); reflexivity. Qed.

Lemma trace_bind {T U} (m : Run T) (k : T -> Run U) :
  trace (bind m k) = trace m ++ trace (k (value m)).
Proof. destruct m as [v t]; simpl. destruct (k v); reflexivity. Qed.

Lemma trace_emit (e : Event) : trace (emit e) = [e].
Proof. reflexivity. Qed.

Lemma trace_when (b : bool) (m : Run unit) :
  trace (when b m) = if b then trace m else [].
Proof. destruct b; reflexivity. Qed.

Lemma run_eta {T} (m : Run T) : m = (value m, trace m).
Proof. destruct m; reflexivity. Qed.

Create Rewrite HintDb run.
#[local] Hint Rewrite @value_bind @value_ret @trace_bind @trace_ret trace_emit trace_when
  : run.

(** A loop that only draws leaves nothing but drawings in the trace. *)
Lemma forEach_drawings {T} (l : list T) (body : T -> Run unit) :
  (forall a, forallb isDrawing (trace (body a)) = true) ->
  forallb isDrawing (trace (forEach l body)) = true.
Proof.
  intros Hbody. induction l as [|a l IH]; simpl; [reflexivity|].
  rewrite trace_bind, forallb_app, Hbody, IH. reflexivity.
Qed.

(* ------------------------------------------------------------------ *)
(** ** Facts on floating-point comparisons *)

Module FloatFacts.

Ltac split_compare :=
  repeat match goal with
  | s : bool |- _ => destruct s
  end;
  simpl in *;
  change (PosDef.Pos.compare_cont Eq) with Pos.compare in *;
  repeat match goal with
  | H : context [(?a ?= ?b)%Z] |- _ => destruct (Z.compare_spec a b); simpl in H
  | |- context [(?a ?= ?b)%Z] => destruct (Z.compare_spec a b); simpl
  | H : context [(?a ?= ?b)%positive] |- _ => destruct (Pos.compare_spec a b); simpl in H
  | |- context [(?a ?= ?b)%positive] => destruct (Pos.compare_spec a b); simpl
  end;
  subst; try discriminate; try reflexivity; try lia.

(** The order on floats is transitive where it is defined. *)
Lemma SFleb_SFltb_trans (a b c : spec_float) :
  SFleb a b = true -> SFltb b c = true -> SFltb a c = true.
Proof.
  unfold SFleb, SFltb.
  destruct a as [sa|sa| |sa ma ea], b as [sb|sb| |sb mb eb], c as [sc|sc| |sc mc ec];
    simpl; intros Hab Hbc; try discriminate; split_compare.
Qed.

Lemma Prim2SF_zero : Prim2SF 0 = S754_zero false.
Proof. reflexivity. Qed.

Lemma SFsub_zero (a : spec_float) : SFabs (SF64sub a (S754_zero false)) = SFabs a.
Proof. destruct a as [[]|[]| |]; reflexivity. Qed.

(** [|a - 0| < epsilon] on the specification of floats. *)
Lemma almostEqual_zero_spec (a : float) :
  almostEqual a 0 = SFltb (SFabs (Prim2SF a)) (Prim2SF EPSILON).
Proof.
  unfold almostEqual.
  now rewrite ltb_spec, abs_spec, sub_spec, Prim2SF_zero, SFsub_zero.
Qed.

(** Between zero and a number that is almost zero there are only numbers
    that are almost zero. *)
Lemma almostEqual_zero_mono (s t : float) :
  (0 <=? s)%float = true -> (s <=? t)%float = true ->
  almostEqual t 0 = true -> almostEqual s 0 = true.
Proof.
  rewrite !almostEqual_zero_spec, !leb_spec, Prim2SF_zero.
  intros H0 Hst Ht.
  apply SFleb_SFltb_trans with (b := SFabs (Prim2SF t)); [|exact Ht].
  revert H0 Hst. unfold SFleb.
  destruct (Prim2SF s) as [ss|ss| |ss ms es], (Prim2SF t) as [st|st| |st mt et];
    simpl; intros; try discriminate; try reflexivity; split_compare.
Qed.

Lemma ltb_zero_not_eqb (p : float) :
  (0 <? p)%float = true -> (p =? 0)%float = false.
Proof.
  rewrite ltb_spec, FloatAxioms.eqb_spec, Prim2SF_zero. unfold SFltb, SFeqb.
  destruct (Prim2SF p) as [sp|sp| |sp mp ep]; simpl; intros; try discriminate;
    split_compare.
Qed.

(** A number some number is below is not NaN. *)
Lemma leb_not_falsy (s t : float) :
  (s <=? t)%float = true -> (t =? 0)%float = false -> JS.falsy t = false.
Proof.
  unfold JS.falsy, is_nan. intros Hst ->. simpl.
  revert Hst. rewrite leb_spec, FloatAxioms.eqb_spec. unfold SFleb, SFeqb.
  destruct (Prim2SF s) as [ss|ss| |ss ms es], (Prim2SF t) as [st|st| |st mt et];
    simpl; intros; try discriminate; try reflexivity; split_compare.
Qed.

(** [a - a] is zero or NaN, hence falsy. *)
Lemma sub_self_falsy (a : float) : JS.falsy (a - a) = true.
Proof.
  unfold JS.falsy, is_nan.
  rewrite !FloatAxioms.eqb_spec, sub_spec, Prim2SF_zero. unfold SFeqb.
  destruct (Prim2SF a) as [sa|sa| |sa ma ea];
    try (destruct sa; reflexivity); try reflexivity.
  unfold SF64sub, SFsub. rewrite Z.sub_diag. reflexivity.
Qed.

(** Under the contract of clipping ([0 <= seen <= token]) a footprint that
    is not exactly zero while the seen area is not zero is not zero up to
    epsilon either. *)
Lemma zeroArea_contract (seen token : float) :
  (0 <=? seen)%float = true -> (seen <=? token)%float = true ->
  zeroArea seen = false -> (token =? 0)%float = false -> zeroArea token = false.
Proof.
  unfold zeroArea. intros H0 Hst Hseen Htok.
  apply orb_false_iff in Hseen as [_ Hs].
  apply orb_false_iff; split; [now apply leb_not_falsy with (s := seen)|].
  destruct (almostEqual token 0) eqn:Ht; [|reflexivity].
  rewrite (almostEqual_zero_mono _ _ H0 Hst Ht) in Hs. discriminate.
Qed.

End FloatFacts.

Module FloatGuards.

Import FloatFacts.

Lemma SFltb_SFleb_trans (a b c : spec_float) :
  SFltb a b = true -> SFleb b c = true -> SFltb a c = true.
Proof.
  unfold SFleb, SFltb.
  destruct a as [sa|sa| |sa ma ea], b as [sb|sb| |sb mb eb], c as [sc|sc| |sc mc ec];
    simpl; intros Hab Hbc; try discriminate; split_compare.
Qed.

(** The two guards of [testLOSArea] exclude each other. *)
Lemma leb_excludes_ltb (a b : float) : (a <=? b)%float = true -> (b <? a)%float = false.
Proof.
  rewrite leb_spec, ltb_spec. unfold SFleb, SFltb.
  destruct (Prim2SF a) as [sa|sa| |sa ma ea], (Prim2SF b) as [sb|sb| |sb mb eb];
    simpl; intros; try discriminate; try reflexivity; split_compare.
Qed.

Lemma ltb_excludes_leb (a b : float) : (a <? b)%float = true -> (b <=? a)%float = false.
Proof.
  intros Hab. destruct (b <=? a)%float eqn:Hba; [|reflexivity].
  rewrite (leb_excludes_ltb _ _ Hba) in Hab. discriminate.
Qed.

(** A required fraction of at least one half is not zero. *)
Lemma half_leb_not_zero (p : float) : (0.5 <=? p)%float = true -> (p =? 0)%float = false.
Proof.
  intros Hp. apply ltb_zero_not_eqb.
  rewrite ltb_spec. apply SFltb_SFleb_trans with (b := Prim2SF 0.5).
  - reflexivity.
  - now rewrite <- leb_spec.
Qed.



End FloatGuards.

(* ------------------------------------------------------------------ *)
(** ** The area test *)

Section AreaTest.

Context {H : Host}.

Lemma value_intersect (fp : Footprint) (los : Shape) :
  value (intersectConstrainedShapeWithLOS fp los)
  = intersectPolygon los (footprintPolygon fp).
Proof. destruct fp; reflexivity. Qed.

Lemma trace_intersect (fp : Footprint) (los : Shape) :
  trace (intersectConstrainedShapeWithLOS fp los)
  = [IntersectPolygon los (footprintPolygon fp)].
Proof. destruct fp; reflexivity. Qed.

(** With a required fraction other than zero the test is the clipping path,
    on the region as it was passed in. *)
Lemma areaTest_clipping (g : Game) (los : Shape) (fp : Footprint) :
  (PERCENT_AREA (settings g) =? 0)%float = false ->
  value (areaTest g los fp)
  = if zeroArea (seenArea los fp) then false
    else if zeroArea (tokenArea fp) then false
    else meetsFraction (seenArea los fp / tokenArea fp) (PERCENT_AREA (settings g)).
Proof.
  intros Hp. unfold areaTest, getSetting_PERCENT_AREA. rewrite Hp. cbn [andb].
  rewrite value_bind, value_intersect.
  fold (seenArea los fp). fold (zeroArea (seenArea los fp)).
  destruct (zeroArea (seenArea los fp)); [reflexivity|].
  fold (tokenArea fp). fold (zeroArea (tokenArea fp)).
  destruct (zeroArea (tokenArea fp)); [reflexivity|].
  rewrite value_bind. reflexivity.
Qed.

(** C1. With a required fraction [p > 0], for every line-of-sight region and
    footprint: the area test answers not visible when the intersection area
    is zero (up to epsilon) and when the footprint area is zero; otherwise
    it answers visible exactly when [ratio = seen / footprint] is greater
    than [p] or almost equal to [p].  "Otherwise" is read both with the
    zero test of the code on the footprint and, for areas that obey the
    contract of clipping [0 <= seen <= footprint], with a footprint that is
    not exactly zero.  A footprint of area 100 with 50 seen and [p = 0.5] is
    visible. *)
Theorem areaTest_required_fraction (g : Game) (los : Shape) (fp : Footprint) :
  (0 <? PERCENT_AREA (settings g))%float = true ->
  let p := PERCENT_AREA (settings g) in
  let seen := seenArea los fp in
  let token := tokenArea fp in
  let visible := value (areaTest g los fp) in
  (zeroArea seen = true -> visible = false)
  /\ ((token =? 0)%float = true -> visible = false)
  /\ (zeroArea seen = false -> zeroArea token = false ->
      visible = (JS.gt (seen / token) p || almostEqual (seen / token) p))
  /\ (zeroArea seen = false -> (token =? 0)%float = false ->
      (0 <=? seen)%float = true -> (seen <=? token)%float = true ->
      visible = (JS.gt (seen / token) p || almostEqual (seen / token) p))
  /\ (token = 100%float -> seen = 50%float -> p = 0.5%float -> visible = true).
Proof.
  intros Hpos p seen token visible.
  assert (Hv : visible
               = if zeroArea seen then false
                 else if zeroArea token then false
                 else meetsFraction (seen / token) p)
    by (apply areaTest_clipping, FloatFacts.ltb_zero_not_eqb, Hpos).
  repeat split.
  - intros Hs. now rewrite Hv, Hs.
  - intros Ht. rewrite Hv. destruct (zeroArea seen); [reflexivity|].
    unfold zeroArea, JS.falsy. now rewrite Ht.
  - intros Hs Ht. now rewrite Hv, Hs, Ht.
  - intros Hs Ht H0 Hst.
    now rewrite Hv, Hs, (FloatFacts.zeroArea_contract _ _ H0 Hst Hs Ht).
  - intros Ht Hs Hp. rewrite Hv, Ht, Hs, Hp. reflexivity.
Qed.

End AreaTest.

(** The scene of the specification: area 100, 50 of it seen, [p = 0.5]. *)
Lemma areaTest_required_fraction_witness :
  (0 <? PERCENT_AREA (settings (Scene.game false 0.5)))%float = true
  /\ value (areaTest (H := Scene.halfSeen) (Scene.game false 0.5)
                     (SPolygon (los (Scene.observer 5)))
                     (FRectangle (bounds Scene.token))) = true.
Proof.
  split; [reflexivity|].
  pose proof (areaTest_required_fraction (H := Scene.halfSeen) (Scene.game false 0.5)
                (SPolygon (los (Scene.observer 5))) (FRectangle (bounds Scene.token))
                eq_refl) as W.
  cbv zeta in W. destruct W as (_ & _ & _ & _ & W).
  apply W; reflexivity.
Defined.

(* ------------------------------------------------------------------ *)
(** ** The line-of-sight area test *)

Section LOSArea.

Context {H : Host}.

Lemma testLOSArea_accept (g : Game) (v : VisionSource) (target : Token) (hasLOS : bool) :
  cheapAccept hasLOS (PERCENT_AREA (settings g)) = true ->
  testLOSArea g v target hasLOS = ret (true, target).
Proof.
  unfold cheapAccept, testLOSArea, getSetting_PERCENT_AREA. now intros ->.
Qed.

Lemma testLOSArea_reject (g : Game) (v : VisionSource) (target : Token) (hasLOS : bool) :
  cheapReject hasLOS (PERCENT_AREA (settings g)) = true ->
  testLOSArea g v target hasLOS = ret (false, target).
Proof.
  unfold cheapReject, testLOSArea, getSetting_PERCENT_AREA. intros Hr.
  destruct hasLOS; [discriminate|]. cbn [andb negb] in *. now rewrite Hr.
Qed.

(** With a required fraction other than zero every area test clips. *)
Lemma areaTest_clips (g : Game) (los : Shape) (fp : Footprint) :
  (PERCENT_AREA (settings g) =? 0)%float = false ->
  existsb isClipping (trace (areaTest g los fp)) = true.
Proof.
  intros Hp. unfold areaTest, getSetting_PERCENT_AREA. rewrite Hp. cbn [andb].
  rewrite trace_bind, trace_intersect. reflexivity.
Qed.

(** Past the two short cuts the answer is the verdict of the area test, and
    the first region is always tested. *)
Lemma testLOSArea_full (g : Game) (v : VisionSource) (target : Token) (hasLOS : bool) :
  cheapAccept hasLOS (PERCENT_AREA (settings g)) = false ->
  cheapReject hasLOS (PERCENT_AREA (settings g)) = false ->
  fst (value (testLOSArea g v target hasLOS)) = areaVerdict g v target
  /\ exists before region after,
      In region (regionsTested v target)
      /\ trace (testLOSArea g v target hasLOS)
         = before ++ trace (areaTest g region (value (footprintOf target))) ++ after.
Proof.
  intros Ha Hr. unfold areaVerdict, regionsTested, testLOSArea, getSetting_PERCENT_AREA.
  unfold cheapAccept in Ha. unfold cheapReject in Hr. rewrite Ha, Hr.
  fold (footprintOf target). cbn [topZ bottomZ setConstrainedTokenShape]. cbv zeta.
  destruct (_ && _ || JS.gt _ _), (_ && _ || (_ <? _)%float); cbn [existsb]; split;
    repeat (rewrite value_bind || rewrite value_ret || rewrite trace_bind
            || rewrite trace_ret || rewrite app_nil_r || cbn [fst snd app]);
    try (rewrite orb_false_r; reflexivity).
  - destruct (value (areaTest g _ _)) eqn:Htop; [reflexivity|].
    rewrite value_bind, orb_false_r. reflexivity.
  - match goal with
    | |- exists b r a, _ /\ ?f ++ ?sb ++ ?st ++ trace (areaTest g ?r0 _) ++ ?rest = _ =>
      exists (f ++ sb ++ st), r0, rest
    end.
    split; [left; reflexivity|]. now rewrite <- !app_assoc.
  - match goal with
    | |- exists b r a, _ /\ ?f ++ ?st ++ trace (areaTest g ?r0 _) = _ =>
      exists (f ++ st), r0, []
    end.
    split; [left; reflexivity|]. now rewrite app_nil_r, <- !app_assoc.
  - match goal with
    | |- exists b r a, _ /\ ?f ++ ?sb ++ trace (areaTest g ?r0 _) = _ =>
      exists (f ++ sb), r0, []
    end.
    split; [left; reflexivity|]. now rewrite app_nil_r, <- !app_assoc.
  - match goal with
    | |- exists b r a, _ /\ ?f ++ trace (areaTest g ?r0 _) = _ =>
      exists f, r0, []
    end.
    split; [left; reflexivity|]. now rewrite app_nil_r.
Qed.

(** C2. When the required fraction is below 0.5, a successful center-point
    test makes [testLOSArea] answer visible, and when it is at least 0.5 a
    failed center-point test makes it answer not visible; in both cases
    nothing else happens (the trace is empty: no footprint, no shadow, no
    area test).  Hence whenever anything happens, a clip for one, neither
    short cut applied.  A successful center-point test is necessary but not
    sufficient at 0.5 and above: the area test then runs, a polygon is
    clipped, and the answer is the verdict of the area test, not visible
    when no region passes.  Below 0.5 a failed center-point test leaves the
    answer to the area test as well. *)
Theorem testLOSArea_short_circuits
    (g : Game) (v : VisionSource) (target : Token) (hasLOS : bool) :
  let p := PERCENT_AREA (settings g) in
  ((p <? 0.5)%float = true -> testLOSArea g v target true = ((true, target), []))
  /\ ((0.5 <=? p)%float = true -> testLOSArea g v target false = ((false, target), []))
  /\ (existsb isClipping (trace (testLOSArea g v target hasLOS)) = true ->
      cheapAccept hasLOS p = false /\ cheapReject hasLOS p = false)
  /\ (trace (testLOSArea g v target hasLOS) <> [] ->
      cheapAccept hasLOS p = false /\ cheapReject hasLOS p = false)
  /\ ((0.5 <=? p)%float = true ->
      fst (value (testLOSArea g v target true)) = areaVerdict g v target
      /\ existsb isClipping (trace (testLOSArea g v target true)) = true
      /\ ((forall region, In region (regionsTested v target) ->
             value (areaTest g region (value (footprintOf target))) = false) ->
          fst (value (testLOSArea g v target true)) = false))
  /\ ((p <? 0.5)%float = true ->
      fst (value (testLOSArea g v target false)) = areaVerdict g v target).
Proof.
  intros p.
  assert (Hquiet : forall b, cheapAccept b p || cheapReject b p = true ->
                             trace (testLOSArea g v target b) = []).
  { intros b Hexit. apply orb_true_iff in Hexit as [Ha|Hr].
    - now rewrite (testLOSArea_accept g v target b Ha).
    - now rewrite (testLOSArea_reject g v target b Hr). }
  assert (Hnone : trace (testLOSArea g v target hasLOS) <> [] ->
                  cheapAccept hasLOS p = false /\ cheapReject hasLOS p = false).
  { intros Htrace. apply orb_false_iff.
    destruct (cheapAccept hasLOS p || cheapReject hasLOS p) eqn:Hexit; [|reflexivity].
    now elim Htrace; apply Hquiet. }
  split; [|split; [|split; [|split; [|split]]]].
  - intros Hp. now apply testLOSArea_accept.
  - intros Hp. now apply testLOSArea_reject.
  - intros Hclip. apply Hnone. intros Hempty. rewrite Hempty in Hclip. discriminate.
  - exact Hnone.
  - intros Hp.
    assert (Ha : cheapAccept true p = false)
      by (unfold cheapAccept; cbn [andb]; now apply FloatGuards.leb_excludes_ltb).
    destruct (testLOSArea_full g v target true Ha eq_refl)
      as (Hvalue & before & region & after & Hin & Htrace).
    split; [exact Hvalue|]. split.
    + rewrite Htrace, !existsb_app.
      rewrite (areaTest_clips g region _ (FloatGuards.half_leb_not_zero p Hp)).
      cbn [orb]. apply orb_true_r.
    + intros Hfail. rewrite Hvalue. unfold areaVerdict.
      destruct (existsb _ (regionsTested v target)) eqn:Hsome; [|reflexivity].
      apply existsb_exists in Hsome as (r & Hr & Hpass).
      now rewrite (Hfail r Hr) in Hpass.
  - intros Hp.
    assert (Hr : cheapReject false p = false)
      by (unfold cheapReject; cbn [andb negb]; now apply FloatGuards.ltb_excludes_leb).
    now destruct (testLOSArea_full g v target false eq_refl Hr).
Qed.

(** C5 (amended). When the observer's elevation is strictly between the
    bottom and the top of the target and neither short cut on the center
    point applies, [testLOSArea] computes the shadowed region at the bottom
    plane and at the top plane, and answers visible exactly when the area
    test passes on the top region or on the bottom region. *)
Theorem testLOSArea_between
    (g : Game) (v : VisionSource) (target : Token) (hasLOS : bool) :
  (elevationZ v <? topZ target)%float = true ->
  (bottomZ target <? elevationZ v)%float = true ->
  cheapAccept hasLOS (PERCENT_AREA (settings g)) = false ->
  cheapReject hasLOS (PERCENT_AREA (settings g)) = false ->
  let constrained := value (footprintOf target) in
  let shadowTop := shadowPolygonForElevation v (topZ target) in
  let shadowBottom := shadowPolygonForElevation v (bottomZ target) in
  fst (value (testLOSArea g v target hasLOS))
  = (value (areaTest g (value shadowTop) constrained)
     || value (areaTest g (value shadowBottom) constrained))
  /\ exists after,
      trace (testLOSArea g v target hasLOS)
      = trace (footprintOf target) ++ trace shadowBottom ++ trace shadowTop ++ after.
Proof.
  intros Htop Hbottom Ha Hr. cbv zeta.
  unfold testLOSArea, getSetting_PERCENT_AREA.
  unfold cheapAccept in Ha. unfold cheapReject in Hr. rewrite Ha, Hr.
  fold (footprintOf target). cbn [topZ bottomZ setConstrainedTokenShape].
  unfold JS.gt. rewrite Htop, Hbottom. cbn [andb orb].
  split.
  - repeat (rewrite value_bind || rewrite value_ret).
    destruct (value (areaTest g _ _)) eqn:Ht.
    + reflexivity.
    + rewrite value_bind. reflexivity.
  - repeat (rewrite trace_bind || rewrite value_bind || rewrite value_ret
            || rewrite trace_ret || rewrite app_nil_r).
    eexists. rewrite <- ?app_assoc. reflexivity.
Qed.

End LOSArea.

(** Required fraction 0.3 with the center seen, 0.5 with the center hidden,
    and 0.7 with the center seen: the wall leaves six tenths of the token at
    the top plane and two at the bottom plane, a polygon is clipped and the
    token is not visible. *)
Lemma testLOSArea_short_circuits_witness :
  ((0.3 <? 0.5)%float = true
   /\ testLOSArea (H := Scene.topAndBottom) (Scene.game false 0.3)
                  (Scene.observer 5) Scene.token true
      = ((true, Scene.token), []))
  /\ ((0.5 <=? 0.5)%float = true
      /\ testLOSArea (H := Scene.topAndBottom) (Scene.game false 0.5)
                     (Scene.observer 5) Scene.token false
         = ((false, Scene.token), []))
  /\ ((0.5 <=? 0.7)%float = true
      /\ existsb isClipping
           (trace (testLOSArea (H := Scene.topAndBottom) (Scene.game false 0.7)
                               (Scene.observer 5) Scene.token true)) = true
      /\ fst (value (testLOSArea (H := Scene.topAndBottom) (Scene.game false 0.7)
                                 (Scene.observer 5) Scene.token true)) = false).
Proof.
  destruct (testLOSArea_short_circuits (H := Scene.topAndBottom) (Scene.game false 0.3)
              (Scene.observer 5) Scene.token true) as (Waccept & _).
  destruct (testLOSArea_short_circuits (H := Scene.topAndBottom) (Scene.game false 0.5)
              (Scene.observer 5) Scene.token true) as (_ & Wreject & _).
  destruct (testLOSArea_short_circuits (H := Scene.topAndBottom) (Scene.game false 0.7)
              (Scene.observer 5) Scene.token true) as (_ & _ & _ & _ & Wneeded & _).
  split; [split; [reflexivity|apply Waccept; reflexivity]|].
  split; [split; [reflexivity|apply Wreject; reflexivity]|].
  destruct (Wneeded eq_refl) as (_ & Wclip & Wfails).
  split; [reflexivity|]. split; [exact Wclip|].
  apply Wfails. intros region [<-|[<-|[]]]; reflexivity.
Defined.

(** The scene of the specification: observer at elevation 5 between bottom 0
    and top 10, ratio 0.6 at the top and 0.2 at the bottom, [p = 0.5], center
    seen. *)
Lemma testLOSArea_between_witness :
  let g := Scene.game false 0.5 in
  let v := Scene.observer 5 in
  ((elevationZ v <? topZ Scene.token)%float = true
   /\ (bottomZ Scene.token <? elevationZ v)%float = true
   /\ cheapAccept true (PERCENT_AREA (settings g)) = false
   /\ cheapReject true (PERCENT_AREA (settings g)) = false)
  /\ fst (value (testLOSArea (H := Scene.topAndBottom) g v Scene.token true)) = true.
Proof.
  split; [repeat split|].
  rewrite (proj1 (testLOSArea_between (H := Scene.topAndBottom) (Scene.game false 0.5)
                    (Scene.observer 5) Scene.token true
                    eq_refl eq_refl eq_refl eq_refl)).
  reflexivity.
Defined.

(** C5 as stated fails: with the same scene and [p = 0.5] but a center point
    that is not seen, the observer is strictly between bottom and top and
    the area test on the top region passes (ratio 0.6), yet the answer is
    not visible and no shadow is computed. *)
Lemma testLOSArea_between_counterexample :
  let g := Scene.game false 0.5 in
  let v := Scene.observer 5 in
  let fp := value (footprintOf (H := Scene.topAndBottom) Scene.token) in
  ((elevationZ v <? topZ Scene.token)%float = true
   /\ (bottomZ Scene.token <? elevationZ v)%float = true)
  /\ value (areaTest (H := Scene.topAndBottom) g
              (value (shadowPolygonForElevation (H := Scene.topAndBottom) v
                        (topZ Scene.token))) fp) = true
  /\ testLOSArea (H := Scene.topAndBottom) g v Scene.token false
     = ((false, Scene.token), []).
Proof. repeat split. Qed.

(* ------------------------------------------------------------------ *)
(** ** The constrained footprint *)

Section ConstrainedShape.

Context {H : Host}.

Lemma filter_all {T} (l : list T) : filter (fun _ => true) l = l.
Proof. induction l as [|a l IH]; simpl; congruence. Qed.

Lemma length_zero_nil {T} (l : list T) : (List.length l =? 0)%nat = true <-> l = [].
Proof. destruct l; simpl; split; congruence. Qed.

(** Without a wall that qualifies the bounding box is returned after the
    quadtree query alone. *)
Lemma constrainedTokenShape_unobstructed (token : Token) (boundsScale : option float) :
  qualifyingWalls (scaledBounds token boundsScale) = [] ->
  constrainedTokenShape token boundsScale
  = (FRectangle (scaledBounds token boundsScale),
     [QuadtreeGetObjects (scaledBounds token boundsScale)]).
Proof.
  unfold constrainedTokenShape, qualifyingWalls.
  fold (scaledBounds token boundsScale).
  set (bbox := scaledBounds token boundsScale). intros Hq.
  unfold quadtree_getObjects. rewrite filter_all. cbn [bind emit ret app].
  destruct (List.length (map qt (quadtree_overlapping bbox)) =? 0)%nat;
    [reflexivity|].
  rewrite Hq. reflexivity.
Qed.

(** With a wall that qualifies the sweep runs, and its polygon is replaced
    by the bounding box when it stores ten coordinates and no vertex takes
    one of the two exits of the loop. *)
Lemma constrainedTokenShape_obstructed (token : Token) (boundsScale : option float) :
  qualifyingWalls (scaledBounds token boundsScale) <> [] ->
  let bbox := scaledBounds token boundsScale in
  let constrained := clockwiseSweep (center token) bbox in
  constrainedTokenShape token boundsScale
  = (if (List.length (points constrained) =? 10)%nat
        && forallb (pointKeepsBounds bbox) (iteratePoints constrained false)
     then FRectangle bbox else FPolygon constrained,
     [QuadtreeGetObjects bbox; ClockwiseSweep (center token) bbox]).
Proof.
  unfold constrainedTokenShape, qualifyingWalls.
  fold (scaledBounds token boundsScale).
  set (bbox := scaledBounds token boundsScale). intros Hq. cbv zeta.
  unfold quadtree_getObjects. rewrite filter_all. cbn [bind emit ret app].
  set (walls := map qt (quadtree_overlapping bbox)) in *.
  destruct (List.length walls =? 0)%nat eqn:Hall.
  - apply length_zero_nil in Hall. rewrite Hall in Hq. now elim Hq.
  - set (kept := filter (wallNotInLine bbox) (filter (wallIntersectsBounds bbox) walls)) in *.
    destruct (List.length kept =? 0)%nat eqn:Hsome.
    + apply length_zero_nil in Hsome. now elim Hq.
    + destruct (List.length (points (clockwiseSweep (center token) bbox)) =? 10)%nat;
        cbn [negb andb]; [|reflexivity].
      destruct (forallb _ _); reflexivity.
Qed.

(** C6. With scale factor 1, when no wall the quadtree returns for the
    bounds qualifies --- none passes both the intersection filter and the
    filter on walls in line with a boundary edge, which is in particular so
    when there is no wall at all --- [constrainedTokenShape] returns the
    bounds of the token unchanged, after the quadtree query alone (no sweep). *)
Theorem constrainedTokenShape_identity (token : Token) :
  qualifyingWalls (bounds token) = [] ->
  value (constrainedTokenShape token (Some 1%float)) = FRectangle (bounds token)
  /\ trace (constrainedTokenShape token (Some 1%float))
     = [QuadtreeGetObjects (bounds token)]
  /\ constrainedTokenShape token None = constrainedTokenShape token (Some 1%float).
Proof.
  intros Hq.
  split; [|split]; [| |reflexivity];
    now rewrite (constrainedTokenShape_unobstructed token (Some 1%float)) by exact Hq.
Qed.

(** C3 (amended). When a wall qualifies, [constrainedTokenShape] returns the
    sweep polygon itself whenever that polygon does not store exactly ten
    coordinates (four corners and the closing point), and whenever one of
    its vertices has an [x] that is almost equal neither to the left nor to
    the right edge; the rectangle is returned only for a polygon of exactly
    ten coordinates all of whose vertices lie on the lines of the two
    vertical edges. *)
Theorem constrainedTokenShape_collapse (token : Token) (boundsScale : option float) :
  qualifyingWalls (scaledBounds token boundsScale) <> [] ->
  let bbox := scaledBounds token boundsScale in
  let constrained := clockwiseSweep (center token) bbox in
  let onVerticalEdge := fun pt =>
    almostEqual (x pt) (left bbox) || almostEqual (x pt) (right bbox) in
  let shape := value (constrainedTokenShape token boundsScale) in
  (List.length (points constrained) <> 10%nat -> shape = FPolygon constrained)
  /\ (forallb onVerticalEdge (iteratePoints constrained false) = false ->
      shape = FPolygon constrained)
  /\ (shape = FRectangle bbox ->
      List.length (points constrained) = 10%nat
      /\ forallb onVerticalEdge (iteratePoints constrained false) = true).
Proof.
  intros Hq bbox constrained onVerticalEdge shape.
  assert (Hshape : shape
                   = if (List.length (points constrained) =? 10)%nat
                        && forallb (pointKeepsBounds bbox) (iteratePoints constrained false)
                     then FRectangle bbox else FPolygon constrained).
  { unfold shape. now rewrite (constrainedTokenShape_obstructed token boundsScale Hq). }
  assert (Hweaker : forallb (pointKeepsBounds bbox) (iteratePoints constrained false) = true ->
                    forallb onVerticalEdge (iteratePoints constrained false) = true).
  { rewrite !forallb_forall. intros Hall pt Hin.
    specialize (Hall pt Hin). unfold pointKeepsBounds in Hall.
    now apply andb_true_iff in Hall as [Hx _]. }
  split; [|split].
  - intros Hlen. rewrite Hshape.
    apply Nat.eqb_neq in Hlen. now rewrite Hlen.
  - intros Hx. rewrite Hshape.
    destruct (forallb (pointKeepsBounds bbox) _) eqn:Hall.
    + rewrite (Hweaker eq_refl) in Hx. discriminate.
    + now rewrite andb_false_r.
  - rewrite Hshape.
    destruct (List.length (points constrained) =? 10)%nat eqn:Hlen; [|discriminate].
    destruct (forallb (pointKeepsBounds bbox) _) eqn:Hall; [|discriminate].
    intros _. split; [now apply Nat.eqb_eq|now apply Hweaker].
Qed.

End ConstrainedShape.

(** A wall on the left edge of the bounds is found by the quadtree and does
    not qualify. *)
Lemma constrainedTokenShape_identity_witness :
  qualifyingWalls (H := Scene.wallOnEdge) (bounds Scene.token) = []
  /\ value (constrainedTokenShape (H := Scene.wallOnEdge) Scene.token (Some 1%float))
     = FRectangle (bounds Scene.token).
Proof.
  split; [reflexivity|].
  apply (constrainedTokenShape_identity (H := Scene.wallOnEdge) Scene.token).
  reflexivity.
Defined.

(** A wall through the token, and a sweep that returns the outline of the
    bounds with one more vertex on the top edge: twelve coordinates. *)
Lemma constrainedTokenShape_collapse_witness :
  qualifyingWalls (H := Scene.extraVertex) (scaledBounds (H := Scene.extraVertex) Scene.token None)
  <> []
  /\ value (constrainedTokenShape (H := Scene.extraVertex) Scene.token None)
     = FPolygon Scene.outlineWithMidpoint.
Proof.
  assert (Hq : qualifyingWalls (H := Scene.extraVertex)
                 (scaledBounds (H := Scene.extraVertex) Scene.token None) <> [])
    by (vm_compute; discriminate).
  split; [exact Hq|].
  destruct (constrainedTokenShape_collapse (H := Scene.extraVertex) Scene.token None Hq)
    as [Wlength _].
  apply Wlength. vm_compute. discriminate.
Defined.

(** C3 as stated fails: every vertex of this sweep polygon lies on the edges
    of the bounds (it is the outline of the bounds with the middle of the top
    edge as one more vertex), and the polygon is returned, not the rectangle. *)
Lemma constrainedTokenShape_collapse_counterexample :
  clockwiseSweep (Host := Scene.extraVertex) (center Scene.token) (bounds Scene.token)
  = Scene.outlineWithMidpoint
  /\ forallb (onRectangleEdges (bounds Scene.token))
             (iteratePoints (Host := Scene.extraVertex) Scene.outlineWithMidpoint false)
     = true
  /\ value (constrainedTokenShape (H := Scene.extraVertex) Scene.token (Some 1%float))
     = FPolygon Scene.outlineWithMidpoint.
Proof. repeat split. Qed.

(** The second exit of the loop compares [pt.x] with [bbox.top]: the closed
    outline of the bounds, ten coordinates on the four corners, is returned
    as a polygon too. *)
Example constrainedTokenShape_outline :
  value (constrainedTokenShape
           (H := Scene.host [Scene.crossingWall]
                   (mkPolygon [0; 0; 10; 0; 10; 10; 0; 10; 0; 0]%float false)
                   (fun r _ => r) (fun los _ => SPolygon los))
           Scene.token (Some 1%float))
  = FPolygon (mkPolygon [0; 0; 10; 0; 10; 10; 0; 10; 0; 0]%float false).
Proof. reflexivity. Qed.

(* ------------------------------------------------------------------ *)
(** ** A required fraction of zero *)

Section ZeroFraction.

Context {H : Host}.


(** With a required fraction of zero and a region that is still a
    [ClipperPaths] after [simplify], the test clips. *)
Lemma areaTest_zero_clips (g : Game) (los : Shape) (fp : Footprint) :
  (PERCENT_AREA (settings g) =? 0)%float = true ->
  isClipperPaths (simplified los) = true ->
  exists rest,
    trace (areaTest g los fp)
    = IntersectPolygon (simplified los) (footprintPolygon fp) :: rest.
Proof.
  intros Hp Hs. unfold areaTest, getSetting_PERCENT_AREA. rewrite Hp.
  fold (simplified los). rewrite Hs. cbn [andb negb].
  rewrite trace_bind, trace_intersect. eexists. reflexivity.
Qed.




End ZeroFraction.



(* ------------------------------------------------------------------ *)
(** ** Shadows at an elevation *)

Section Shadows.

Context {H : Host}.

(** The shadows of the walls, in the order of the walls; a wall without a
    shadow contributes none. *)
Lemma shadowPolygonForElevation_value (v : VisionSource) (z : float) :
  value (shadowPolygonForElevation v z)
  = match limitedWalls (polygonBounds (los v)) with
    | [] => SPolygon (los v)
    | walls =>
      Shadow_combinePolygonWithShadows (los v)
        (flat_map (fun wall => match Shadow_construct wall v z with
                               | Some shadow => [shadow]
                               | None => []
                               end) walls)
    end.
Proof.
  unfold shadowPolygonForElevation, quadtree_getObjects.
  fold (limitedWalls (polygonBounds (los v))).
  autorewrite with run.
  destruct (limitedWalls (polygonBounds (los v))) as [|w walls] eqn:Hw.
  - reflexivity.
  - cbn [List.length Nat.eqb]. now autorewrite with run.
Qed.

(** Without such a wall the call logs, asks the quadtree and logs again. *)
Lemma shadowPolygonForElevation_idle (v : VisionSource) (z : float) :
  limitedWalls (polygonBounds (los v)) = [] ->
  trace (shadowPolygonForElevation v z)
  = [Log "Building shadows."; QuadtreeGetObjects (polygonBounds (los v));
     Log "No limited walls; no shadows."].
Proof.
  unfold shadowPolygonForElevation, quadtree_getObjects.
  fold (limitedWalls (polygonBounds (los v))). intros ->. reflexivity.
Qed.

(** C8. [shadowPolygonForElevation] returns the line-of-sight polygon of the
    source unmodified, without constructing or combining any shadow, when no
    wall found in the bounding box of that polygon has a finite height bound
    (walls with both bounds infinite are filtered out by the query);
    otherwise it returns what [Shadow.combinePolygonWithShadows] makes of the
    polygon and the shadows of the walls with a finite bound, one per wall
    that casts one. *)
Theorem shadowPolygonForElevation_spec (v : VisionSource) (z : float) :
  let walls := limitedWalls (polygonBounds (los v)) in
  ((forall o, In o (quadtree_overlapping (polygonBounds (los v))) ->
              JS.isFinite (wallTopZ (qt o)) = false
              /\ JS.isFinite (wallBottomZ (qt o)) = false) ->
   walls = []
   /\ value (shadowPolygonForElevation v z) = SPolygon (los v)
   /\ trace (shadowPolygonForElevation v z)
      = [Log "Building shadows."; QuadtreeGetObjects (polygonBounds (los v));
         Log "No limited walls; no shadows."])
  /\ (forall o, In o (quadtree_overlapping (polygonBounds (los v))) ->
                JS.isFinite (wallTopZ (qt o)) || JS.isFinite (wallBottomZ (qt o)) = true ->
      value (shadowPolygonForElevation v z)
      = Shadow_combinePolygonWithShadows (los v)
          (flat_map (fun wall => match Shadow_construct wall v z with
                                 | Some shadow => [shadow]
                                 | None => []
                                 end) walls)
      /\ In (qt o) walls).
Proof.
  intros walls. split.
  - intros Hnone.
    assert (Hw : walls = []).
    { unfold walls, limitedWalls.
      induction (quadtree_overlapping (polygonBounds (los v))) as [|o l IH];
        [reflexivity|].
      cbn [filter]. destruct (Hnone o (or_introl eq_refl)) as [-> ->].
      cbn [orb]. apply IH. intros o' Hin. apply Hnone. now right. }
    split; [exact Hw|]. split.
    + rewrite shadowPolygonForElevation_value. fold walls. now rewrite Hw.
    + now apply shadowPolygonForElevation_idle.
  - intros o Hin Hfinite.
    assert (Hw : In (qt o) walls).
    { unfold walls, limitedWalls. apply in_map, filter_In. now split. }
    split; [|exact Hw].
    rewrite shadowPolygonForElevation_value. fold walls.
    destruct walls; [now elim Hw|reflexivity].
Qed.

End Shadows.

(** A full-height wall alone leaves the polygon as it is; a wall of finite
    height makes the result the combination with its shadow. *)
Lemma shadowPolygonForElevation_spec_witness :
  let v := Scene.observer 5 in
  ((forall o, In o (quadtree_overlapping (Host := Scene.extraVertex)
                      (polygonBounds (Host := Scene.extraVertex) (los v))) ->
              JS.isFinite (wallTopZ (qt o)) = false
              /\ JS.isFinite (wallBottomZ (qt o)) = false)
   /\ value (shadowPolygonForElevation (H := Scene.extraVertex) v 10%float)
      = SPolygon (los v))
  /\ (JS.isFinite (wallTopZ Scene.lowWall) || JS.isFinite (wallBottomZ Scene.lowWall) = true
      /\ value (shadowPolygonForElevation (H := Scene.topAndBottom) v 10%float)
         = SPolygon (Scene.strip 6)).
Proof.
  assert (Hfull : forall o,
             In o (quadtree_overlapping (Host := Scene.extraVertex)
                     (polygonBounds (Host := Scene.extraVertex) (los (Scene.observer 5)))) ->
             JS.isFinite (wallTopZ (qt o)) = false
             /\ JS.isFinite (wallBottomZ (qt o)) = false).
  { intros o [<- | []]. split; reflexivity. }
  destruct (shadowPolygonForElevation_spec (H := Scene.extraVertex)
              (Scene.observer 5) 10%float) as [Wnone _].
  destruct (shadowPolygonForElevation_spec (H := Scene.topAndBottom)
              (Scene.observer 5) 10%float) as [_ Wsome].
  split; [split; [exact Hfull|apply (Wnone Hfull)]|].
  split; [reflexivity|].
  rewrite (proj1 (Wsome (mkQObj (Scene.boundsOf (los (Scene.observer 5))) Scene.lowWall)
                        (or_introl eq_refl) eq_refl)).
  reflexivity.
Defined.

(* ------------------------------------------------------------------ *)
(** ** The range test *)

Section Range.

Context {H : Host}.

Variable wrapper : VisionSource -> Mode -> Placeable -> Test -> bool.

(** C4. For a token and a test point: when the wrapped 2D range test fails
    the answer is not in range and the 3D part is not evaluated (the light
    radius is not even asked for; the only possible event is the red point
    of the debug mode); when it succeeds the answer is whether
    [dx*dx + dy*dy + dz*dz <= radius*radius]. *)
Theorem testRange_3d
    (g : Game) (v : VisionSource) (mode : Mode) (token : Token) (test : Test) :
  let target := IsToken token in
  let run := _testRangeDetectionMode wrapper g v mode target test in
  let radius := getLightRadius v (range mode) in
  let dx := (x3 (point test) - vx v)%float in
  let dy := (y3 (point test) - vy v)%float in
  let dz := (JS.to_number (z3 (point test)) - elevationZ v)%float in
  (wrapper v mode target test = false ->
   value run = false
   /\ trace run = (if debug g then [DrawPoint (point test) None None red] else []))
  /\ (wrapper v mode target test = true ->
      value run = ((dx * dx) + (dy * dy) + (dz * dz) <=? radius * radius)%float
      /\ In GetLightRadius (trace run)).
Proof.
  cbv zeta. unfold _testRangeDetectionMode.
  split; intros ->; cbn [orb negb].
  - destruct (debug g); split; reflexivity.
  - autorewrite with run. split; [reflexivity|]. now left.
Qed.

End Range.

(** A point at distance 5 in the plane and 5 above the observer, radius 6: in
    range in 2D, out of range in 3D; and the same point when the 2D test
    fails. *)
Lemma testRange_3d_witness :
  let test := mkTest (mkPoint3d (-15) 5 (Some 10%float)) NewMap None None in
  let g := Scene.game false 0 in
  let v := Scene.observer 5 in
  _testRangeDetectionMode (H := Scene.halfSeen) (fun _ _ _ _ => false)
    g v (mkMode 6) (IsToken Scene.token) test = (false, [])
  /\ value (_testRangeDetectionMode (H := Scene.halfSeen) (fun _ _ _ _ => true)
              g v (mkMode 6) (IsToken Scene.token) test) = false.
Proof.
  cbv zeta.
  destruct (testRange_3d (H := Scene.halfSeen) (fun _ _ _ _ => false)
              (Scene.game false 0) (Scene.observer 5) (mkMode 6) Scene.token
              (mkTest (mkPoint3d (-15) 5 (Some 10%float)) NewMap None None))
    as [Wout _].
  destruct (testRange_3d (H := Scene.halfSeen) (fun _ _ _ _ => true)
              (Scene.game false 0) (Scene.observer 5) (mkMode 6) Scene.token
              (mkTest (mkPoint3d (-15) 5 (Some 10%float)) NewMap None None))
    as [_ Win].
  destruct (Wout eq_refl) as [Wvalue Wtrace].
  split.
  - rewrite (run_eta (_testRangeDetectionMode _ _ _ _ _ _)), Wvalue, Wtrace. reflexivity.
  - rewrite (proj1 (Win eq_refl)). reflexivity.
Defined.

(* ------------------------------------------------------------------ *)
(** ** Preparing the test points *)

Section Elevate.

Lemma defaultElevation_unset (avg : float) (t : Test) :
  z3 (point t) = None ->
  defaultElevation avg t
  = mkTest (mkPoint3d (x3 (point t)) (y3 (point t)) (Some avg))
           (losMap t) (centerPoint t) (hasLOSArea t).
Proof. unfold defaultElevation, setPoint, setZ. now intros ->. Qed.

Lemma defaultElevation_set (avg : float) (t : Test) :
  z3 (point t) <> None -> defaultElevation avg t = t.
Proof.
  destruct t as [[px py [pz|]] m c h]; [reflexivity|]. intros Hz. now elim Hz.
Qed.

(** C10. For a token, [elevatePoints] gives every test point whose [z] is
    unset the elevation [bottomZ + (topZ - bottomZ) * 0.5] and leaves the
    others as they are; and when the token has no height (top and bottom
    equal, or their difference zero or NaN) or the range algorithm is not
    the 3D one, the array returned is the array of these tests itself, with
    nothing added and nothing logged. *)
Theorem elevatePoints_defaults
    (g : Game) (sizes : nat -> nat) (tests : list Test) (v : VisionSource)
    (object : Token) :
  let avgElevation :=
    (bottomZ object + ((topZ object - bottomZ object) * 0.5))%float in
  let run := elevatePoints g sizes tests v (IsToken object) in
  fst (value run) = map (defaultElevation avgElevation) tests
  /\ (forall t, In t tests -> z3 (point t) = None ->
      point (defaultElevation avgElevation t)
      = mkPoint3d (x3 (point t)) (y3 (point t)) (Some avgElevation))
  /\ (forall t, In t tests -> z3 (point t) <> None ->
      defaultElevation avgElevation t = t)
  /\ (topZ object = bottomZ object
      \/ JS.falsy (topZ object - bottomZ object) = true
      \/ RANGE_ALGORITHM (settings g) <> SETTINGS.FOUNDRY_3D ->
      snd (value run) = map Some (fst (value run))
      /\ List.length (snd (value run)) = List.length tests
      /\ trace run = []).
Proof.
  intros avgElevation run.
  assert (Hfst : fst (value run) = map (defaultElevation avgElevation) tests).
  { unfold run, elevatePoints. fold avgElevation.
    destruct (_ || _); [reflexivity|].
    now rewrite value_bind, value_ret. }
  split; [exact Hfst|]. split; [|split].
  - intros t _ Hz. now rewrite defaultElevation_unset.
  - intros t _ Hz. now apply defaultElevation_set.
  - intros Hflat.
    assert (Hexit : JS.falsy (topZ object - bottomZ object)
                    || negb (SETTINGS.range_eqb (RANGE_ALGORITHM (settings g))
                                                SETTINGS.FOUNDRY_3D) = true).
    { destruct Hflat as [Heq | [Hzero | Halg]].
      - rewrite Heq, FloatFacts.sub_self_falsy. reflexivity.
      - now rewrite Hzero.
      - destruct (RANGE_ALGORITHM (settings g)); try apply orb_true_r.
        now elim Halg. }
    unfold run, elevatePoints. fold avgElevation. rewrite Hexit.
    cbn [value trace ret fst snd]. rewrite !length_map. repeat split.
Qed.

End Elevate.

(** Two test points of the token of the scene, the first without [z], with
    the range algorithm of Foundry. *)
Lemma elevatePoints_defaults_witness :
  let center := mkTest (mkPoint3d 5 5 None) (MapRef 0) None None in
  let corner := mkTest (mkPoint3d 0 0 (Some 7%float)) (MapRef 1) None None in
  let g := Scene.game false 0 in
  RANGE_ALGORITHM (settings g) <> SETTINGS.FOUNDRY_3D
  /\ value (elevatePoints g (fun _ => 0%nat) [center; corner]
              (Scene.observer 5) (IsToken Scene.token))
     = ([setPoint center (mkPoint3d 5 5 (Some 5%float)); corner],
        [Some (setPoint center (mkPoint3d 5 5 (Some 5%float))); Some corner]).
Proof.
  cbv zeta.
  assert (Halg : RANGE_ALGORITHM (settings (Scene.game false 0)) <> SETTINGS.FOUNDRY_3D)
    by discriminate.
  split; [exact Halg|].
  destruct (elevatePoints_defaults (Scene.game false 0) (fun _ => 0%nat)
              [mkTest (mkPoint3d 5 5 None) (MapRef 0) None None;
               mkTest (mkPoint3d 0 0 (Some 7%float)) (MapRef 1) None None]
              (Scene.observer 5) Scene.token)
    as (Wfirst & _ & _ & Wsame).
  destruct (Wsame (or_intror (or_intror Halg))) as (Wsecond & _ & _).
  rewrite (surjective_pairing (value _)), Wsecond, Wfirst. reflexivity.
Defined.

(** With the 3D range algorithm the array returned holds the first test and,
    for every other test, a point at the top and a point at the bottom. *)
Example elevatePoints_3d :
  let center := mkTest (mkPoint3d 5 5 None) (MapRef 0) None None in
  let corner := mkTest (mkPoint3d 0 0 (Some 7%float)) (MapRef 1) None None in
  snd (value (elevatePoints
                (mkGame false (mkSettings SETTINGS.FOUNDRY_3D SETTINGS.POINTS 0))
                (fun _ => 0%nat)
                [center; corner] (Scene.observer 5) (IsToken Scene.token)))
  = [Some (setPoint center (mkPoint3d 5 5 (Some 5%float)));
     Some (mkTest (mkPoint3d 0 0 (Some 10%float)) (MapRef 1) None None);
     Some (mkTest (mkPoint3d 0 0 (Some 0%float)) (MapRef 1) None None)].
Proof. reflexivity. Qed.

(* ------------------------------------------------------------------ *)
(** ** The debug flag *)

Section Debug.

Context {H : Host}.

Lemma undrawn_app (t1 t2 : list Event) : undrawn (t1 ++ t2) = undrawn t1 ++ undrawn t2.
Proof. apply filter_app. Qed.

Lemma undrawn_drawings (t : list Event) : forallb isDrawing t = true -> undrawn t = [].
Proof.
  induction t as [|e t IH]; [reflexivity|]. cbn [forallb undrawn filter].
  intros Hall. apply andb_true_iff in Hall as [-> Ht]. now apply IH.
Qed.

Lemma same_refl {T} (m : Run T) : sameButDrawings m m.
Proof. split; reflexivity. Qed.

Lemma same_bind {T U} (m1 m2 : Run T) (k1 k2 : T -> Run U) :
  sameButDrawings m1 m2 -> (forall a, sameButDrawings (k1 a) (k2 a)) ->
  sameButDrawings (bind m1 k1) (bind m2 k2).
Proof.
  intros [Hv Ht] Hk. destruct (Hk (value m1)) as [Hkv Hkt]. split.
  - rewrite !value_bind, <- Hv. exact Hkv.
  - rewrite !trace_bind, !undrawn_app, <- Hv, Ht, Hkt. reflexivity.
Qed.

(** What the debug mode adds is drawings. *)
Lemma same_when (b1 b2 : bool) (m : Run unit) :
  forallb isDrawing (trace m) = true ->
  sameButDrawings (when b1 m) (when b2 m).
Proof.
  intros Hm. split; [now destruct (value (when b1 m)), (value (when b2 m))|].
  rewrite !trace_when. destruct b1, b2; rewrite ?undrawn_drawings; auto.
Qed.

Ltac same_step :=
  first [ apply same_refl
        | apply same_when; try reflexivity
        | apply same_bind; [|intros ?] ].

Tactic Notation "same_bind" "as" ident(a) := apply same_bind; [|intros a].

Lemma areaTest_debug (b1 b2 : bool) (g : Game) (los : Shape) (fp : Footprint) :
  sameButDrawings (areaTest (withDebug b1 g) los fp) (areaTest (withDebug b2 g) los fp).
Proof.
  unfold areaTest, getSetting_PERCENT_AREA. cbn [withDebug settings debug].
  set (p := PERCENT_AREA (settings g)).
  set (region := if (p =? 0)%float then _ else los).
  destruct ((p =? 0)%float && negb (isClipperPaths region)).
  - repeat same_step.
  - same_bind as visible; [same_step|].
    destruct (_ || _); [same_step|].
    destruct (_ || _); [same_step|].
    same_step; [|same_step].
    apply same_when. rewrite trace_bind, forallb_app.
    apply andb_true_iff; split.
    + destruct (match region with SClipperPaths c => simplify c | _ => region end);
        try reflexivity.
      now apply forEach_drawings.
    + destruct (match visible with SClipperPaths c => simplify c | _ => visible end);
        try reflexivity.
      now apply forEach_drawings.
Qed.

Lemma testLOSArea_debug (b1 b2 : bool) (g : Game) (v : VisionSource) (target : Token)
    (hasLOS : bool) :
  sameButDrawings (testLOSArea (withDebug b1 g) v target hasLOS)
                  (testLOSArea (withDebug b2 g) v target hasLOS).
Proof.
  unfold testLOSArea, getSetting_PERCENT_AREA. cbn [withDebug settings].
  destruct (hasLOS && _); [same_step|].
  destruct (negb hasLOS && _); [same_step|].
  same_bind as constrained; [same_step|].
  same_bind as shadowBottom; [same_step|].
  same_bind as shadowTop; [same_step|].
  destruct shadowTop as [top|], shadowBottom as [bottom|].
  - same_bind as seen; [apply areaTest_debug|].
    destruct seen; [same_step|].
    same_step; [apply areaTest_debug|same_step].
  - same_step; [apply areaTest_debug|same_step].
  - same_step; [apply areaTest_debug|same_step].
  - same_step; [apply areaTest_debug|same_step].
Qed.

Variable wrappedPoint : VisionSource -> Mode -> Placeable -> Test -> bool.
Variable wrappedTests : VisionSource -> Mode -> Placeable -> list Slot -> bool.

(** C9. The value returned by the area test, by the range test and by the
    line-of-sight tests, and by the wrapper that prepares the test points,
    is the same whatever the debug flag; the two runs differ at most in the
    drawings they leave in the trace. *)
Theorem debug_flag_only_draws
    (b1 b2 : bool) (g : Game) (sizes : nat -> nat) (tests : list Test) (slots : list Slot)
    (v : VisionSource) (mode : Mode) (target : Placeable) (token : Token) (test : Test)
    (los : Shape) (fp : Footprint) (hasLOS : bool) :
  sameButDrawings (areaTest (withDebug b1 g) los fp) (areaTest (withDebug b2 g) los fp)
  /\ sameButDrawings
       (_testRangeDetectionMode wrappedPoint (withDebug b1 g) v mode target test)
       (_testRangeDetectionMode wrappedPoint (withDebug b2 g) v mode target test)
  /\ sameButDrawings (testLOSArea (withDebug b1 g) v token hasLOS)
                     (testLOSArea (withDebug b2 g) v token hasLOS)
  /\ sameButDrawings
       (_testLOSDetectionMode wrappedPoint (withDebug b1 g) slots v mode target test)
       (_testLOSDetectionMode wrappedPoint (withDebug b2 g) slots v mode target test)
  /\ sameButDrawings
       (testVisibilityDetectionMode wrappedTests (withDebug b1 g) sizes v mode target tests)
       (testVisibilityDetectionMode wrappedTests (withDebug b2 g) sizes v mode target tests).
Proof.
  split; [apply areaTest_debug|].
  split.
  { unfold _testRangeDetectionMode. cbn [withDebug debug].
    destruct (_ || _); repeat same_step. }
  split; [apply testLOSArea_debug|].
  split.
  { unfold _testLOSDetectionMode. cbn [withDebug settings debug].
    destruct target as [tok|]; [|same_step].
    destruct (LOS_ALGORITHM (settings g)); [| |same_step].
    - repeat same_step.
    - destruct (negb _); [same_step|].
      same_step; [apply testLOSArea_debug|same_step]. }
  unfold testVisibilityDetectionMode. cbn [withDebug settings debug].
  same_step; [same_step|].
  apply same_refl.
Qed.

End Debug.

(** The area test of the scene with and without the debug mode: the same
    answer, two more events. *)
Example debug_flag_runs :
  let region := SPolygon (los (Scene.observer 5)) in
  let fp := FRectangle (bounds Scene.token) in
  value (areaTest (H := Scene.halfSeen) (Scene.game true 0.5) region fp)
  = value (areaTest (H := Scene.halfSeen) (Scene.game false 0.5) region fp)
  /\ List.length (trace (areaTest (H := Scene.halfSeen) (Scene.game true 0.5) region fp))
     = 3%nat
  /\ List.length (trace (areaTest (H := Scene.halfSeen) (Scene.game false 0.5) region fp))
     = 1%nat.
Proof. repeat split. Qed.

(* ------------------------------------------------------------------ *)
(** ** More facts on floating-point comparisons *)

Module FloatOrder.

Import FloatFacts.

Lemma ltb_irrefl (a : float) : (a <? a)%float = false.
Proof.
  rewrite ltb_spec. unfold SFltb.
  destruct (Prim2SF a) as [sa|sa| |sa ma ea]; simpl; try reflexivity; split_compare.
Qed.

Lemma ltb_asym (a b : float) : (a <? b)%float = true -> (b <? a)%float = false.
Proof.
  rewrite !ltb_spec. unfold SFltb.
  destruct (Prim2SF a) as [sa|sa| |sa ma ea], (Prim2SF b) as [sb|sb| |sb mb eb];
    simpl; intros; try discriminate; try reflexivity; split_compare.
Qed.

Lemma leb_ltb_trans (a b c : float) :
  (a <=? b)%float = true -> (b <? c)%float = true -> (a <? c)%float = true.
Proof. rewrite leb_spec, !ltb_spec. apply SFleb_SFltb_trans. Qed.

Lemma leb_not_ltb (a b : float) : (a <=? b)%float = true -> (b <? a)%float = false.
Proof.
  intros Hab. destruct (b <? a)%float eqn:Hba; [|reflexivity].
  rewrite <- (ltb_irrefl a). symmetry. now apply leb_ltb_trans with (b := b).
Qed.

(** A number that is not equal to itself is the NaN of the specification. *)
Lemma is_nan_spec (a : float) : is_nan a = true -> Prim2SF a = S754_nan.
Proof.
  unfold is_nan. rewrite FloatAxioms.eqb_spec. unfold SFeqb.
  destruct (Prim2SF a) as [sa|sa| |sa ma ea]; simpl; try reflexivity;
    intros Hne; exfalso; revert Hne.
  - discriminate.
  - destruct sa; discriminate.
  - change (PosDef.Pos.compare_cont Eq) with Pos.compare.
    rewrite Z.compare_refl, Pos.compare_refl. destruct sa; discriminate.
Qed.

Lemma ltb_nan_l (a b : float) : is_nan a = true -> (a <? b)%float = false.
Proof. intros Ha. rewrite ltb_spec, (is_nan_spec a Ha). reflexivity. Qed.

Lemma ltb_nan_r (a b : float) : is_nan b = true -> (a <? b)%float = false.
Proof.
  intros Hb. rewrite ltb_spec, (is_nan_spec b Hb).
  unfold SFltb. now destruct (Prim2SF a).
Qed.

Lemma leb_nan_l (a b : float) : is_nan a = true -> (a <=? b)%float = false.
Proof. intros Ha. rewrite leb_spec, (is_nan_spec a Ha). reflexivity. Qed.

Lemma leb_nan_r (a b : float) : is_nan b = true -> (a <=? b)%float = false.
Proof.
  intros Hb. rewrite leb_spec, (is_nan_spec b Hb).
  unfold SFleb. now destruct (Prim2SF a).
Qed.

Lemma eqb_nan_l (a b : float) : is_nan a = true -> (a =? b)%float = false.
Proof. intros Ha. rewrite FloatAxioms.eqb_spec, (is_nan_spec a Ha). reflexivity. Qed.

Lemma is_nan_of_spec (a : float) : Prim2SF a = S754_nan -> is_nan a = true.
Proof. intros Ha. unfold is_nan. now rewrite FloatAxioms.eqb_spec, Ha. Qed.

Lemma sub_nan_l (a b : float) : is_nan a = true -> is_nan (a - b) = true.
Proof.
  intros Ha. apply is_nan_of_spec. now rewrite sub_spec, (is_nan_spec a Ha).
Qed.

Lemma sub_nan_r (a b : float) : is_nan b = true -> is_nan (a - b) = true.
Proof.
  intros Hb. apply is_nan_of_spec. rewrite sub_spec, (is_nan_spec b Hb).
  now destruct (Prim2SF a).
Qed.

Lemma mul_nan_l (a b : float) : is_nan a = true -> is_nan (a * b) = true.
Proof.
  intros Ha. apply is_nan_of_spec. now rewrite mul_spec, (is_nan_spec a Ha).
Qed.

Lemma add_nan_r (a b : float) : is_nan b = true -> is_nan (a + b) = true.
Proof.
  intros Hb. apply is_nan_of_spec. rewrite add_spec, (is_nan_spec b Hb).
  now destruct (Prim2SF a).
Qed.

Lemma abs_nan (a : float) : is_nan a = true -> is_nan (abs a) = true.
Proof.
  intros Ha. apply is_nan_of_spec. now rewrite abs_spec, (is_nan_spec a Ha).
Qed.

(** Nothing is almost equal to NaN. *)
Lemma almostEqual_nan_r (a b : float) : is_nan b = true -> almostEqual a b = false.
Proof. intros Hb. apply ltb_nan_l, abs_nan, sub_nan_r, Hb. Qed.

End FloatOrder.

(* ------------------------------------------------------------------ *)
(** ** The range and point tests only restrict *)

Section Restrict.

Context {H : Host}.

Variable wrapper : VisionSource -> Mode -> Placeable -> Test -> bool.

(** X1. [_testRangeDetectionMode] never widens the range of the wrapped
    test: whatever the target, an answer "in range" means the wrapped 2D
    test said so; and for a target that is not a token the answer is the
    wrapped one and the light radius is never asked for. *)
Theorem testRange_never_widens
    (g : Game) (v : VisionSource) (mode : Mode) (target : Placeable) (test : Test) :
  let run := _testRangeDetectionMode wrapper g v mode target test in
  (value run = true -> wrapper v mode target test = true)
  /\ (target = NotToken ->
      value run = wrapper v mode target test
      /\ existsb (fun e => match e with GetLightRadius => true | _ => false end)
                 (trace run) = false).
Proof.
  cbv zeta. unfold _testRangeDetectionMode. split.
  - destruct (wrapper v mode target test); [reflexivity|].
    rewrite orb_true_r. autorewrite with run. discriminate.
  - intros ->. cbn [orb]. autorewrite with run.
    split; [reflexivity|]. now destruct (debug g).
Qed.

(** X2. A test point of a token that still has no [z] is never in range:
    [undefined - elevationZ] is NaN and no comparison with NaN holds. *)
Theorem testRange_unset_z
    (g : Game) (v : VisionSource) (mode : Mode) (token : Token) (test : Test) :
  z3 (point test) = None ->
  value (_testRangeDetectionMode wrapper g v mode (IsToken token) test) = false.
Proof.
  intros Hz. unfold _testRangeDetectionMode.
  destruct (wrapper v mode (IsToken token) test); cbn [orb negb];
    autorewrite with run; [|reflexivity].
  rewrite Hz. cbn [JS.to_number].
  apply FloatOrder.leb_nan_l, FloatOrder.add_nan_r, FloatOrder.mul_nan_l,
    FloatOrder.sub_nan_l.
  reflexivity.
Qed.

(** X3. [testLOSPoint] only restricts the line of sight it is given: it
    answers visible only if [hasLOS] was true, and without the wall-height
    module it answers [hasLOS] itself without testing any collision. *)
Theorem testLOSPoint_only_restricts
    (v : VisionSource) (target : Token) (test : Test) (hasLOS : bool) :
  (value (testLOSPoint v target test hasLOS) = true -> hasLOS = true)
  /\ (wallHeightActive = false -> testLOSPoint v target test hasLOS = (hasLOS, []))
  /\ (hasLOS = true -> wallHeightActive = true ->
      value (testLOSPoint v target test hasLOS)
      = negb (testCollision3d
                (mkPoint3d (vx v) (vy v) (Some (elevationZ v))) (point test))).
Proof.
  unfold testLOSPoint. split; [|split].
  - destruct hasLOS; [reflexivity|discriminate].
  - intros ->. now destruct hasLOS.
  - intros -> ->. reflexivity.
Qed.

End Restrict.

(** A test point without [z] at the position of the observer, radius 6. *)
Lemma testRange_unset_z_witness :
  let test := mkTest (mkPoint3d (-20) 5 None) NewMap None None in
  z3 (point test) = None
  /\ value (_testRangeDetectionMode (H := Scene.halfSeen) (fun _ _ _ _ => true)
              (Scene.game false 0) (Scene.observer 5) (mkMode 6)
              (IsToken Scene.token) test) = false.
Proof.
  cbv zeta. split; [reflexivity|].
  apply (testRange_unset_z (H := Scene.halfSeen) (fun _ _ _ _ => true)). reflexivity.
Defined.

(** The range test on a target that is not a token, and the point test with
    and without the wall-height module. *)
Lemma testRange_never_widens_witness :
  let test := mkTest (mkPoint3d (-15) 5 (Some 10%float)) NewMap None None in
  value (_testRangeDetectionMode (H := Scene.halfSeen) (fun _ _ _ _ => true)
           (Scene.game false 0) (Scene.observer 5) (mkMode 6) NotToken test) = true.
Proof.
  cbv zeta.
  destruct (testRange_never_widens (H := Scene.halfSeen) (fun _ _ _ _ => true)
              (Scene.game false 0) (Scene.observer 5) (mkMode 6) NotToken
              (mkTest (mkPoint3d (-15) 5 (Some 10%float)) NewMap None None))
    as [_ Wplain].
  now rewrite (proj1 (Wplain eq_refl)).
Defined.

Lemma testLOSPoint_only_restricts_witness :
  let test := mkTest (mkPoint3d 5 5 (Some 5%float)) NewMap None None in
  wallHeightActive (Host := Scene.halfSeen) = false
  /\ testLOSPoint (H := Scene.halfSeen) (Scene.observer 5) Scene.token test true
     = (true, []).
Proof.
  cbv zeta. split; [reflexivity|].
  destruct (testLOSPoint_only_restricts (H := Scene.halfSeen) (Scene.observer 5)
              Scene.token (mkTest (mkPoint3d 5 5 (Some 5%float)) NewMap None None) true)
    as (_ & Wplain & _).
  now apply Wplain.
Defined.

(* ------------------------------------------------------------------ *)
(** ** The footprint cache and the planes of the area test *)

Section LOSAreaMore.

Context {H : Host}.

Lemma bind_ret_l {T U} (a : T) (k : T -> Run U) : bind (ret a) k = k a.
Proof. unfold bind, ret. now destruct (k a). Qed.

(** [testLOSArea] is its two guards, the footprint, and the tail. *)
Lemma testLOSArea_unfold (g : Game) (v : VisionSource) (target : Token) (hasLOS : bool) :
  testLOSArea g v target hasLOS
  = if cheapAccept hasLOS (PERCENT_AREA (settings g)) then ret (true, target)
    else if cheapReject hasLOS (PERCENT_AREA (settings g)) then ret (false, target)
    else bind (footprintOf target) (fun constrained => testLOSArea_tail g v target constrained).
Proof. reflexivity. Qed.

(** The tail returns the token with the footprint it was given. *)
Lemma testLOSArea_tail_token (g : Game) (v : VisionSource) (target : Token)
    (constrained : Footprint) :
  snd (value (testLOSArea_tail g v target constrained))
  = setConstrainedTokenShape target (Some constrained).
Proof.
  unfold testLOSArea_tail. cbv zeta.
  destruct (_ && _ || (_ <? _)%float), (_ && _ || JS.gt _ _);
    repeat (rewrite value_bind || rewrite value_ret); try reflexivity.
  destruct (value (areaTest g _ constrained)); [reflexivity|].
  now rewrite value_bind.
Qed.

(** X4. The footprint is computed once per token: after a call of
    [testLOSArea] that passes the two guards the token holds the footprint,
    and calling again with the token as returned gives the same answer and
    the same events except those of computing the footprint (no second wall
    query for the bounds, no second sweep).  A call stopped by a guard leaves
    the token as it is. *)
Theorem testLOSArea_caches
    (g : Game) (v : VisionSource) (target : Token) (hasLOS : bool) :
  let first := testLOSArea g v target hasLOS in
  let again := testLOSArea g v (snd (value first)) hasLOS in
  value again = value first
  /\ (cheapAccept hasLOS (PERCENT_AREA (settings g))
      || cheapReject hasLOS (PERCENT_AREA (settings g)) = true ->
      snd (value first) = target)
  /\ (cheapAccept hasLOS (PERCENT_AREA (settings g)) = false ->
      cheapReject hasLOS (PERCENT_AREA (settings g)) = false ->
      _constrainedTokenShape (snd (value first)) = Some (value (footprintOf target))
      /\ trace first = trace (footprintOf target) ++ trace again).
Proof.
  cbv zeta. rewrite (testLOSArea_unfold g v target hasLOS).
  destruct (cheapAccept hasLOS (PERCENT_AREA (settings g))) eqn:Ha.
  { cbn [value ret fst snd]. rewrite testLOSArea_unfold, Ha.
    repeat split; discriminate. }
  destruct (cheapReject hasLOS (PERCENT_AREA (settings g))) eqn:Hr.
  { cbn [value ret fst snd]. rewrite testLOSArea_unfold, Ha, Hr.
    repeat split; discriminate. }
  rewrite value_bind, testLOSArea_tail_token.
  set (fp := value (footprintOf target)).
  assert (Hagain : testLOSArea g v (setConstrainedTokenShape target (Some fp)) hasLOS
                   = testLOSArea_tail g v target fp).
  { rewrite testLOSArea_unfold, Ha, Hr.
    change (footprintOf (setConstrainedTokenShape target (Some fp))) with (ret fp).
    rewrite bind_ret_l. reflexivity. }
  rewrite Hagain. split; [reflexivity|]. split; [discriminate|].
  intros _ _. split; [reflexivity|]. now rewrite trace_bind.
Qed.

(** X5. [tokenUpdateVisionSource] forgets the footprint, whatever it was:
    the next [testLOSArea] behaves as on a token that never had one, and the
    wrapped method is called with [defer] and [deleted] as given, [false]
    when left out.  Neither function touches the geometry of the token. *)
Theorem tokenUpdateVisionSource_invalidates
    (R : Type) (wrapped : bool -> bool -> R) (g g' : Game) (v v' : VisionSource)
    (target : Token) (hasLOS hasLOS' : bool) (defer deleted : option bool) :
  let used := snd (value (testLOSArea g v target hasLOS)) in
  let updated := tokenUpdateVisionSource wrapped used defer deleted in
  testLOSArea g' v' (snd updated) hasLOS'
  = testLOSArea g' v' (setConstrainedTokenShape target None) hasLOS'
  /\ _constrainedTokenShape (snd updated) = None
  /\ fst updated = wrapped (match defer with Some b => b | None => false end)
                           (match deleted with Some b => b | None => false end)
  /\ (bounds (snd updated), center (snd updated), topZ (snd updated), bottomZ (snd updated))
     = (bounds target, center target, topZ target, bottomZ target).
Proof.
  cbv zeta.
  assert (Hused : setConstrainedTokenShape (snd (value (testLOSArea g v target hasLOS))) None
                  = setConstrainedTokenShape target None).
  { rewrite (testLOSArea_unfold g v target hasLOS).
    destruct (cheapAccept _ _); [reflexivity|].
    destruct (cheapReject _ _); [reflexivity|].
    now rewrite value_bind, testLOSArea_tail_token. }
  unfold tokenUpdateVisionSource. cbn [fst snd]. rewrite Hused.
  repeat split.
Qed.

(** The area test clips at most once and asks for no wall and no sweep. *)
Lemma areaTest_cost (g : Game) (region : Shape) (fp : Footprint) :
  count isClipping (trace (areaTest g region fp)) <= 1
  /\ count isSweep (trace (areaTest g region fp)) = 0
  /\ count isQuery (trace (areaTest g region fp)) = 0.
Proof.
  assert (Hdraw : forall kind t,
             (forall e, isDrawing e = true -> kind e = false) ->
             forallb isDrawing t = true -> count kind t = 0).
  { intros kind t Hkind. unfold count. induction t as [|e t IH]; [reflexivity|].
    cbn [forallb filter]. intros Hall. apply andb_true_iff in Hall as [He Ht].
    rewrite (Hkind e He). now apply IH. }
  assert (Hdebug : forall b m kind,
             (forall e, isDrawing e = true -> kind e = false) ->
             forallb isDrawing (trace m) = true -> count kind (trace (when b m)) = 0).
  { intros b m kind Hkind Hm. rewrite trace_when. destruct b; [now apply Hdraw|reflexivity]. }
  unfold areaTest.
  set (p := getSetting_PERCENT_AREA g).
  set (los' := if (p =? 0)%float then _ else region).
  destruct ((p =? 0)%float && negb (isClipperPaths los')).
  - destruct (debug g); cbn; repeat split; lia.
  - rewrite trace_bind, trace_intersect. cbn [app].
    set (visible := value (intersectConstrainedShapeWithLOS fp los')).
    destruct (_ || _); [cbn; repeat split; lia|].
    destruct (_ || _); [cbn; repeat split; lia|].
    rewrite trace_bind, trace_ret, app_nil_r.
    match goal with
    | |- context [trace (when (debug g) ?m)] =>
      assert (Hall : forallb isDrawing (trace m) = true)
    end.
    { rewrite trace_bind, forallb_app. apply andb_true_iff; split.
      - destruct (match los' with SClipperPaths c => simplify c | _ => los' end);
          try reflexivity. now apply forEach_drawings.
      - destruct (match visible with SClipperPaths c => simplify c | _ => visible end);
          try reflexivity. now apply forEach_drawings. }
    unfold count in *. cbn [filter isClipping isSweep isQuery List.length].
    pose proof (Hdebug (debug g) _ isClipping (fun e He => ltac:(now destruct e)) Hall) as Hc.
    pose proof (Hdebug (debug g) _ isSweep (fun e He => ltac:(now destruct e)) Hall) as Hs.
    pose proof (Hdebug (debug g) _ isQuery (fun e He => ltac:(now destruct e)) Hall) as Hq.
    unfold count in Hc, Hs, Hq.
    repeat split; [rewrite Hc; lia|exact Hs|exact Hq].
Qed.

End LOSAreaMore.

(* ------------------------------------------------------------------ *)
(** ** What the tests cost *)

Section Cost.

Context {H : Host}.

Lemma count_app (kind : Event -> bool) (t1 t2 : list Event) :
  count kind (t1 ++ t2) = count kind t1 + count kind t2.
Proof. unfold count. now rewrite filter_app, length_app. Qed.

Lemma trace_forEach_emit {T} (l : list T) (f : T -> Event) :
  trace (forEach l (fun a => emit (f a))) = map f l.
Proof.
  induction l as [|a l IH]; [reflexivity|].
  cbn [forEach map]. now rewrite trace_bind, trace_emit, IH.
Qed.

(** The events of [shadowPolygonForElevation], with and without walls that
    have a finite height bound. *)
Lemma shadowPolygonForElevation_events (v : VisionSource) (z : float) :
  trace (shadowPolygonForElevation v z)
  = match limitedWalls (polygonBounds (los v)) with
    | [] => [Log "Building shadows."; QuadtreeGetObjects (polygonBounds (los v));
             Log "No limited walls; no shadows."]
    | walls => [Log "Building shadows."; QuadtreeGetObjects (polygonBounds (los v))]
               ++ map (fun wall => ShadowConstruct wall z) walls
               ++ [CombinePolygonWithShadows (List.length (shadowsOf v z walls))]
    end.
Proof.
  unfold shadowPolygonForElevation, quadtree_getObjects.
  fold (limitedWalls (polygonBounds (los v))).
  autorewrite with run. cbn [app].
  destruct (limitedWalls (polygonBounds (los v))) as [|w ws] eqn:Hw; [reflexivity|].
  cbn [List.length Nat.eqb]. autorewrite with run.
  rewrite trace_forEach_emit. reflexivity.
Qed.

(** Among them only the quadtree query is a query, a clip or a sweep. *)
Lemma shadowPolygonForElevation_kinds (v : VisionSource) (z : float)
    (kind : Event -> bool) :
  kind (Log "Building shadows.") = false ->
  kind (Log "No limited walls; no shadows.") = false ->
  (forall w, kind (ShadowConstruct w z) = false) ->
  (forall n, kind (CombinePolygonWithShadows n) = false) ->
  count kind (trace (shadowPolygonForElevation v z))
  = count kind [QuadtreeGetObjects (polygonBounds (los v))].
Proof.
  intros Hl1 Hl2 Hs Hc. rewrite shadowPolygonForElevation_events.
  assert (Hone : forall e, kind e = false -> count kind [e] = 0)
    by (intros e He; unfold count; cbn [filter]; now rewrite He).
  assert (Hmap : forall l, count kind (map (fun wall => ShadowConstruct wall z) l) = 0).
  { induction l as [|w' l IH]; [reflexivity|].
    change (map (fun wall => ShadowConstruct wall z) (w' :: l))
      with ([ShadowConstruct w' z] ++ map (fun wall => ShadowConstruct wall z) l).
    now rewrite count_app, IH, Hone. }
  destruct (limitedWalls (polygonBounds (los v))) as [|w ws].
  - change [Log "Building shadows."; QuadtreeGetObjects (polygonBounds (los v));
            Log "No limited walls; no shadows."]
      with ([Log "Building shadows."] ++ [QuadtreeGetObjects (polygonBounds (los v))]
            ++ [Log "No limited walls; no shadows."]).
    rewrite !count_app, (Hone _ Hl1), (Hone _ Hl2). lia.
  - change ([Log "Building shadows."; QuadtreeGetObjects (polygonBounds (los v))]
            ++ ?rest)
      with ([Log "Building shadows."] ++ [QuadtreeGetObjects (polygonBounds (los v))]
            ++ rest).
    rewrite !count_app, Hmap, (Hone _ Hl1), (Hone _ (Hc _)). lia.
Qed.

(** One query, no intersection and no sweep of its own. *)
Lemma shadowPolygonForElevation_cost (v : VisionSource) (z : float) :
  count isQuery (trace (shadowPolygonForElevation v z)) = 1
  /\ count isClipping (trace (shadowPolygonForElevation v z)) = 0
  /\ count isSweep (trace (shadowPolygonForElevation v z)) = 0.
Proof. repeat split; now rewrite shadowPolygonForElevation_kinds. Qed.

(** At most one combination with shadows, and none without a wall that has
    a finite height bound. *)
Lemma shadowPolygonForElevation_combines (v : VisionSource) (z : float) :
  count isCombination (trace (shadowPolygonForElevation v z))
  = match limitedWalls (polygonBounds (los v)) with [] => 0 | _ => 1 end.
Proof.
  rewrite shadowPolygonForElevation_events.
  destruct (limitedWalls (polygonBounds (los v))) as [|w ws]; [reflexivity|].
  change ([Log "Building shadows."; QuadtreeGetObjects (polygonBounds (los v))] ++ ?rest)
    with (Log "Building shadows." :: QuadtreeGetObjects (polygonBounds (los v)) :: rest).
  unfold count. cbn [filter isCombination]. rewrite filter_app, length_app.
  assert (Hnone : forall l, filter isCombination (map (fun wall => ShadowConstruct wall z) l)
                            = []).
  { induction l as [|w' l IH]; [reflexivity|]. exact IH. }
  now rewrite Hnone.
Qed.

(** A kind of event that no event of a trace is does not occur. *)
Lemma count_none (kind other : Event -> bool) (t : list Event) :
  (forall e, other e = true -> kind e = false) ->
  forallb other t = true -> count kind t = 0.
Proof.
  intros Hkind. unfold count. induction t as [|e t IH]; [reflexivity|].
  cbn [forallb filter]. intros Hall. apply andb_true_iff in Hall as [He Ht].
  rewrite (Hkind e He). now apply IH.
Qed.

(** The events of the area test are intersections and drawings. *)
Lemma areaTest_events (g : Game) (region : Shape) (fp : Footprint) :
  forallb (fun e => isClipping e || isDrawing e) (trace (areaTest g region fp)) = true.
Proof.
  assert (Hdraw : forall t, forallb isDrawing t = true ->
                            forallb (fun e => isClipping e || isDrawing e) t = true).
  { induction t as [|e t IH]; [reflexivity|]. cbn [forallb]. intros Hall.
    apply andb_true_iff in Hall as [He Ht]. rewrite He, orb_true_r. now apply IH. }
  unfold areaTest.
  set (p := getSetting_PERCENT_AREA g).
  set (los' := if (p =? 0)%float then _ else region).
  destruct ((p =? 0)%float && negb (isClipperPaths los')).
  - now destruct (debug g).
  - rewrite trace_bind, trace_intersect. cbn [app forallb isClipping orb andb].
    set (visible := value (intersectConstrainedShapeWithLOS fp los')).
    destruct (_ || _); [reflexivity|].
    destruct (_ || _); [reflexivity|].
    rewrite trace_bind, trace_ret, app_nil_r, trace_when.
    destruct (debug g); [|reflexivity].
    apply Hdraw. rewrite trace_bind, forallb_app. apply andb_true_iff; split.
    + destruct (match los' with SClipperPaths c => simplify c | _ => los' end);
        try reflexivity. now apply forEach_drawings.
    + destruct (match visible with SClipperPaths c => simplify c | _ => visible end);
        try reflexivity. now apply forEach_drawings.
Qed.

(** The events of [testLOSArea] once the footprint is at hand, counted by
    kind: at most two shadow polygons and two area tests. *)
Lemma testLOSArea_tail_count (kind : Event -> bool) (s a : nat)
    (g : Game) (v : VisionSource) (target : Token) (fp : Footprint) :
  (forall z, count kind (trace (shadowPolygonForElevation v z)) <= s) ->
  (forall region, count kind (trace (areaTest g region fp)) <= a) ->
  count kind (trace (testLOSArea_tail g v target fp)) <= 2 * s + 2 * a.
Proof.
  intros Hshadow Harea. unfold testLOSArea_tail. cbv zeta.
  cbn [topZ bottomZ setConstrainedTokenShape].
  pose proof (Hshadow (bottomZ target)) as Hb.
  pose proof (Hshadow (topZ target)) as Ht.
  destruct (_ && _ || (_ <? _)%float), (_ && _ || JS.gt _ _);
    repeat (rewrite trace_bind || rewrite value_bind || rewrite value_ret
            || rewrite trace_ret || rewrite app_nil_r || rewrite count_app);
    cbn [app]; change (count kind []) with 0.
  - pose proof (Harea (value (shadowPolygonForElevation v (topZ target)))) as H1.
    pose proof (Harea (value (shadowPolygonForElevation v (bottomZ target)))) as H2.
    destruct (value (areaTest g _ fp));
      repeat (rewrite trace_bind || rewrite value_bind || rewrite value_ret
              || rewrite trace_ret || rewrite app_nil_r || rewrite count_app);
      change (count kind []) with 0; lia.
  - pose proof (Harea (value (shadowPolygonForElevation v (bottomZ target)))). lia.
  - pose proof (Harea (value (shadowPolygonForElevation v (topZ target)))). lia.
  - pose proof (Harea (SPolygon (los v))). lia.
Qed.

(** The footprint costs one wall query and at most one sweep. *)
Lemma constrainedTokenShape_cost (token : Token) (boundsScale : option float) :
  count isQuery (trace (constrainedTokenShape token boundsScale)) = 1
  /\ count isSweep (trace (constrainedTokenShape token boundsScale)) <= 1
  /\ count isClipping (trace (constrainedTokenShape token boundsScale)) = 0.
Proof.
  destruct (qualifyingWalls (scaledBounds token boundsScale)) as [|w ws] eqn:Hq.
  - rewrite (constrainedTokenShape_unobstructed token boundsScale Hq). cbn. lia.
  - assert (Hne : qualifyingWalls (scaledBounds token boundsScale) <> [])
      by (rewrite Hq; discriminate).
    rewrite (constrainedTokenShape_obstructed token boundsScale Hne). cbn. lia.
Qed.

(** X7. Whatever the settings and the scene, one call of [testLOSArea]
    makes at most two calls of [intersectPolygon] and at most two of
    [Shadow.combinePolygonWithShadows], so at most four polygon operations of
    the clipping library are asked for; it computes at most one sweep and
    asks the wall quadtree at most three times.  With a footprint already in
    the token it computes no sweep at all.  The counts are those of the calls
    this module makes. *)
Theorem testLOSArea_cost
    (g : Game) (v : VisionSource) (target : Token) (hasLOS : bool) :
  let t := trace (testLOSArea g v target hasLOS) in
  count isClipping t <= 2
  /\ count isSweep t <= 1
  /\ count isQuery t <= 3
  /\ (_constrainedTokenShape target <> None -> count isSweep t = 0 /\ count isQuery t <= 2)
  /\ count isCombination t <= 2
  /\ count isPolygonOperation t <= 4.
Proof.
  cbv zeta.
  assert (Hcombine : count isCombination (trace (testLOSArea g v target hasLOS)) <= 2).
  { rewrite testLOSArea_unfold.
    destruct (cheapAccept _ _); [cbn; lia|].
    destruct (cheapReject _ _); [cbn; lia|].
    rewrite trace_bind, count_app.
    assert (Hfp : count isCombination (trace (footprintOf target)) = 0).
    { unfold footprintOf. destruct (_constrainedTokenShape target); [reflexivity|].
      destruct (qualifyingWalls (scaledBounds target (Some 1%float))) as [|w ws] eqn:Hq.
      - now rewrite (constrainedTokenShape_unobstructed target (Some 1%float) Hq).
      - assert (Hne : qualifyingWalls (scaledBounds target (Some 1%float)) <> [])
          by (rewrite Hq; discriminate).
        now rewrite (constrainedTokenShape_obstructed target (Some 1%float) Hne). }
    rewrite Hfp.
    pose proof (testLOSArea_tail_count isCombination 1 0 g v target
                  (value (footprintOf target))) as Htail.
    cbn [Nat.mul Nat.add] in Htail. apply Htail.
    - intros z. rewrite shadowPolygonForElevation_combines.
      destruct (limitedWalls (polygonBounds (los v))); lia.
    - intros region.
      assert (Hother : forall e, isClipping e || isDrawing e = true ->
                                 isCombination e = false)
        by (intros e He; destruct e; (discriminate || reflexivity)).
      rewrite (count_none isCombination _ _ Hother (areaTest_events g region _)).
      lia. }
  assert (Hoperations : forall t, count isPolygonOperation t
                                  <= count isClipping t + count isCombination t).
  { unfold count, isPolygonOperation. induction t as [|e t IH]; [reflexivity|].
    cbn [filter]. destruct (isClipping e), (isCombination e); cbn [orb List.length]; lia. }
  cut (count isClipping (trace (testLOSArea g v target hasLOS)) <= 2
       /\ count isSweep (trace (testLOSArea g v target hasLOS)) <= 1
       /\ count isQuery (trace (testLOSArea g v target hasLOS)) <= 3
       /\ (_constrainedTokenShape target <> None ->
           count isSweep (trace (testLOSArea g v target hasLOS)) = 0
           /\ count isQuery (trace (testLOSArea g v target hasLOS)) <= 2)).
  { intros (Hc & Hs & Hq & Hcached).
    repeat (split; [assumption|]).
    specialize (Hoperations (trace (testLOSArea g v target hasLOS))). lia. }
  clear Hcombine Hoperations.
  rewrite testLOSArea_unfold.
  destruct (cheapAccept _ _); [cbn; repeat split; lia|].
  destruct (cheapReject _ _); [cbn; repeat split; lia|].
  rewrite trace_bind.
  set (fp := value (footprintOf target)).
  assert (Hfp : count isQuery (trace (footprintOf target)) <= 1
                /\ count isSweep (trace (footprintOf target)) <= 1
                /\ count isClipping (trace (footprintOf target)) = 0
                /\ (_constrainedTokenShape target <> None ->
                    trace (footprintOf target) = [])).
  { unfold footprintOf. destruct (_constrainedTokenShape target).
    - cbn. repeat split; lia.
    - pose proof (constrainedTokenShape_cost target (Some 1%float)) as (Hq & Hs & Hc).
      repeat split; try lia. intros Hn. now elim Hn. }
  destruct Hfp as (Hfq & Hfs & Hfc & Hcached).
  assert (Htail : count isClipping (trace (testLOSArea_tail g v target fp)) <= 2
                  /\ count isSweep (trace (testLOSArea_tail g v target fp)) = 0
                  /\ count isQuery (trace (testLOSArea_tail g v target fp)) <= 2).
  { unfold testLOSArea_tail. cbv zeta.
    pose proof (shadowPolygonForElevation_cost v (bottomZ target)) as (Hbq & Hbc & Hbs).
    pose proof (shadowPolygonForElevation_cost v (topZ target)) as (Htq & Htc & Hts).
    cbn [topZ bottomZ setConstrainedTokenShape].
    destruct (_ && _ || (_ <? _)%float), (_ && _ || JS.gt _ _);
      repeat (rewrite trace_bind || rewrite value_bind || rewrite value_ret
              || rewrite trace_ret || rewrite app_nil_r || rewrite count_app);
      cbn [app];
      repeat match goal with
      | |- context [areaTest g ?r fp] =>
        lazymatch goal with
        | _ : count isClipping (trace (areaTest g r fp)) <= 1 |- _ => fail
        | _ => pose proof (areaTest_cost g r fp) as (? & ? & ?)
        end
      end.
    - destruct (value (areaTest g _ fp));
        repeat (rewrite trace_bind || rewrite value_bind || rewrite value_ret
                || rewrite trace_ret || rewrite app_nil_r || rewrite count_app);
        repeat match goal with
        | |- context [areaTest g ?r fp] =>
          lazymatch goal with
          | _ : count isClipping (trace (areaTest g r fp)) <= 1 |- _ => fail
          | _ => pose proof (areaTest_cost g r fp) as (? & ? & ?)
          end
        end;
        change (count isClipping []) with 0; change (count isSweep []) with 0;
        change (count isQuery []) with 0; lia.
    - change (count isClipping []) with 0; change (count isSweep []) with 0;
        change (count isQuery []) with 0; lia.
    - change (count isClipping []) with 0; change (count isSweep []) with 0;
        change (count isQuery []) with 0; lia.
    - change (count isClipping []) with 0; change (count isSweep []) with 0;
        change (count isQuery []) with 0; lia. }
  destruct Htail as (Htc & Hts & Htq).
  rewrite !count_app. split; [lia|]. split; [lia|]. split; [lia|].
  intros Hsome. rewrite (Hcached Hsome). cbn. split; lia.
Qed.

End Cost.

(* ------------------------------------------------------------------ *)
(** ** The planes the area test looks at, and a fraction that is no number *)

Section Planes.

Context {H : Host}.

(** X8. Past the two guards, for a token whose bottom is not above its top:
    an observer strictly above the top looks at the top plane only, an
    observer strictly below the bottom at the bottom plane only, and an
    observer level with the top or with the bottom (a flat token at the
    observer's elevation, for one) at neither: then no shadow is computed and
    the area test runs on the line-of-sight polygon as it is. *)
Theorem testLOSArea_planes
    (g : Game) (v : VisionSource) (target : Token) (hasLOS : bool) :
  cheapAccept hasLOS (PERCENT_AREA (settings g)) = false ->
  cheapReject hasLOS (PERCENT_AREA (settings g)) = false ->
  (bottomZ target <=? topZ target)%float = true ->
  let constrained := value (footprintOf target) in
  let verdict := fun region : Run Shape =>
    (value (areaTest g (value region) constrained),
     trace (footprintOf target) ++ trace region
     ++ trace (areaTest g (value region) constrained)) in
  let run := testLOSArea g v target hasLOS in
  ((topZ target <? elevationZ v)%float = true ->
   (fst (value run), trace run) = verdict (shadowPolygonForElevation v (topZ target)))
  /\ ((elevationZ v <? bottomZ target)%float = true ->
      (fst (value run), trace run) = verdict (shadowPolygonForElevation v (bottomZ target)))
  /\ (elevationZ v = topZ target \/ elevationZ v = bottomZ target ->
      (fst (value run), trace run) = verdict (ret (SPolygon (los v)))).
Proof.
  intros Ha Hr Hflat. cbv zeta.
  rewrite testLOSArea_unfold, Ha, Hr.
  unfold testLOSArea_tail. cbv zeta. cbn [topZ bottomZ setConstrainedTokenShape].
  unfold JS.gt.
  assert (Hbt : (topZ target <? bottomZ target)%float = false)
    by now apply FloatOrder.leb_not_ltb.
  split; [|split].
  - intros Habove.
    rewrite (FloatOrder.ltb_asym _ _ Habove), Habove. cbn [andb orb].
    assert (Hbelow : (elevationZ v <? bottomZ target)%float = false).
    { destruct (elevationZ v <? bottomZ target)%float eqn:Hb; [|reflexivity].
      rewrite <- (FloatOrder.ltb_asym _ _ Hb). symmetry.
      now apply FloatOrder.leb_ltb_trans with (b := topZ target). }
    rewrite Hbelow.
    repeat (rewrite value_bind || rewrite value_ret || rewrite trace_bind
            || rewrite trace_ret || rewrite app_nil_r || cbn [app fst snd]).
    reflexivity.
  - intros Hbelow. rewrite Hbelow, (FloatOrder.ltb_asym _ _ Hbelow).
    rewrite andb_false_r. cbn [orb].
    assert (Habove : (topZ target <? elevationZ v)%float = false).
    { destruct (topZ target <? elevationZ v)%float eqn:Hb; [|reflexivity].
      rewrite <- (FloatOrder.ltb_asym _ _ Hbelow). symmetry.
      now apply FloatOrder.leb_ltb_trans with (b := topZ target). }
    rewrite Habove.
    repeat (rewrite value_bind || rewrite value_ret || rewrite trace_bind
            || rewrite trace_ret || rewrite app_nil_r || cbn [app fst snd]).
    reflexivity.
  - intros [-> | ->]; rewrite ?FloatOrder.ltb_irrefl, ?Hbt;
      rewrite ?(FloatOrder.leb_not_ltb _ _ Hflat); cbn [andb orb];
      rewrite ?andb_false_r; cbn [orb];
      repeat (rewrite value_bind || rewrite value_ret || rewrite trace_bind
              || rewrite trace_ret || rewrite app_nil_r || cbn [app fst snd]);
      reflexivity.
Qed.

(** X9. A required fraction that is NaN makes every token invisible to the
    area algorithm, and at full price: no guard applies, so the footprint is
    built and a polygon is clipped, and every area test answers not visible. *)
Theorem testLOSArea_nan_fraction
    (g : Game) (v : VisionSource) (target : Token) (hasLOS : bool)
    (region : Shape) (fp : Footprint) :
  is_nan (PERCENT_AREA (settings g)) = true ->
  value (areaTest g region fp) = false
  /\ fst (value (testLOSArea g v target hasLOS)) = false
  /\ 1 <= count isClipping (trace (testLOSArea g v target hasLOS)).
Proof.
  intros Hnan.
  assert (Hp : (PERCENT_AREA (settings g) =? 0)%float = false)
    by now apply FloatOrder.eqb_nan_l.
  assert (Harea : forall r f, value (areaTest g r f) = false
                              /\ 1 <= count isClipping (trace (areaTest g r f))).
  { intros r f. split.
    - rewrite (areaTest_clipping g r f Hp).
      destruct (zeroArea _); [reflexivity|]. destruct (zeroArea _); [reflexivity|].
      unfold meetsFraction, JS.gt.
      now rewrite FloatOrder.ltb_nan_l, FloatOrder.almostEqual_nan_r.
    - unfold areaTest, getSetting_PERCENT_AREA. rewrite Hp. cbn [andb].
      rewrite trace_bind, trace_intersect.
      change ([IntersectPolygon r (footprintPolygon f)] ++ ?rest)
        with (IntersectPolygon r (footprintPolygon f) :: rest).
      unfold count. cbn [filter isClipping List.length]. lia. }
  split; [apply Harea|].
  rewrite testLOSArea_unfold. unfold cheapAccept, cheapReject.
  rewrite (FloatOrder.ltb_nan_l _ _ Hnan), (FloatOrder.leb_nan_r _ _ Hnan), !andb_false_r.
  rewrite value_bind, trace_bind, count_app.
  set (c := value (footprintOf target)).
  unfold testLOSArea_tail. cbv zeta.
  destruct (_ && _ || (_ <? _)%float), (_ && _ || JS.gt _ _);
    repeat (rewrite value_bind || rewrite value_ret || rewrite trace_bind
            || rewrite trace_ret || rewrite app_nil_r || rewrite count_app
            || cbn [app fst snd]);
    repeat match goal with
    | |- context [areaTest g ?r c] =>
      lazymatch goal with
      | _ : value (areaTest g r c) = false |- _ => fail
      | _ => pose proof (Harea r c) as [? ?]
      end
    end;
    repeat match goal with
    | Hv : value (areaTest g _ c) = false |- _ => rewrite Hv; clear Hv
    end;
    repeat (rewrite value_bind || rewrite value_ret || rewrite trace_bind
            || rewrite trace_ret || rewrite app_nil_r || rewrite count_app
            || cbn [app fst snd]);
    repeat match goal with
    | |- context [areaTest g ?r c] =>
      lazymatch goal with
      | _ : 1 <= count isClipping (trace (areaTest g r c)) |- _ => fail
      | _ => pose proof (Harea r c) as [? ?]
      end
    end;
    repeat match goal with
    | Hv : value (areaTest g _ c) = false |- _ => rewrite Hv; clear Hv
    end;
    (split; [reflexivity|lia]).
Qed.

End Planes.

(** An observer above the token of the scene: the top plane alone is looked
    at, and six tenths of the token are seen there. *)
Lemma testLOSArea_planes_witness :
  let g := Scene.game false 0.5 in
  let v := Scene.observer 20 in
  (cheapAccept true (PERCENT_AREA (settings g)) = false
   /\ cheapReject true (PERCENT_AREA (settings g)) = false
   /\ (bottomZ Scene.token <=? topZ Scene.token)%float = true
   /\ (topZ Scene.token <? elevationZ v)%float = true)
  /\ fst (value (testLOSArea (H := Scene.topAndBottom) g v Scene.token true)) = true.
Proof.
  cbv zeta. split; [repeat split|].
  destruct (testLOSArea_planes (H := Scene.topAndBottom) (Scene.game false 0.5)
              (Scene.observer 20) Scene.token true eq_refl eq_refl eq_refl)
    as [Wabove _].
  apply (f_equal fst) in Wabove; [|reflexivity].
  cbn [fst] in Wabove. rewrite Wabove. reflexivity.
Defined.

(** The scene with a required fraction that is NaN. *)
Lemma testLOSArea_nan_fraction_witness :
  is_nan (PERCENT_AREA (settings (Scene.game false nan))) = true
  /\ fst (value (testLOSArea (H := Scene.halfSeen) (Scene.game false nan)
                             (Scene.observer 5) Scene.token true)) = false.
Proof.
  split; [reflexivity|].
  apply (testLOSArea_nan_fraction (H := Scene.halfSeen) (Scene.game false nan)
           (Scene.observer 5) Scene.token true
           (SPolygon (los (Scene.observer 5))) (FRectangle (bounds Scene.token))
           eq_refl).
Defined.

(** The token of the scene seen twice by the same observer: the second call
    finds the footprint in the token. *)
Lemma testLOSArea_caches_witness :
  let g := Scene.game false 0.5 in
  let v := Scene.observer 5 in
  let first := testLOSArea (H := Scene.topAndBottom) g v Scene.token true in
  (cheapAccept true (PERCENT_AREA (settings g)) = false
   /\ cheapReject true (PERCENT_AREA (settings g)) = false)
  /\ _constrainedTokenShape (snd (value first)) = Some (FPolygon (Scene.strip 10))
  /\ count isSweep (trace first) = 1
  /\ count isSweep (trace (testLOSArea (H := Scene.topAndBottom) g v
                             (snd (value first)) true)) = 0.
Proof.
  cbv zeta. split; [split; reflexivity|].
  destruct (testLOSArea_caches (H := Scene.topAndBottom) (Scene.game false 0.5)
              (Scene.observer 5) Scene.token true) as (_ & _ & Wcache).
  destruct (Wcache eq_refl eq_refl) as [Wtoken Wtrace].
  split; [rewrite Wtoken; reflexivity|].
  split; reflexivity.
Defined.

(* ------------------------------------------------------------------ *)
(** ** Test points in three dimensions *)

Section Elevate3d.

Lemma elevatePoints_push_value (sizes : nat -> nat) (object : Token) (rest : list Test) :
  value (elevatePoints_push sizes object rest) = flat_map (topAndBottomOf object) rest.
Proof.
  induction rest as [|test rest IH]; [reflexivity|].
  cbn [elevatePoints_push flat_map]. autorewrite with run. now rewrite IH.
Qed.

Lemma elevatePoints_push_trace (sizes : nat -> nat) (object : Token) (rest : list Test) :
  trace (elevatePoints_push sizes object rest)
  = map (fun _ => Warn "Test point has los mapping already.")
        (filter (fun test => (0 <? losSize sizes (losMap test))%nat) rest).
Proof.
  induction rest as [|test rest IH]; [reflexivity|].
  cbn [elevatePoints_push filter]. autorewrite with run. rewrite IH, app_nil_r.
  now destruct (0 <? losSize sizes (losMap test))%nat.
Qed.

Lemma tl_map {T U} (f : T -> U) (l : list T) : tl (map f l) = map f (tl l).
Proof. now destruct l. Qed.

(** Giving a test its elevation changes neither its [x], [y] nor its map. *)
Lemma topAndBottomOf_default (object : Token) (avg : float) (l : list Test) :
  flat_map (topAndBottomOf object) (map (defaultElevation avg) l)
  = flat_map (topAndBottomOf object) l.
Proof. induction l as [|t l IH]; [reflexivity|]. cbn [map flat_map]. now rewrite IH. Qed.

Lemma warnings_default (sizes : nat -> nat) (avg : float) (l : list Test) :
  filter (fun test => (0 <? losSize sizes (losMap test))%nat) (map (defaultElevation avg) l)
  = map (defaultElevation avg)
        (filter (fun test => (0 <? losSize sizes (losMap test))%nat) l).
Proof.
  induction l as [|t l IH]; [reflexivity|]. cbn [map filter].
  change (losMap (defaultElevation avg t)) with (losMap t).
  destruct (0 <? losSize sizes (losMap t))%nat; cbn [map]; now rewrite IH.
Qed.

(** X10. For a token with a height and the 3D range algorithm,
    [elevatePoints] returns a new array: the first test, then for every
    other test, in order, a point at the top and a point at the bottom of the
    token with the [x], [y] and [los] map of that test.  So [n >= 1] tests
    give [2n - 1], the tests after the first are not in the array themselves,
    and no tests at all give an array that holds [undefined].  One warning is
    logged per test after the first whose [los] map is not empty. *)
Theorem elevatePoints_3d_array
    (g : Game) (sizes : nat -> nat) (tests : list Test) (v : VisionSource)
    (object : Token) :
  JS.falsy (topZ object - bottomZ object) = false ->
  RANGE_ALGORITHM (settings g) = SETTINGS.FOUNDRY_3D ->
  let avgElevation :=
    (bottomZ object + ((topZ object - bottomZ object) * 0.5))%float in
  let run := elevatePoints g sizes tests v (IsToken object) in
  snd (value run)
  = option_map (defaultElevation avgElevation) (nth_error tests 0)
    :: flat_map (topAndBottomOf object) (tl tests)
  /\ List.length (snd (value run)) = 1 + 2 * (List.length tests - 1)
  /\ (tests = [] -> snd (value run) = [None])
  /\ Forall (fun slot => exists t test,
                 slot = Some t /\ In test (tl tests)
                 /\ x3 (point t) = x3 (point test) /\ y3 (point t) = y3 (point test)
                 /\ losMap t = losMap test
                 /\ (z3 (point t) = Some (topZ object)
                     \/ z3 (point t) = Some (bottomZ object)))
            (tl (snd (value run)))
  /\ trace run
     = map (fun _ => Warn "Test point has los mapping already.")
           (filter (fun test => (0 <? losSize sizes (losMap test))%nat) (tl tests)).
Proof.
  intros Hheight Halg avgElevation run.
  assert (Hrun : run
                 = (pushed <- elevatePoints_push sizes object
                                (tl (map (defaultElevation avgElevation) tests)) ;;
                    ret (map (defaultElevation avgElevation) tests,
                         [nth_error (map (defaultElevation avgElevation) tests) 0] ++ pushed))%run).
  { unfold run, elevatePoints. fold avgElevation. now rewrite Hheight, Halg. }
  assert (Hsnd : snd (value run)
                 = option_map (defaultElevation avgElevation) (nth_error tests 0)
                   :: flat_map (topAndBottomOf object) (tl tests)).
  { rewrite Hrun. autorewrite with run. cbn [snd app].
    rewrite elevatePoints_push_value, tl_map, topAndBottomOf_default.
    now destruct tests. }
  split; [exact Hsnd|]. split; [|split; [|split]].
  - rewrite Hsnd. cbn [List.length]. f_equal.
    clear. destruct tests as [|t0 rest]; [reflexivity|]. cbn [tl List.length].
    replace (S (List.length rest) - 1) with (List.length rest) by lia.
    induction rest as [|t rest IH]; [reflexivity|].
    cbn [flat_map topAndBottomOf List.length app]. rewrite IH. lia.
  - intros ->. now rewrite Hsnd.
  - rewrite Hsnd. cbn [tl]. apply Forall_forall. intros slot Hin.
    apply in_flat_map in Hin as (test & Htest & Hslot).
    destruct Hslot as [<- | [<- | []]]; eexists; exists test; repeat split; auto.
  - rewrite Hrun. autorewrite with run.
    rewrite app_nil_r, elevatePoints_push_trace, tl_map, warnings_default, map_map.
    reflexivity.
Qed.

(** X11. A test point keeps the [z] it has: once [elevatePoints] has run for
    a token, running it again on the same test objects, for another token,
    observer or setting, changes none of them. *)
Theorem elevatePoints_keeps_z
    (g g' : Game) (sizes sizes' : nat -> nat) (tests : list Test) (v v' : VisionSource)
    (object object' : Token) :
  let once := fst (value (elevatePoints g sizes tests v (IsToken object))) in
  fst (value (elevatePoints g' sizes' once v' (IsToken object'))) = once
  /\ Forall (fun test => z3 (point test) <> None) once
  /\ List.length once = List.length tests.
Proof.
  assert (Hfst : forall g0 s0 l v0 o,
             fst (value (elevatePoints g0 s0 l v0 (IsToken o)))
             = map (defaultElevation
                      (bottomZ o + ((topZ o - bottomZ o) * 0.5))%float) l).
  { intros g0 s0 l v0 o. unfold elevatePoints.
    destruct (_ || _); [reflexivity|]. now autorewrite with run. }
  cbv zeta. rewrite !Hfst, map_map. split; [|split].
  - apply map_ext. intros test. now destruct test as [[px py [pz|]] m c h].
  - apply Forall_forall. intros test Hin. apply in_map_iff in Hin as (t & <- & _).
    now destruct t as [[px py [pz|]] m c h].
  - apply length_map.
Qed.

End Elevate3d.

(** Three tests for the token of the scene under the 3D algorithm. *)
Lemma elevatePoints_3d_array_witness :
  let g := mkGame false (mkSettings SETTINGS.FOUNDRY_3D SETTINGS.POINTS 0) in
  let center := mkTest (mkPoint3d 5 5 None) (MapRef 0) None None in
  let corner := mkTest (mkPoint3d 0 0 None) (MapRef 1) None None in
  (JS.falsy (topZ Scene.token - bottomZ Scene.token) = false
   /\ RANGE_ALGORITHM (settings g) = SETTINGS.FOUNDRY_3D)
  /\ List.length (snd (value (elevatePoints g (fun _ => 0%nat) [center; corner; corner]
                                (Scene.observer 5) (IsToken Scene.token)))) = 5%nat.
Proof.
  cbv zeta. split; [split; reflexivity|].
  destruct (elevatePoints_3d_array
              (mkGame false (mkSettings SETTINGS.FOUNDRY_3D SETTINGS.POINTS 0))
              (fun _ => 0%nat)
              [mkTest (mkPoint3d 5 5 None) (MapRef 0) None None;
               mkTest (mkPoint3d 0 0 None) (MapRef 1) None None;
               mkTest (mkPoint3d 0 0 None) (MapRef 1) None None]
              (Scene.observer 5) Scene.token eq_refl eq_refl) as (_ & Wlength & _).
  exact Wlength.
Defined.

(* ------------------------------------------------------------------ *)
(** ** One area test per token *)

Section CenterPoint.

Context {H : Host}.

Variable wrapped : VisionSource -> Mode -> Placeable -> Test -> bool.
Variable wrappedTests : VisionSource -> Mode -> Placeable -> list Slot -> bool.

Lemma linkCenter_length (tests : list Slot) :
  List.length (linkCenter tests) = List.length tests.
Proof. destruct tests; [reflexivity|]. cbn [linkCenter List.length]. now rewrite length_map. Qed.

Lemma linkCenter_linked (tests : list Slot) (i : nat) (t : Test) :
  nth_error (linkCenter tests) (S i) = Some (Some t) -> centerPoint t = Some 0%nat.
Proof.
  destruct tests as [|first rest]; [discriminate|].
  cbn [linkCenter nth_error]. rewrite nth_error_map.
  destruct (nth_error _ _) as [[t0|]|]; cbn; try discriminate.
  intros Ht. injection Ht as Ht. now subst t.
Qed.

(** [testLOSArea] returns the token it was given, with or without a new
    footprint. *)
Lemma testLOSArea_token (g : Game) (v : VisionSource) (target : Token) (hasLOS : bool) :
  exists c, snd (value (testLOSArea g v target hasLOS)) = setConstrainedTokenShape target c.
Proof.
  rewrite testLOSArea_unfold.
  destruct (cheapAccept _ _); [exists (_constrainedTokenShape target); now destruct target|].
  destruct (cheapReject _ _); [exists (_constrainedTokenShape target); now destruct target|].
  rewrite value_bind, testLOSArea_tail_token. now eexists.
Qed.

(** X12. With the area algorithm the area of a token is tested once.  The
    wrapper hands on an array of the same length as the one [elevatePoints]
    returns, with the first slot untouched and every other test pointing to
    the first; the test at the center runs the area test and stores the
    answer in the test object; and with that object in the first slot, every
    test that points to it and is not at the center returns the stored
    answer, whatever the wrapped test would say, with no event at all. *)
Theorem testLOS_area_once
    (wrapped' : VisionSource -> Mode -> Placeable -> Test -> bool)
    (g : Game) (sizes : nat -> nat) (tests : list Test) (slots : list Slot)
    (v v' : VisionSource) (mode mode' : Mode) (token : Token) (centerTest test : Test) :
  LOS_ALGORITHM (settings g) = SETTINGS.AREA ->
  let elevated := snd (value (elevatePoints g sizes tests v (IsToken token))) in
  let center := _testLOSDetectionMode wrapped g slots v mode (IsToken token) centerTest in
  let answer := fst (value (testLOSArea g v token
                              (wrapped v mode (IsToken token) centerTest))) in
  let stored := Some (snd (fst (value center))) :: tl slots in
  (value (testVisibilityDetectionMode wrappedTests g sizes v mode (IsToken token) tests)
   = wrappedTests v mode (IsToken token) (linkCenter elevated)
   /\ List.length (linkCenter elevated) = List.length elevated
   /\ nth_error (linkCenter elevated) 0 = nth_error elevated 0
   /\ forall i t, nth_error (linkCenter elevated) (S i) = Some (Some t) ->
                  centerPoint t = Some 0%nat)
  /\ (atCenter token centerTest = true ->
      fst (fst (value center)) = RBool answer
      /\ hasLOSArea (snd (fst (value center))) = Some answer
      /\ (atCenter token test = false -> centerPoint test = Some 0%nat ->
          _testLOSDetectionMode wrapped' g stored v' mode' (snd (value center)) test
          = ((RBool answer, test, snd (value center)), []))).
Proof.
  intros Halg. cbv zeta. split.
  - split; [|split; [|split]].
    + unfold testVisibilityDetectionMode. rewrite Halg. now autorewrite with run.
    + apply linkCenter_length.
    + now destruct (snd (value (elevatePoints g sizes tests v (IsToken token)))).
    + apply linkCenter_linked.
  - intros Hcenter.
    assert (Hrun : _testLOSDetectionMode wrapped g slots v mode (IsToken token) centerTest
                   = (r <- testLOSArea g v token (wrapped v mode (IsToken token) centerTest) ;;
                      ret (RBool (fst r), setHasLOSArea centerTest (Some (fst r)),
                           IsToken (snd r)))%run).
    { unfold _testLOSDetectionMode. rewrite Halg.
      fold (atCenter token centerTest). now rewrite Hcenter. }
    rewrite Hrun. autorewrite with run. cbn [fst snd].
    split; [reflexivity|]. split; [reflexivity|].
    intros Htest Hlink.
    destruct (testLOSArea_token g v token (wrapped v mode (IsToken token) centerTest))
      as [c Htoken].
    rewrite Htoken. unfold _testLOSDetectionMode. rewrite Halg.
    change (Point3d_almostEqual (point test) _) with (atCenter token test).
    rewrite Htest. cbn [negb].
    unfold centerPoint_hasLOSArea. rewrite Hlink. reflexivity.
Qed.

(** X13. With the area algorithm a test of a token that is not at its center
    and points to no center test makes [_testLOSDetectionMode] throw a
    TypeError: the first test of the array, which the wrapper never links,
    when its point is not almost equal to the center.  A test linked to a
    center that has not been tested yet gets [undefined]. *)
Theorem testLOS_area_off_center
    (g : Game) (slots : list Slot) (v : VisionSource) (mode : Mode) (token : Token)
    (test : Test) :
  LOS_ALGORITHM (settings g) = SETTINGS.AREA ->
  atCenter token test = false ->
  let run := _testLOSDetectionMode wrapped g slots v mode (IsToken token) test in
  trace run = []
  /\ (centerPoint test = None -> fst (fst (value run)) = RTypeError)
  /\ (forall first rest, nth_error (linkCenter (Some test :: rest)) 0 = Some (Some first) ->
      centerPoint first = centerPoint test)
  /\ (forall i c, centerPoint test = Some i -> nth_error slots i = Some (Some c) ->
      hasLOSArea c = None -> fst (fst (value run)) = RUndefined)
  /\ (forall i, centerPoint test = Some i -> List.length slots <= i ->
      fst (fst (value run)) = RTypeError).
Proof.
  intros Halg Htest. cbv zeta. unfold _testLOSDetectionMode. rewrite Halg.
  fold (atCenter token test). rewrite Htest. cbn [negb value trace ret fst snd].
  unfold centerPoint_hasLOSArea.
  split; [reflexivity|]. split; [now intros ->|]. split; [|split].
  - intros first rest [= <-]. reflexivity.
  - intros i c Hi Hc Hnone. now rewrite Hi, Hc, Hnone.
  - intros i Hi Hout. apply nth_error_None in Hout. now rewrite Hi, Hout.
Qed.

End CenterPoint.

(** The token of the scene: a test at the center and a test at a corner that
    points to it. *)
Lemma testLOS_area_once_witness :
  let g := Scene.game false 0.5 in
  let centerTest := mkTest (mkPoint3d 5 5 (Some 5%float)) (MapRef 0) None None in
  let corner := mkTest (mkPoint3d 0 0 (Some 5%float)) (MapRef 1) (Some 0%nat) None in
  let center := _testLOSDetectionMode (H := Scene.topAndBottom) (fun _ _ _ _ => true)
                  g [Some centerTest; Some corner] (Scene.observer 5) (mkMode 6)
                  (IsToken Scene.token) centerTest in
  (LOS_ALGORITHM (settings g) = SETTINGS.AREA
   /\ atCenter Scene.token centerTest = true
   /\ atCenter Scene.token corner = false
   /\ centerPoint corner = Some 0%nat)
  /\ fst (fst (value center)) = RBool true
  /\ fst (value (_testLOSDetectionMode (H := Scene.topAndBottom) (fun _ _ _ _ => false)
                   g [Some (snd (fst (value center))); Some corner]
                   (Scene.observer 5) (mkMode 6) (snd (value center)) corner))
     = (RBool true, corner).
Proof.
  cbv zeta. split; [repeat split|].
  destruct (testLOS_area_once (H := Scene.topAndBottom) (fun _ _ _ _ => true)
              (fun _ _ _ _ => true) (fun _ _ _ _ => false)
              (Scene.game false 0.5) (fun _ => 0%nat) []
              [Some (mkTest (mkPoint3d 5 5 (Some 5%float)) (MapRef 0) None None);
               Some (mkTest (mkPoint3d 0 0 (Some 5%float)) (MapRef 1) (Some 0%nat) None)]
              (Scene.observer 5) (Scene.observer 5) (mkMode 6) (mkMode 6) Scene.token
              (mkTest (mkPoint3d 5 5 (Some 5%float)) (MapRef 0) None None)
              (mkTest (mkPoint3d 0 0 (Some 5%float)) (MapRef 1) (Some 0%nat) None)
              eq_refl) as [_ Wcenter].
  destruct (Wcenter eq_refl) as (Wanswer & _ & Wshared).
  split; [rewrite Wanswer; reflexivity|].
  cbn [tl] in Wshared. rewrite (Wshared eq_refl eq_refl). reflexivity.
Defined.

(** The first test of the array, a corner of the token: a TypeError. *)
Lemma testLOS_area_off_center_witness :
  let g := Scene.game false 0.5 in
  let corner := mkTest (mkPoint3d 0 0 (Some 5%float)) (MapRef 1) None None in
  (LOS_ALGORITHM (settings g) = SETTINGS.AREA /\ atCenter Scene.token corner = false
   /\ centerPoint corner = None)
  /\ fst (fst (value (_testLOSDetectionMode (H := Scene.topAndBottom) (fun _ _ _ _ => true)
                        g [Some corner] (Scene.observer 5) (mkMode 6)
                        (IsToken Scene.token) corner))) = RTypeError.
Proof.
  cbv zeta. split; [repeat split|].
  destruct (testLOS_area_off_center (H := Scene.topAndBottom) (fun _ _ _ _ => true)
              (Scene.game false 0.5)
              [Some (mkTest (mkPoint3d 0 0 (Some 5%float)) (MapRef 1) None None)]
              (Scene.observer 5) (mkMode 6) Scene.token
              (mkTest (mkPoint3d 0 0 (Some 5%float)) (MapRef 1) None None)
              eq_refl eq_refl) as (_ & Werror & _).
  now apply Werror.
Defined.
(* ------------------------------------------------------------------ *)
(** ** Objects and scripts *)

Module ObjFacts.

Lemma get_set_eq {V} (key : string) (v : V) (o : list (string * V)) :
  Obj.get key (Obj.set key v o) = Some v.
Proof.
  induction o as [|[k w] o IH]; simpl.
  - now rewrite String.eqb_refl.
  - destruct (String.eqb k key) eqn:E; simpl; now rewrite E.
Qed.

Lemma get_set_ne {V} (key key' : string) (v : V) (o : list (string * V)) :
  key <> key' -> Obj.get key' (Obj.set key v o) = Obj.get key' o.
Proof.
  intros Hne. induction o as [|[k w] o IH]; simpl.
  - destruct (String.eqb_spec key key'); congruence.
  - destruct (String.eqb k key) eqn:E; simpl.
    + apply String.eqb_eq in E. subst k.
      destruct (String.eqb_spec key key'); congruence.
    + now destruct (String.eqb k key').
Qed.

Lemma keys_set_old {V} (key : string) (v : V) (o : list (string * V)) :
  Obj.has key o = true -> Obj.keys (Obj.set key v o) = Obj.keys o.
Proof.
  unfold Obj.has, Obj.keys. induction o as [|[k w] o IH]; simpl; [discriminate|].
  destruct (String.eqb k key); simpl; [reflexivity|].
  intros Hhas. now rewrite IH.
Qed.

Lemma keys_set_new {V} (key : string) (v : V) (o : list (string * V)) :
  Obj.has key o = false -> Obj.keys (Obj.set key v o) = (Obj.keys o ++ [key])%list.
Proof.
  unfold Obj.has, Obj.keys. induction o as [|[k w] o IH]; simpl; [reflexivity|].
  destruct (String.eqb k key); simpl; [discriminate|].
  intros Hhas. now rewrite IH.
Qed.

Lemma has_set {V} (key key' : string) (v : V) (o : list (string * V)) :
  Obj.has key' (Obj.set key v o) = String.eqb key key' || Obj.has key' o.
Proof.
  unfold Obj.has. destruct (String.eqb_spec key key') as [->|Hne].
  - now rewrite get_set_eq.
  - now rewrite get_set_ne.
Qed.

End ObjFacts.

Lemma sbind_ext {S A B} (m : Script S A) (k k' : A -> Script S B) (s : S) :
  (forall a s', k a s' = k' a s') -> sbind m k s = sbind m k' s.
Proof. intros Hk. unfold sbind. destruct (m s) as [[a|] s']; [apply Hk|reflexivity]. Qed.

Lemma sbind_sret_r {S} (m : Script S unit) (s : S) : sbind m (fun _ => sret tt) s = m s.
Proof. unfold sbind, sret. now destruct (m s) as [[[]|] s']. Qed.

Lemma sbind_returned {S A B} (m : Script S A) (k : A -> Script S B) (s s' : S) (a : A) :
  m s = (Returned a, s') -> sbind m k s = k a s'.
Proof. intros Hm. unfold sbind. now rewrite Hm. Qed.

Lemma sbind_threw {S A B} (m : Script S A) (k : A -> Script S B) (s s' : S) :
  m s = (TypeError, s') -> sbind m k s = (TypeError, s').
Proof. intros Hm. unfold sbind. now rewrite Hm. Qed.

(* ------------------------------------------------------------------ *)
(** ** settings.js: registration and visibility *)

Section SettingsFacts.

Import SettingsJs ObjFacts.
Local Open Scope string_scope.
Local Open Scope script_scope.

Lemma distinct_NoDup (l : list string) : Obj.distinct l = true -> NoDup l.
Proof.
  induction l as [|a l IH]; simpl; [constructor|].
  intros Hd. apply andb_prop in Hd as [Ha Hl]. constructor; [|now apply IH].
  intros Hin. apply negb_true_iff in Ha.
  assert (existsb (String.eqb a) l = true); [|congruence].
  apply existsb_exists. exists a. split; [assumption|apply String.eqb_refl].
Qed.

Lemma get_notin {V} (key : string) (o : list (string * V)) :
  ~ In key (map fst o) -> Obj.get key o = None.
Proof.
  induction o as [|[k v] o IH]; simpl; [reflexivity|].
  intros Hnot. destruct (String.eqb_spec k key); [tauto|]. apply IH. tauto.
Qed.

Lemma settingKey_inj (a b : string) : MODULE_ID ++ "." ++ a = MODULE_ID ++ "." ++ b -> a = b.
Proof. simpl. now intros [= ->]. Qed.

Lemma setSettingVisibility_registered (name : string) (b : bool) (g : GameState)
    (d : SettingData) :
  Obj.get (MODULE_ID ++ "." ++ name) (registry g) = Some d ->
  setSettingVisibility name (Some b) g
  = (Returned tt,
     mkGameState (system_id g) (localize g)
       (Obj.set (MODULE_ID ++ "." ++ name) (set_config d (ConfigValue b)) (registry g))
       (values g) (calls g ++ [visibilityLog name b; SheetRender])%list).
Proof.
  intros Hget.
  unfold setSettingVisibility, log, did, gets, modify, sbind, throw, visibilityLog.
  cbn [system_id localize registry values calls]. rewrite Hget.
  cbn [system_id localize registry values calls]. now rewrite <- app_assoc.
Qed.

Lemma setSettingVisibility_missing (name : string) (visible : option bool) (g : GameState) :
  Obj.get (MODULE_ID ++ "." ++ name) (registry g) = None ->
  setSettingVisibility name visible g
  = (TypeError,
     mkGameState (system_id g) (localize g) (registry g) (values g)
       (calls g ++ [visibilityLog name (match visible with Some b => b | None => true end)])%list).
Proof.
  intros Hget.
  unfold setSettingVisibility, log, did, gets, modify, sbind, throw, visibilityLog.
  cbn [system_id localize registry values calls]. now rewrite Hget.
Qed.

(** A run of [setSettingVisibility] over registered settings. *)
Lemma setVisibilities_spec (l : list (string * bool)) :
  NoDup (map fst l) ->
  forall g : GameState,
  (forall k, In k (map fst l) -> Obj.has (MODULE_ID ++ "." ++ k) (registry g) = true) ->
  outcome (setVisibilities l) g = Returned tt
  /\ (forall name,
        configOf (after (setVisibilities l) g) name
        = match Obj.get name l with
          | Some b => Some (ConfigValue b)
          | None => configOf g name
          end)
  /\ values (after (setVisibilities l) g) = values g
  /\ Obj.keys (registry (after (setVisibilities l) g)) = Obj.keys (registry g)
  /\ calls (after (setVisibilities l) g)
     = (calls g ++ flat_map (fun kb => [visibilityLog (fst kb) (snd kb); SheetRender]) l)%list.
Proof.
  induction l as [|[k b] l IH]; intros Hnd g Hreg.
  - cbn. rewrite app_nil_r. repeat split; reflexivity.
  - inversion Hnd as [|? ? Hk Hl]; subst.
    assert (Hhas := Hreg k (or_introl eq_refl)). unfold Obj.has in Hhas.
    destruct (Obj.get (MODULE_ID ++ "." ++ k) (registry g)) as [d|] eqn:Hget; [|discriminate].
    pose (g1 := mkGameState (system_id g) (localize g)
                  (Obj.set (MODULE_ID ++ "." ++ k) (set_config d (ConfigValue b)) (registry g))
                  (values g) (calls g ++ [visibilityLog k b; SheetRender])%list).
    assert (Hstep : setVisibilities ((k, b) :: l) g = setVisibilities l g1).
    { cbn [setVisibilities].
      exact (sbind_returned _ (fun _ => setVisibilities l) _ _ _
               (setSettingVisibility_registered k b g d Hget)). }
    unfold outcome, after. rewrite Hstep.
    destruct (IH Hl g1) as (Hout & Hcfg & Hval & Hkeys & Hcalls).
    { intros k' Hk'. unfold g1. cbn [registry]. rewrite has_set.
      rewrite (Hreg k' (or_intror Hk')). apply orb_true_r. }
    unfold outcome, after in *.
    split; [assumption|]. split; [|split; [|split]].
    + intros name. rewrite Hcfg. cbn [Obj.get].
      destruct (String.eqb_spec k name) as [<-|Hne].
      * rewrite (get_notin k l Hk). unfold configOf, g1. cbn [registry].
        now rewrite get_set_eq.
      * destruct (Obj.get name l); [reflexivity|].
        unfold configOf, g1. cbn [registry]. rewrite get_set_ne; [reflexivity|].
        intros Heq. apply settingKey_inj in Heq. contradiction.
    + now rewrite Hval.
    + rewrite Hkeys. unfold g1. cbn [registry]. apply keys_set_old.
      unfold Obj.has. now rewrite Hget.
    + rewrite Hcalls. unfold g1. cbn [calls flat_map fst snd]. now rewrite <- app_assoc.
Qed.

(** Registering a list of settings with distinct keys. *)
Lemma registerAll_spec (l : list (string * SettingData)) :
  NoDup (map fst l) ->
  forall g : GameState,
  outcome (registerAll l) g = Returned tt
  /\ (forall k,
        Obj.get (MODULE_ID ++ "." ++ k) (registry (after (registerAll l) g))
        = match Obj.get k l with
          | Some d => Some d
          | None => Obj.get (MODULE_ID ++ "." ++ k) (registry g)
          end)
  /\ values (after (registerAll l) g) = values g
  /\ system_id (after (registerAll l) g) = system_id g
  /\ calls (after (registerAll l) g) = calls g.
Proof.
  induction l as [|[k d] l IH]; intros Hnd g.
  - cbn. repeat split; reflexivity.
  - inversion Hnd as [|? ? Hk Hl]; subst.
    pose (g1 := mkGameState (system_id g) (localize g)
                  (Obj.set (MODULE_ID ++ "." ++ k) d (registry g)) (values g) (calls g)).
    assert (Hstep : registerAll ((k, d) :: l) g = registerAll l g1) by reflexivity.
    unfold outcome, after. rewrite Hstep.
    destruct (IH Hl g1) as (Hout & Hget & Hval & Hsys & Hcalls).
    unfold outcome, after in *.
    split; [assumption|]. split; [|split; [|split]]; try assumption.
    intros name. rewrite Hget. cbn [Obj.get].
    destruct (String.eqb_spec k name) as [<-|Hne].
    + rewrite (get_notin k l Hk). unfold g1. cbn [registry]. now rewrite get_set_eq.
    + destruct (Obj.get name l); [reflexivity|].
      unfold g1. cbn [registry]. rewrite get_set_ne; [reflexivity|].
      intros Heq. apply settingKey_inj in Heq. contradiction.
Qed.

Lemma registrations_logged (g : GameState) (c : list UIEvent) :
  registrations (mkGameState (system_id g) (localize g) (registry g) (values g) c)
  = registrations g.
Proof. reflexivity. Qed.

Lemma register_script_spec (regs : GameState -> list (string * SettingData))
    (a b : string) (g : GameState) :
  let g0 := mkGameState (system_id g) (localize g) (registry g) (values g)
              (calls g ++ [ConsoleLog a])%list in
  let m := (log a ;;; l <- gets regs ;; registerAll l ;;; log b) in
  NoDup (map fst (regs g0)) ->
  outcome m g = Returned tt
  /\ (forall k,
        Obj.get (MODULE_ID ++ "." ++ k) (registry (after m g))
        = match Obj.get k (regs g0) with
          | Some d => Some d
          | None => Obj.get (MODULE_ID ++ "." ++ k) (registry g)
          end)
  /\ values (after m g) = values g
  /\ system_id (after m g) = system_id g
  /\ calls (after m g) = (calls g ++ [ConsoleLog a; ConsoleLog b])%list.
Proof.
  intros g0 m Hnd.
  destruct (registerAll_spec (regs g0) Hnd g0) as (Hout & Hget & Hval & Hsys & Hcalls).
  unfold outcome, after in *.
  assert (Hrun : m g = log b (snd (registerAll (regs g0) g0))).
  { unfold m, sbind, log at 1, did at 1, modify at 1, gets. fold g0.
    destruct (registerAll (regs g0) g0) as [[[]|] g1]; [reflexivity|discriminate]. }
  rewrite Hrun. unfold log, did, modify. cbn [fst snd registry values system_id calls].
  split; [reflexivity|]. split; [exact Hget|]. split; [exact Hval|]. split; [exact Hsys|].
  rewrite Hcalls. unfold g0. cbn [calls]. now rewrite <- app_assoc.
Qed.

(** What [registerSettings] leaves in the registry. *)
Lemma registerSettings_spec (g : GameState) :
  outcome registerSettings g = Returned tt
  /\ (forall k,
        Obj.get (MODULE_ID ++ "." ++ k) (registry (after registerSettings g))
        = match Obj.get k (registrations g) with
          | Some d => Some d
          | None => Obj.get (MODULE_ID ++ "." ++ k) (registry g)
          end)
  /\ values (after registerSettings g) = values g
  /\ system_id (after registerSettings g) = system_id g
  /\ calls (after registerSettings g)
     = (calls g ++ [ConsoleLog "Registering token visibility settings.";
                    ConsoleLog "Done registering settings."])%list.
Proof.
  pose proof (register_script_spec registrations
                "Registering token visibility settings." "Done registering settings." g)
    as Hspec.
  cbv zeta in Hspec. rewrite registrations_logged in Hspec.
  apply Hspec. apply distinct_NoDup. reflexivity.
Qed.

(** The seven calls of [updateCoverSetting]. *)
Lemma updateCoverSetting_calls (value : string) (g : GameState) :
  let area_visible :=
    String.eqb value COVER.TYPES.AREA || String.eqb value COVER.TYPES.AREA_3D in
  let center_visible := String.eqb value COVER.TYPES.CENTER_CENTER in
  let corners_visible := negb (area_visible || center_visible) in
  updateCoverSetting value g
  = setVisibilities
      [(COVER.TRIGGER_CORNERS.LOW, corners_visible);
       (COVER.TRIGGER_CORNERS.MEDIUM, corners_visible);
       (COVER.TRIGGER_CORNERS.HIGH, corners_visible);
       (COVER.TRIGGER_AREA.LOW, area_visible);
       (COVER.TRIGGER_AREA.MEDIUM, area_visible);
       (COVER.TRIGGER_AREA.HIGH, area_visible);
       (COVER.TRIGGER_CENTER, center_visible)]
      (mkGameState (system_id g) (localize g) (registry g) (values g)
         (calls g ++ [ConsoleLog ("Changing to " ++ value);
                      Notify ("Changing to " ++ value)])%list).
Proof.
  cbv zeta. unfold updateCoverSetting.
  rewrite (sbind_returned (log _) _ g
             (mkGameState (system_id g) (localize g) (registry g) (values g)
                (calls g ++ [ConsoleLog ("Changing to " ++ value)])%list) tt eq_refl).
  rewrite (sbind_returned (did _) _ _
             (mkGameState (system_id g) (localize g) (registry g) (values g)
                (calls g ++ [ConsoleLog ("Changing to " ++ value);
                             Notify ("Changing to " ++ value)])%list) tt).
  2:{ unfold did, modify. cbn [system_id localize registry values calls].
      now rewrite <- app_assoc. }
  cbv zeta. cbn [setVisibilities].
  do 6 (apply sbind_ext; intros _ ?).
  symmetry. apply sbind_sret_r.
Qed.

(** X14. Once [registerSettings] has run, [updateCoverSetting] never throws
    and sets the [config] of each of the seven trigger settings to what the
    callback registered for that setting answers when the cover algorithm
    reads as the new value; the two places of the code agree.  Exactly one
    of the three groups (corners, area, center) ends up shown, no other
    setting's [config] changes, and no setting value is touched. *)
Theorem updateCoverSetting_follows_registration (g : GameState) (value : string) :
  let triggers := (cornerTriggers ++ areaTriggers ++ [COVER.TRIGGER_CENTER])%list in
  let g1 := after registerSettings g in
  let g2 := after (updateCoverSetting value) g1 in
  outcome (updateCoverSetting value) g1 = Returned tt
  /\ (forall k, In k triggers ->
        exists f, configOf g1 k = Some (ConfigCallback f)
                  /\ configOf g2 k
                     = Some (ConfigValue (f (reading g1 COVER.ALGORITHM value))))
  /\ (forall k, ~ In k triggers -> configOf g2 k = configOf g1 k)
  /\ (exists corners area center : bool,
        (forall k, In k cornerTriggers -> configOf g2 k = Some (ConfigValue corners))
        /\ (forall k, In k areaTriggers -> configOf g2 k = Some (ConfigValue area))
        /\ configOf g2 COVER.TRIGGER_CENTER = Some (ConfigValue center)
        /\ Nat.b2n corners + Nat.b2n area + Nat.b2n center = 1)
  /\ values g2 = values g1
  /\ Obj.keys (registry g2) = Obj.keys (registry g1).
Proof.
  cbv zeta.
  destruct (registerSettings_spec g) as (_ & Hreg & _).
  set (g1 := after registerSettings g) in *.
  pose proof (updateCoverSetting_calls value g1) as Hcalls. cbv zeta in Hcalls.
  set (area_visible := String.eqb value COVER.TYPES.AREA
                       || String.eqb value COVER.TYPES.AREA_3D) in *.
  set (center_visible := String.eqb value COVER.TYPES.CENTER_CENTER) in *.
  set (l := [(COVER.TRIGGER_CORNERS.LOW, _); _; _; _; _; _; _]) in Hcalls.
  set (g1' := mkGameState _ _ _ _ _) in Hcalls.
  assert (Hcfg1 : forall k, configOf g1' k = configOf g1 k) by reflexivity.
  assert (Hregistered : forall k, In k (map fst l) ->
            exists f, configOf g1 k = Some (ConfigCallback f)
                      /\ Obj.get k l = Some (f (reading g1 COVER.ALGORITHM value))).
  { intros k Hk. unfold configOf. rewrite Hreg.
    cbn in Hk.
    repeat (destruct Hk as [<-|Hk]; [eexists; split; [reflexivity|]|]); try contradiction;
      cbn; unfold config_corners, config_area, config_center, reading; cbn;
      fold area_visible; fold center_visible; unfold area_visible;
      try reflexivity;
      now destruct (String.eqb value COVER.TYPES.AREA),
                   (String.eqb value COVER.TYPES.AREA_3D), center_visible. }
  assert (Hnd : NoDup (map fst l)) by (apply distinct_NoDup; reflexivity).
  destruct (setVisibilities_spec l Hnd g1') as (Hout & Hcfg & Hval & Hkeys & _).
  { intros k Hk. destruct (Hregistered k Hk) as (f & Hf & _).
    unfold configOf in Hf. unfold Obj.has. change (registry g1') with (registry g1).
    now destruct (Obj.get (MODULE_ID ++ "." ++ k) (registry g1)). }
  unfold outcome, after in *. rewrite Hcalls.
  split; [exact Hout|]. split; [|split; [|split; [|split]]].
  - intros k Hk. destruct (Hregistered k Hk) as (f & Hf & Hl).
    exists f. split; [exact Hf|]. now rewrite Hcfg, Hl.
  - intros k Hk. rewrite Hcfg, (get_notin k l Hk). apply Hcfg1.
  - exists (negb (area_visible || center_visible)), area_visible, center_visible.
    split; [|split; [|split]].
    + intros k Hk. rewrite Hcfg. cbn in Hk.
      repeat (destruct Hk as [<-|Hk]; [reflexivity|]). contradiction.
    + intros k Hk. rewrite Hcfg. cbn in Hk.
      repeat (destruct Hk as [<-|Hk]; [reflexivity|]). contradiction.
    + now rewrite Hcfg.
    + unfold area_visible, center_visible.
      destruct (String.eqb_spec value COVER.TYPES.AREA) as [->|_]; [reflexivity|].
      destruct (String.eqb_spec value COVER.TYPES.AREA_3D) as [->|_]; [reflexivity|].
      now destruct (String.eqb value COVER.TYPES.CENTER_CENTER).
  - exact Hval.
  - exact Hkeys.
Qed.

(** X15. Once [registerSettings] has run, [updateLosSetting] never throws
    and sets the [config] of the percent-area setting to what its registered
    callback answers when the line-of-sight algorithm reads as the new
    value: shown for the area algorithm only.  No other [config] changes. *)
Theorem updateLosSetting_follows_registration (g : GameState) (value : string) :
  let g1 := after registerSettings g in
  let g2 := after (updateLosSetting value) g1 in
  outcome (updateLosSetting value) g1 = Returned tt
  /\ (exists f, configOf g1 LOS.PERCENT_AREA = Some (ConfigCallback f)
                /\ configOf g2 LOS.PERCENT_AREA
                   = Some (ConfigValue (f (reading g1 LOS.ALGORITHM value))))
  /\ (configOf g2 LOS.PERCENT_AREA = Some (ConfigValue true) <-> value = LOS.TYPES.AREA)
  /\ (forall k, k <> LOS.PERCENT_AREA -> configOf g2 k = configOf g1 k)
  /\ values g2 = values g1
  /\ calls g2 = (calls g1 ++ [ConsoleLog ("Changing to " ++ value);
                              Notify ("Changing to " ++ value);
                              visibilityLog LOS.PERCENT_AREA (String.eqb value LOS.TYPES.AREA);
                              SheetRender])%list.
Proof.
  cbv zeta.
  destruct (registerSettings_spec g) as (_ & Hreg & _).
  set (g1 := after registerSettings g) in *.
  pose (g1' := mkGameState (system_id g1) (localize g1) (registry g1) (values g1)
                 (calls g1 ++ [ConsoleLog ("Changing to " ++ value);
                               Notify ("Changing to " ++ value)])%list).
  assert (Hrun : updateLosSetting value g1
                 = setSettingVisibility LOS.PERCENT_AREA
                     (Some (String.eqb value LOS.TYPES.AREA)) g1').
  { unfold updateLosSetting.
    rewrite (sbind_returned (log _) _ g1
               (mkGameState (system_id g1) (localize g1) (registry g1) (values g1)
                  (calls g1 ++ [ConsoleLog ("Changing to " ++ value)])%list) tt eq_refl).
    rewrite (sbind_returned (did _) _ _ g1' tt); [reflexivity|].
    unfold did, modify, g1'. cbn [system_id localize registry values calls].
    now rewrite <- app_assoc. }
  pose proof (Hreg LOS.PERCENT_AREA) as Hd. cbn [Obj.get registrations] in Hd.
  change (String.eqb RANGE.ALGORITHM LOS.PERCENT_AREA) with false in Hd.
  change (String.eqb LOS.ALGORITHM LOS.PERCENT_AREA) with false in Hd.
  change (String.eqb LOS.PERCENT_AREA LOS.PERCENT_AREA) with true in Hd.
  cbv iota in Hd.
  unfold outcome, after. rewrite Hrun.
  rewrite (setSettingVisibility_registered _ _ g1' _ Hd).
  cbn [fst snd values calls registry].
  split; [reflexivity|]. split; [|split; [|split; [|split]]].
  - eexists. split; [unfold configOf; rewrite Hd; reflexivity|].
    unfold configOf. cbn [registry]. rewrite get_set_eq. reflexivity.
  - unfold configOf. cbn [registry]. rewrite get_set_eq. cbn.
    destruct (String.eqb_spec value LOS.TYPES.AREA); split; congruence.
  - intros k Hk. unfold configOf. cbn [registry]. rewrite get_set_ne; [reflexivity|].
    intros Heq. apply settingKey_inj in Heq. congruence.
  - reflexivity.
  - unfold g1'. cbn [calls]. now rewrite <- app_assoc.
Qed.

(** X16. Changing the visibility of a setting that is not registered
    throws a TypeError after the log line: nothing is rendered and the
    registry and the values stay as they were.  So before [registerSettings]
    has run both change handlers throw, with nothing rendered. *)
Theorem setSettingVisibility_unregistered (g : GameState) (name value : string)
    (visible : option bool) :
  Obj.has (MODULE_ID ++ "." ++ name) (registry g) = false ->
  let g' := after (setSettingVisibility name visible) g in
  outcome (setSettingVisibility name visible) g = TypeError
  /\ registry g' = registry g
  /\ values g' = values g
  /\ calls g' = (calls g ++ [visibilityLog name
                               (match visible with Some b => b | None => true end)])%list
  /\ (registry g = [] ->
      outcome (updateLosSetting value) g = TypeError
      /\ outcome (updateCoverSetting value) g = TypeError
      /\ registry (after (updateLosSetting value) g) = []
      /\ registry (after (updateCoverSetting value) g) = []
      /\ ~ In SheetRender (skipn (List.length (calls g))
                                (calls (after (updateCoverSetting value) g)))).
Proof.
  intros Hhas. cbv zeta. unfold Obj.has in Hhas.
  destruct (Obj.get (MODULE_ID ++ "." ++ name) (registry g)) eqn:Hget; [discriminate|].
  unfold outcome, after. rewrite (setSettingVisibility_missing name visible g Hget).
  cbn [fst snd registry values calls].
  split; [reflexivity|]. split; [reflexivity|]. split; [reflexivity|].
  split; [reflexivity|].
  intros Hempty.
  assert (Hlos : updateLosSetting value g
                 = (TypeError,
                    mkGameState (system_id g) (localize g) [] (values g)
                      (calls g ++ [ConsoleLog ("Changing to " ++ value);
                                   Notify ("Changing to " ++ value);
                                   visibilityLog LOS.PERCENT_AREA
                                     (String.eqb value LOS.TYPES.AREA)])%list)).
  { unfold updateLosSetting, setSettingVisibility, log, did, gets, modify, sbind, throw,
      visibilityLog.
    cbn [system_id localize registry values calls]. rewrite Hempty.
    cbn [Obj.get]. now rewrite <- !app_assoc. }
  assert (Hcover : updateCoverSetting value g
                 = (TypeError,
                    mkGameState (system_id g) (localize g) [] (values g)
                      (calls g ++ [ConsoleLog ("Changing to " ++ value);
                                   Notify ("Changing to " ++ value);
                                   visibilityLog COVER.TRIGGER_CORNERS.LOW
                                     (negb (String.eqb value COVER.TYPES.AREA
                                            || String.eqb value COVER.TYPES.AREA_3D
                                            || String.eqb value COVER.TYPES.CENTER_CENTER))])%list)).
  { rewrite updateCoverSetting_calls. cbn [setVisibilities].
    apply sbind_threw.
    rewrite setSettingVisibility_missing
      by (cbn [registry]; rewrite Hempty; reflexivity).
    cbn [system_id localize registry values calls]. rewrite Hempty.
    now rewrite <- app_assoc. }
  rewrite Hlos, Hcover. cbn [fst snd registry calls].
  repeat split.
  rewrite skipn_app, skipn_all, Nat.sub_diag. cbn.
  intros [H|[H|[H|[]]]]; discriminate.
Qed.

(** X17. [registerSettings] never throws and touches no setting value.  It
    registers every key of the [SETTINGS] object but [use-module], each with
    world scope; every numeric default lies within the range registered
    with it; and every default of a setting with choices is one of the
    choice keys, except for the center trigger, whose default is the cover
    name of the system: a choice key for neither dnd5e nor pf2e.  On an
    empty registry that makes seventeen settings under distinct keys. *)
Theorem registerSettings_defaults (g : GameState) :
  let g1 := after registerSettings g in
  outcome registerSettings g = Returned tt
  /\ values g1 = values g
  /\ Obj.has (MODULE_ID ++ "." ++ USE_MODULE) (registry g1)
     = Obj.has (MODULE_ID ++ "." ++ USE_MODULE) (registry g)
  /\ (forall k, In k settingKeys -> k <> USE_MODULE ->
        exists d, Obj.get (MODULE_ID ++ "." ++ k) (registry g1) = Some d
          /\ data_scope d = "world"
          /\ (forall r, data_range d = Some r ->
                inRange (data_default d) r = true /\ data_type d = TNumber)
          /\ (forall c, data_choices d = Some c ->
                isChoice (data_default d) c
                = negb (String.eqb k COVER.TRIGGER_CENTER)
                  || negb (String.eqb (system_id g) "dnd5e"
                           || String.eqb (system_id g) "pf2e")))
  /\ (registry g = [] ->
      List.length (registry g1) = 17 /\ NoDup (Obj.keys (registry g1))).
Proof.
  cbv zeta.
  destruct (registerSettings_spec g) as (Hout & Hreg & Hval & _).
  split; [exact Hout|]. split; [exact Hval|]. split; [|split].
  - unfold Obj.has. now rewrite Hreg.
  - intros k Hk Hne. rewrite Hreg. cbn in Hk.
    repeat (destruct Hk as [<-|Hk]; [try congruence|]); try contradiction;
      (eexists; split; [reflexivity|]; split; [reflexivity|]; split;
       [intros r Hr; cbn in Hr; try discriminate; injection Hr as <-; now split
       |intros c Hc; cbn in Hc; try discriminate; injection Hc as <-]);
      try reflexivity.
    cbn. unfold getCoverNames.
    destruct (String.eqb (system_id g) "dnd5e"); [reflexivity|].
    destruct (String.eqb (system_id g) "pf2e"); reflexivity.
  - intros Hempty. unfold after, registerSettings, log, did, gets, modify, sbind.
    cbn [system_id localize registry values calls]. rewrite Hempty.
    split; [reflexivity|]. apply distinct_NoDup. reflexivity.
Qed.

End SettingsFacts.

(* ------------------------------------------------------------------ *)
(** ** settings.js: the settings sheet *)

Section SettingsSheet.

Import SettingsJs ObjFacts.
Local Open Scope string_scope.
Local Open Scope script_scope.

Context {Out : Type}.
Variable wrapper : Script GameState Out.

Lemma inGame_state {A} (m : Script GameState A) (s : Session) :
  snd (snd (inGame m s)) = snd s.
Proof. unfold inGame. now destruct (m (fst s)). Qed.

(** What [closeSettingsConfig] does once the wrapped method has returned. *)
Lemma closeSettingsConfig_returned (s : Session) (out : Out) (g' : GameState) :
  wrapper (fst s) = (Returned out, g') ->
  let los := ORIGINAL_LOS_ALGORITHM (snd s) in
  let cover := ORIGINAL_COVER_ALGORITHM (snd s) in
  outcome (closeSettingsConfig wrapper) s = Returned out
  /\ values (fst (after (closeSettingsConfig wrapper) s)) LOS.ALGORITHM
     = (if truthy los then los else values g' LOS.ALGORITHM)
  /\ values (fst (after (closeSettingsConfig wrapper) s)) COVER.ALGORITHM
     = (if truthy cover then cover else values g' COVER.ALGORITHM)
  /\ ORIGINAL_LOS_ALGORITHM (snd (after (closeSettingsConfig wrapper) s))
     = (if truthy los then VUndefined else los)
  /\ ORIGINAL_COVER_ALGORITHM (snd (after (closeSettingsConfig wrapper) s))
     = (if truthy cover then VUndefined else cover).
Proof.
  intros Hw. cbv zeta. destruct s as [g [los cover]]. cbn [fst snd] in *.
  unfold outcome, after, closeSettingsConfig, inGame, setSetting, setOriginalLos,
    setOriginalCover, did, gets, modify, sbind, sret.
  cbn [fst snd]. rewrite Hw. cbn.
  destruct (truthy los); cbn; destruct (truthy cover); cbn; repeat split; reflexivity.
Qed.

(** What [tempUpdateLosSetting] leaves. *)
Lemma tempUpdateLosSetting_spec (value : string) (s : Session) :
  let s' := after (tempUpdateLosSetting value) s in
  outcome (tempUpdateLosSetting value) s = Returned tt
  /\ ORIGINAL_LOS_ALGORITHM (snd s') = values (fst s) LOS.ALGORITHM
  /\ ORIGINAL_COVER_ALGORITHM (snd s') = ORIGINAL_COVER_ALGORITHM (snd s)
  /\ values (fst s') LOS.ALGORITHM = VString value
  /\ (forall k, k <> LOS.ALGORITHM -> values (fst s') k = values (fst s) k)
  /\ calls (fst s') = (calls (fst s) ++ [SettingsSet LOS.ALGORITHM (VString value)])%list.
Proof.
  destruct s as [g [los cover]]. cbv zeta.
  unfold outcome, after, tempUpdateLosSetting, inGame, getSetting, setSetting,
    setOriginalLos, did, gets, modify, sbind, sret.
  cbn [fst snd ORIGINAL_LOS_ALGORITHM ORIGINAL_COVER_ALGORITHM values calls].
  repeat split.
  intros k Hk. now destruct (String.eqb_spec k LOS.ALGORITHM).
Qed.

Lemma tempUpdateCoverSetting_spec (value : string) (s : Session) :
  let s' := after (tempUpdateCoverSetting value) s in
  outcome (tempUpdateCoverSetting value) s = Returned tt
  /\ ORIGINAL_COVER_ALGORITHM (snd s') = values (fst s) COVER.ALGORITHM
  /\ ORIGINAL_LOS_ALGORITHM (snd s') = ORIGINAL_LOS_ALGORITHM (snd s)
  /\ values (fst s') COVER.ALGORITHM = VString value
  /\ (forall k, k <> COVER.ALGORITHM -> values (fst s') k = values (fst s) k)
  /\ calls (fst s') = (calls (fst s) ++ [SettingsSet COVER.ALGORITHM (VString value)])%list.
Proof.
  destruct s as [g [los cover]]. cbv zeta.
  unfold outcome, after, tempUpdateCoverSetting, inGame, getSetting, setSetting,
    setOriginalCover, did, gets, modify, sbind, sret.
  cbn [fst snd ORIGINAL_LOS_ALGORITHM ORIGINAL_COVER_ALGORITHM values calls].
  repeat split.
  intros k Hk. now destruct (String.eqb_spec k COVER.ALGORITHM).
Qed.

(** X18. A change of the algorithm in the settings sheet is undone when the
    sheet is closed: after [tempUpdateLosSetting] or
    [tempUpdateCoverSetting] and then [closeSettingsConfig], the setting
    reads as it did before the change, whatever the wrapped close did to
    it, and the saved original is cleared.  After two changes in a row the
    close restores the value of the first change, not the original: the
    second change has overwritten what was saved. *)
Theorem closeSettingsConfig_restores (s : Session) (a b : string) :
  (forall g, outcome wrapper g <> TypeError) ->
  truthy (values (fst s) LOS.ALGORITHM) = true ->
  truthy (values (fst s) COVER.ALGORITHM) = true ->
  a <> "" ->
  let close := closeSettingsConfig wrapper in
  let once := after close (after (tempUpdateLosSetting a) s) in
  let twice := after close (after (tempUpdateLosSetting b) (after (tempUpdateLosSetting a) s)) in
  let cover := after close (after (tempUpdateCoverSetting a) s) in
  (values (fst once) LOS.ALGORITHM = values (fst s) LOS.ALGORITHM
   /\ ORIGINAL_LOS_ALGORITHM (snd once) = VUndefined)
  /\ (values (fst cover) COVER.ALGORITHM = values (fst s) COVER.ALGORITHM
      /\ ORIGINAL_COVER_ALGORITHM (snd cover) = VUndefined)
  /\ (values (fst twice) LOS.ALGORITHM = VString a
      /\ ORIGINAL_LOS_ALGORITHM (snd twice) = VUndefined).
Proof.
  intros Hw Hlos Hcover Ha. cbv zeta.
  assert (Hclose : forall s0 : Session, exists out g',
            wrapper (fst s0) = (Returned out, g')).
  { intros s0. specialize (Hw (fst s0)). unfold outcome in Hw.
    destruct (wrapper (fst s0)) as [[out|] g']; [now exists out, g'|contradiction]. }
  assert (Ha' : truthy (VString a) = true).
  { cbn. now destruct (String.eqb_spec a ""). }
  split; [|split].
  - destruct (tempUpdateLosSetting_spec a s) as (_ & Ho & _).
    destruct (Hclose (after (tempUpdateLosSetting a) s)) as (out & g' & Hrun).
    destruct (closeSettingsConfig_returned _ out g' Hrun) as (_ & Hv & _ & Hl & _).
    rewrite Hv, Hl, Ho, Hlos. now split.
  - destruct (tempUpdateCoverSetting_spec a s) as (_ & Ho & _).
    destruct (Hclose (after (tempUpdateCoverSetting a) s)) as (out & g' & Hrun).
    destruct (closeSettingsConfig_returned _ out g' Hrun) as (_ & _ & Hv & _ & Hl).
    rewrite Hv, Hl, Ho, Hcover. now split.
  - destruct (tempUpdateLosSetting_spec a s) as (_ & _ & _ & Hv1 & _).
    destruct (tempUpdateLosSetting_spec b (after (tempUpdateLosSetting a) s)) as (_ & Ho & _).
    destruct (Hclose (after (tempUpdateLosSetting b) (after (tempUpdateLosSetting a) s)))
      as (out & g' & Hrun).
    destruct (closeSettingsConfig_returned _ out g' Hrun) as (_ & Hv & _ & Hl & _).
    rewrite Hv, Hl, Ho, Hv1, Ha'. now split.
Qed.

(** X19. Closing the settings sheet restores nothing when there is nothing
    saved, and that is the case after a submit: [_onSubmitSettingsConfig]
    leaves both saved originals falsy, so a later [closeSettingsConfig] is
    the wrapped close and nothing more.  When the wrapped close throws,
    [closeSettingsConfig] throws with it and restores nothing either: the
    saved originals stay as they were.  A saved original that is an empty
    string counts as none. *)
Theorem closeSettingsConfig_after_submit {Out' : Type}
    (submit : Script GameState Out') (s : Session) :
  let submitted := after (_onSubmitSettingsConfig submit) s in
  (truthy (ORIGINAL_LOS_ALGORITHM (snd submitted)) = false
   /\ truthy (ORIGINAL_COVER_ALGORITHM (snd submitted)) = false
   /\ fst submitted = snd (submit (fst s))
   /\ outcome (_onSubmitSettingsConfig submit) s = fst (submit (fst s)))
  /\ closeSettingsConfig wrapper submitted = inGame wrapper submitted
  /\ (truthy (ORIGINAL_LOS_ALGORITHM (snd s)) = false ->
      truthy (ORIGINAL_COVER_ALGORITHM (snd s)) = false ->
      closeSettingsConfig wrapper s = inGame wrapper s)
  /\ (outcome wrapper (fst s) = TypeError ->
      closeSettingsConfig wrapper s = inGame wrapper s
      /\ snd (after (closeSettingsConfig wrapper) s) = snd s).
Proof.
  cbv zeta.
  assert (Hnone : forall s0 : Session,
            truthy (ORIGINAL_LOS_ALGORITHM (snd s0)) = false ->
            truthy (ORIGINAL_COVER_ALGORITHM (snd s0)) = false ->
            closeSettingsConfig wrapper s0 = inGame wrapper s0).
  { intros [g [los cover]] Hl Hc. cbn [fst snd ORIGINAL_LOS_ALGORITHM
                                        ORIGINAL_COVER_ALGORITHM] in *.
    unfold closeSettingsConfig, inGame, gets, sbind, sret. cbn [fst snd].
    destruct (wrapper g) as [[out|] g']; [|reflexivity].
    cbn [fst snd ORIGINAL_LOS_ALGORITHM ORIGINAL_COVER_ALGORITHM].
    rewrite Hl. cbn [fst snd ORIGINAL_LOS_ALGORITHM ORIGINAL_COVER_ALGORITHM].
    now rewrite Hc. }
  assert (Hsub : truthy (ORIGINAL_LOS_ALGORITHM (snd (after (_onSubmitSettingsConfig submit) s)))
                 = false
                 /\ truthy (ORIGINAL_COVER_ALGORITHM
                              (snd (after (_onSubmitSettingsConfig submit) s))) = false
                 /\ fst (after (_onSubmitSettingsConfig submit) s) = snd (submit (fst s))
                 /\ outcome (_onSubmitSettingsConfig submit) s = fst (submit (fst s))).
  { destruct s as [g [los cover]].
    unfold outcome, after, _onSubmitSettingsConfig, inGame, setOriginalLos, setOriginalCover,
      gets, modify, sbind, sret.
    cbn [fst snd ORIGINAL_LOS_ALGORITHM ORIGINAL_COVER_ALGORITHM].
    destruct (truthy los) eqn:Hl;
      cbn [fst snd ORIGINAL_LOS_ALGORITHM ORIGINAL_COVER_ALGORITHM];
      destruct (truthy cover) eqn:Hc;
      cbn [fst snd ORIGINAL_LOS_ALGORITHM ORIGINAL_COVER_ALGORITHM];
      destruct (submit g) as [o g']; cbn [fst snd ORIGINAL_LOS_ALGORITHM
                                            ORIGINAL_COVER_ALGORITHM];
      repeat split; assumption || reflexivity. }
  split; [exact Hsub|]. split; [|split].
  - destruct Hsub as (Hl & Hc & _). now apply Hnone.
  - apply Hnone.
  - intros Hthrow. destruct s as [g originals]. unfold outcome in Hthrow. cbn [fst] in Hthrow.
    unfold after, closeSettingsConfig, inGame, sbind. cbn [fst snd].
    destruct (wrapper g) as [[out|] g']; [discriminate|]. now split.
Qed.

End SettingsSheet.

(* ------------------------------------------------------------------ *)
(** ** const.js, patching.js and the combat turn *)

Section CoverConstants.

Import ConstJs.
Local Open Scope string_scope.

(** X20. The cover tables of const.js agree with each other.  The id a
    category has for a module is listed in [COVER.IDS] for that module and
    in [COVER.IDS.ALL], and [COVER.TYPES_FOR_ID] gives it the cover type of
    the category; the ids of dfreds are the names of [COVER.DFRED_NAMES]
    behind a fixed prefix.  The six ids of [COVER.IDS.ALL] are distinct and
    each has a type from LOW to HIGH, never NONE or TOTAL.  The lowercase
    ids have a type too, but are in no id set.  [COVER.MIN] and [COVER.MAX]
    are NONE and TOTAL, and every type above NONE has a name for SFRPG. *)
Theorem cover_tables_agree :
  (forall category module id,
      COVER.idFor category module = Some id ->
      Obj.get module COVER.IDS = Some (if String.eqb module MODULE_ID
                                       then COVER.IDS_module else COVER.IDS_dfreds)
      /\ In id (if String.eqb module MODULE_ID then COVER.IDS_module else COVER.IDS_dfreds)
      /\ In id COVER.IDS_ALL
      /\ COVER.typeForId module id = Obj.get category COVER.TYPES)
  /\ (forall category name,
        Obj.get category COVER.DFRED_NAMES = Some name ->
        COVER.idFor category COVER.dfreds = Some ("Convenient Effect: " ++ name))
  /\ (NoDup COVER.IDS_ALL /\ List.length COVER.IDS_ALL = 6)
  /\ (forall id, In id COVER.IDS_ALL ->
        exists module t, COVER.typeForId module id = Some t
                         /\ (COVER.TYPE.LOW <= t <= COVER.TYPE.HIGH)%Z)
  /\ (forall level, In level ["low"; "medium"; "high"] ->
        COVER.typeForId MODULE_ID (MODULE_ID ++ ".cover." ++ level) <> None
        /\ ~ In (MODULE_ID ++ ".cover." ++ level) COVER.IDS_ALL)
  /\ (COVER.MIN = Some COVER.TYPE.NONE /\ COVER.MAX = Some COVER.TYPE.TOTAL)
  /\ (forall name t, In (name, t) COVER.TYPES -> t <> COVER.TYPE.NONE ->
        exists label, In (t, label) COVER.SFRPG).
Proof.
  split; [|split; [|split; [|split; [|split; [|split]]]]].
  - intros category module id. unfold COVER.idFor, COVER.CATEGORIES. cbn [Obj.get].
    destruct (String.eqb_spec "LOW" category) as [<-|_];
      [|destruct (String.eqb_spec "MEDIUM" category) as [<-|_];
        [|destruct (String.eqb_spec "HIGH" category) as [<-|_]; [|discriminate]]];
      cbn [Obj.get];
      (destruct (String.eqb_spec COVER.dfreds module) as [<-|_];
       [|destruct (String.eqb_spec MODULE_ID module) as [<-|_]; [|discriminate]]);
      intros [= <-]; vm_compute; intuition congruence.
  - intros category name. unfold COVER.DFRED_NAMES. cbn [Obj.get].
    destruct (String.eqb_spec "LOW" category) as [<-|_]; [now intros [= <-]|].
    destruct (String.eqb_spec "MEDIUM" category) as [<-|_]; [now intros [= <-]|].
    destruct (String.eqb_spec "HIGH" category) as [<-|_]; [now intros [= <-]|].
    discriminate.
  - split; [|reflexivity].
    vm_compute. repeat constructor; cbn; intuition discriminate.
  - intros id Hid. vm_compute in Hid.
    destruct Hid as [<-|[<-|[<-|[<-|[<-|[<-|[]]]]]]].
    1-3: exists MODULE_ID; eexists; split; [reflexivity|vm_compute; intuition discriminate].
    all: exists COVER.dfreds; eexists; split; [reflexivity|vm_compute; intuition discriminate].
  - intros level [<-|[<-|[<-|[]]]]; (split; [vm_compute; discriminate|]);
      vm_compute; intuition discriminate.
  - split; reflexivity.
  - intros name t Hin Hne. cbn in Hin.
    destruct Hin as [[= _ <-]|[[= _ <-]|[[= _ <-]|[[= _ <-]|[[= _ <-]|[]]]]]];
      [congruence| | | |]; eexists; cbn; eauto 10.
Qed.

(** X21. The module flags and the patch groups.  The init hook of const.js
    never updates the [EV] flag: it stays false and the state of the
    elevatedvision module goes to a new key.  With the flags of the hook,
    [initializePatching] registers [BASIC] and [ConstrainedTokenBorder]
    first, then exactly one of [LEVELS] and [NO_LEVELS], the first one when
    the levels module is installed and active; for dnd5e one group more,
    which is [DND5E_NO_MIDI] exactly when midi-qol is active; and [sfrpg]
    for that system only.  No group is registered twice. *)
Theorem initializePatching_groups (modules : string -> option bool) (system_id : string) :
  let flags := init modules MODULES_ACTIVE in
  let groups := PatchingJs.initializePatching flags system_id in
  (read flags "EV" = VBoolean false
   /\ Obj.keys flags = (Obj.keys MODULES_ACTIVE ++ ["ELEVATED_VISION"])%list
   /\ read flags "ELEVATED_VISION" = active modules "elevatedvision")
  /\ firstn 2 groups = ["BASIC"; "ConstrainedTokenBorder"]
  /\ NoDup groups
  /\ 3 <= List.length groups <= 4
  /\ (In "LEVELS" groups <-> modules "levels" = Some true)
  /\ (In "NO_LEVELS" groups <-> modules "levels" <> Some true)
  /\ (In "DND5E_NO_MIDI" groups <-> system_id = "dnd5e" /\ modules "midi-qol" = Some true)
  /\ (In "DND5E_MIDI" groups <-> system_id = "dnd5e" /\ modules "midi-qol" <> Some true)
  /\ (In "sfrpg" groups <-> system_id = "sfrpg").
Proof.
  cbv zeta.
  assert (Hlevels : read (init modules MODULES_ACTIVE) "LEVELS" = active modules "levels")
    by reflexivity.
  assert (Hmidi : read (init modules MODULES_ACTIVE) "MIDI_QOL" = active modules "midi-qol")
    by reflexivity.
  split; [repeat split|].
  unfold PatchingJs.initializePatching. rewrite Hlevels, Hmidi. unfold active.
  destruct (modules "levels") as [[|]|], (modules "midi-qol") as [[|]|];
    cbn [truthy];
    (destruct (String.eqb_spec system_id "dnd5e") as [->|Hd];
     [|destruct (String.eqb_spec system_id "sfrpg") as [->|Hs]]);
    cbn;
    (split; [reflexivity|]);
    (split; [repeat constructor; cbn; intuition discriminate|]);
    (split; [lia|]);
    repeat split; intros; intuition (discriminate || congruence).
Qed.


End CoverConstants.

Section CombatTurn.

Import ConstJs CombatJs.

Lemma collect_bound (playerOwners : list nat) (tokens : list CoverToken) :
  forall (userTargetedTokens : list CoverToken) (done : list CoverCall),
  collect true playerOwners tokens userTargetedTokens done
  = (userTargetedTokens ++ filter (targetedByOwner playerOwners) tokens,
     done ++ map (fun t => DisableAllCover (token_id t)) tokens, true).
Proof.
  induction tokens as [|token rest IH]; intros targetedTokens done; cbn [collect filter map].
  - now rewrite !app_nil_r.
  - rewrite IH. destruct (targetedByOwner playerOwners token); now rewrite <- !app_assoc.
Qed.

(** X23. [CoverCalculator] is neither imported nor declared in the file of
    the combat turn hook.  Unless the global scope has it, the hook is
    rejected with a ReferenceError at the first token of the scene, before
    the cover of any token is disabled and before any cover effect is set;
    only on a scene without tokens does it return, having done nothing.
    With a global [CoverCalculator] the cover of every token of the scene is
    disabled, in scene order and once each, the tokens targeted by an owner
    of the combatant included; after that the cover effect is set once for
    each token that an owner of the combatant targets, seen from the token
    of the combatant, and for no token when the combatant has no player
    owner. *)
Theorem combatTurn_calls (playerOwners : list nat) (combatToken : CoverToken)
    (tokens : list CoverToken) :
  let targets := filter (targetedByOwner playerOwners) tokens in
  (tokens <> [] -> combatTurn false playerOwners combatToken tokens = ReferenceError [])
  /\ combatTurn false playerOwners combatToken [] = Completed []
  /\ (forall bound, callsOf (combatTurn bound playerOwners combatToken tokens) <> [] ->
        bound = true)
  /\ combatTurn true playerOwners combatToken tokens
     = Completed (map (fun t => DisableAllCover (token_id t)) tokens
                  ++ map (SetTargetCoverEffect combatToken) targets)
  /\ (forall viewer target,
        In (SetTargetCoverEffect viewer target)
           (callsOf (combatTurn true playerOwners combatToken tokens)) ->
        viewer = combatToken /\ In target tokens
        /\ exists owner, In owner playerOwners /\ In owner (targeted target))
  /\ (playerOwners = [] ->
      combatTurn true playerOwners combatToken tokens
      = Completed (map (fun t => DisableAllCover (token_id t)) tokens)).
Proof.
  cbv zeta.
  assert (Hbound : combatTurn true playerOwners combatToken tokens
                   = Completed (map (fun t => DisableAllCover (token_id t)) tokens
                                ++ map (SetTargetCoverEffect combatToken)
                                     (filter (targetedByOwner playerOwners) tokens))).
  { unfold combatTurn. rewrite collect_bound. cbn [app negb].
    destruct (filter (targetedByOwner playerOwners) tokens); [|reflexivity].
    now rewrite app_nil_r. }
  assert (Hunbound : combatTurn false playerOwners combatToken tokens
                     = match tokens with [] => Completed [] | _ => ReferenceError [] end).
  { unfold combatTurn. destruct tokens as [|token rest]; [reflexivity|].
    cbn [collect]. reflexivity. }
  split; [|split; [|split; [|split; [|split]]]].
  - intros Hne. rewrite Hunbound. destruct tokens; [now elim Hne|reflexivity].
  - reflexivity.
  - intros [|] Hcalls; [reflexivity|]. rewrite Hunbound in Hcalls.
    destruct tokens; now elim Hcalls.
  - exact Hbound.
  - rewrite Hbound. cbn [callsOf]. intros viewer target Hin.
    apply in_app_or in Hin as [Hin|Hin].
    + apply in_map_iff in Hin as (t & Heq & _). discriminate.
    + apply in_map_iff in Hin as (t & [= <- <-] & Ht).
      apply filter_In in Ht as [Ht Htargeted]. split; [reflexivity|]. split; [exact Ht|].
      unfold targetedByOwner in Htargeted.
      apply existsb_exists in Htargeted as (owner & Howner & Hhas).
      apply existsb_exists in Hhas as (u & Hu & Heq).
      apply Nat.eqb_eq in Heq. subst u. now exists owner.
  - intros Hnone. rewrite Hbound.
    assert (Hfilter : filter (targetedByOwner playerOwners) tokens = []).
    { rewrite Hnone. clear. induction tokens as [|t rest IH]; [reflexivity|]. exact IH. }
    rewrite Hfilter. cbn [map]. now rewrite app_nil_r.
Qed.

End CombatTurn.

(** An empty registry: the percent-area setting is not registered. *)
Lemma setSettingVisibility_unregistered_witness :
  let g := SettingsJs.mkGameState "dnd5e" (fun s => s) [] (fun _ => VUndefined) [] in
  Obj.has (SettingsJs.MODULE_ID ++ "." ++ SettingsJs.LOS.PERCENT_AREA)
          (SettingsJs.registry g) = false
  /\ SettingsJs.outcome (SettingsJs.setSettingVisibility SettingsJs.LOS.PERCENT_AREA
                           (Some true)) g = TypeError
  /\ SettingsJs.outcome (SettingsJs.updateCoverSetting SettingsJs.COVER.TYPES.AREA) g
     = TypeError.
Proof.
  cbv zeta. split; [reflexivity|].
  destruct (setSettingVisibility_unregistered
              (SettingsJs.mkGameState "dnd5e" (fun s => s) [] (fun _ => VUndefined) [])
              SettingsJs.LOS.PERCENT_AREA SettingsJs.COVER.TYPES.AREA (Some true) eq_refl)
    as (Wthrows & _ & _ & _ & Whandlers).
  split; [exact Wthrows|]. now destruct (Whandlers eq_refl) as (_ & Wcover & _).
Defined.

(** The points algorithm changed to the area algorithm and the sheet closed;
    the wrapped close does nothing. *)
Lemma closeSettingsConfig_restores_witness :
  let g := SettingsJs.mkGameState "dnd5e" (fun s => s) []
             (fun k => if String.eqb k SettingsJs.LOS.ALGORITHM
                       then VString SettingsJs.LOS.TYPES.POINTS
                       else VString SettingsJs.COVER.TYPES.CENTER_CORNER) [] in
  let s := (g, SettingsJs.mkOriginals VUndefined VUndefined) in
  let wrapper := @sret SettingsJs.GameState unit tt in
  let changed := SettingsJs.after (SettingsJs.tempUpdateLosSetting SettingsJs.LOS.TYPES.AREA) s in
  let closed := SettingsJs.after (SettingsJs.closeSettingsConfig wrapper) changed in
  (truthy (SettingsJs.values (fst s) SettingsJs.LOS.ALGORITHM) = true
   /\ truthy (SettingsJs.values (fst s) SettingsJs.COVER.ALGORITHM) = true)
  /\ SettingsJs.values (fst changed) SettingsJs.LOS.ALGORITHM
     = VString SettingsJs.LOS.TYPES.AREA
  /\ SettingsJs.values (fst closed) SettingsJs.LOS.ALGORITHM
     = VString SettingsJs.LOS.TYPES.POINTS.
Proof.
  cbv zeta. split; [split; reflexivity|]. split; [reflexivity|].
  assert (Hwrapper : forall g, SettingsJs.outcome (@sret SettingsJs.GameState unit tt) g
                               <> TypeError) by (intros g; discriminate).
  assert (Hname : SettingsJs.LOS.TYPES.AREA <> ""%string) by discriminate.
  destruct (closeSettingsConfig_restores (@sret SettingsJs.GameState unit tt)
              (SettingsJs.mkGameState "dnd5e" (fun s => s) []
                 (fun k => if String.eqb k SettingsJs.LOS.ALGORITHM
                           then VString SettingsJs.LOS.TYPES.POINTS
                           else VString SettingsJs.COVER.TYPES.CENTER_CORNER) [],
               SettingsJs.mkOriginals VUndefined VUndefined)
              SettingsJs.LOS.TYPES.AREA SettingsJs.LOS.TYPES.POINTS
              Hwrapper eq_refl eq_refl Hname) as ((Wonce & _) & _).
  exact Wonce.
Defined.
